(** * Self-Updating-Script: a shallow embedding of [updater.py]

    The development follows [src/updater.py]: the class [AutoUpdater]
    ([get_local_version], [get_remote_version], [check_for_updates],
    [do_update]), the helper [restart_program] and the command line
    dispatch at the bottom of the module, together with the start-up
    code of [src/main.py] and the updater in one file of
    [src/test2/main.py].

    Conventions of the model.
    - A Python [str] is a [string]; Python orders strings by code point,
      which for UTF-8 encoded text is the order of the bytes.
    - A value produced by [json.load] is a [pyval].  A float is kept by
      the number it denotes (or NaN, or an infinity).
    - The file system is a POSIX one, kept as a finite map from
      canonical paths (the list of names from the root) to nodes; there
      are no symbolic links and no permissions.  In the model of
      [updater.py] and [main.py] there are no I/O faults either, so a
      file operation fails only for a reason visible in the tree, and
      [os.execv] replaces the process.  The model of [test2/main.py],
      where a handler is put around the writing and the restart, has
      both faults: the class [Host] says when they happen.
    - The network is a function from URLs to outcomes of [requests.get].
    - [json.loads] and the reading of a zip archive are library code:
      they are the two methods of the class [Decoders].
    - The methods of [updater.py] are embedded without the calls of
      the logger; [Logged] has the methods of the check a second time,
      with the records they leave. *)

From Stdlib Require Import ZArith QArith String Ascii List Lia.
From stdpp Require Import gmap strings list.

Set Warnings "-register-all".
Open Scope string_scope.
Open Scope list_scope.

(** ** Python strings *)

Module PyStr.

(** [a < b] on [str]: the first differing character decides, a proper
    prefix is smaller. *)
Fixpoint ltb (a b : string) : bool :=
  match a, b with
  | _, EmptyString => false
  | EmptyString, String _ _ => true
  | String x a', String y b' =>
      if (N_of_ascii x <? N_of_ascii y)%N then true
      else if (N_of_ascii x =? N_of_ascii y)%N then ltb a' b'
      else false
  end.

(** [a > b] is [b < a]. *)
Definition gtb (a b : string) : bool := ltb b a.

Definition is_sep (c : ascii) : bool := Ascii.eqb c "/"%char.

(** [s.split('/')]: never empty, [''.split('/') = ['']]. *)
Fixpoint split_sep (s : string) : list string :=
  match s with
  | EmptyString => [EmptyString]
  | String c s' =>
      if is_sep c then EmptyString :: split_sep s'
      else match split_sep s' with
           | h :: t => String c h :: t
           | [] => [String c EmptyString]
           end
  end.

(** [s.split('/', 1)]: at most one cut, at the first separator. *)
Fixpoint split_sep1 (s : string) : list string :=
  match s with
  | EmptyString => [EmptyString]
  | String c s' =>
      if is_sep c then [EmptyString; s']
      else match split_sep1 s' with
           | h :: t => String c h :: t
           | [] => [String c EmptyString]
           end
  end.

(** ['/'.join(cs)] *)
Fixpoint join_sep (cs : list string) : string :=
  match cs with
  | [] => EmptyString
  | [c] => c
  | c :: r => c +:+ String "/" (join_sep r)
  end.

(** [s.startswith('/')] and [s.endswith('/')] *)
Definition startswith_sep (s : string) : bool :=
  match s with
  | String c _ => is_sep c
  | EmptyString => false
  end.

Fixpoint endswith_sep (s : string) : bool :=
  match s with
  | EmptyString => false
  | String c EmptyString => is_sep c
  | String _ s' => endswith_sep s'
  end.

(** ['/' in s] *)
Fixpoint has_sep (s : string) : bool :=
  match s with
  | EmptyString => false
  | String c s' => is_sep c || has_sep s'
  end.

(** [s == '/' * len(s)] *)
Fixpoint all_sep (s : string) : bool :=
  match s with
  | EmptyString => true
  | String c s' => is_sep c && all_sep s'
  end.

(** [s[:s.rfind('/') + 1]]: the prefix up to and including the last
    separator, empty when there is none. *)
Fixpoint upto_last_sep (s : string) : string :=
  match s with
  | EmptyString => EmptyString
  | String c s' => if has_sep s then String c (upto_last_sep s') else EmptyString
  end.

(** [s.rstrip('/')] *)
Fixpoint rstrip_sep (s : string) : string :=
  match s with
  | EmptyString => EmptyString
  | String c s' => if all_sep s then EmptyString else String c (rstrip_sep s')
  end.

End PyStr.

(** ** Values read from JSON *)

Inductive pyfloat :=
| FNaN
| FInf (negative : bool)
| FFin (q : Q).

Inductive pyval :=
| PNone
| PBool (b : bool)
| PInt (n : Z)
| PFloat (f : pyfloat)
| PStr (s : string)
| PList (l : list pyval)
| PDict (d : list (string * pyval)).

Module Py.

(** The number a [bool], [int] or [float] stands for in a comparison. *)
Definition number (v : pyval) : option pyfloat :=
  match v with
  | PBool b => Some (FFin (if b then 1 else 0))
  | PInt n => Some (FFin (inject_Z n))
  | PFloat f => Some f
  | _ => None
  end.

Definition float_eq (f g : pyfloat) : bool :=
  match f, g with
  | FInf a, FInf b => Bool.eqb a b
  | FFin p, FFin q => Qeq_bool p q
  | _, _ => false
  end.

Definition float_gt (f g : pyfloat) : bool :=
  match f, g with
  | FNaN, _ | _, FNaN => false
  | FInf true, _ => false
  | FInf false, FInf false => false
  | FInf false, _ => true
  | FFin _, FInf negative => negative
  | FFin p, FFin q => negb (Qle_bool p q)
  end.

(** [dict] lookup by key *)
Fixpoint assoc (k : string) (d : list (string * pyval)) : option pyval :=
  match d with
  | [] => None
  | (k', v) :: r => if String.eqb k k' then Some v else assoc k r
  end.

(** [bool(v)] *)
Definition truthy (v : pyval) : bool :=
  match v with
  | PNone => false
  | PBool b => b
  | PInt n => negb (n =? 0)%Z
  | PFloat f => negb (float_eq f (FFin 0))
  | PStr s => negb (String.eqb s EmptyString)
  | PList l => match l with [] => false | _ => true end
  | PDict d => match d with [] => false | _ => true end
  end.

(** [a == b]; never raises. *)
Fixpoint eq (a b : pyval) {struct a} : bool :=
  match a, b with
  | PNone, PNone => true
  | PStr s, PStr s' => String.eqb s s'
  | PList l, PList l' =>
      (fix all2 (l l' : list pyval) : bool :=
         match l, l' with
         | [], [] => true
         | x :: xs, y :: ys => eq x y && all2 xs ys
         | _, _ => false
         end) l l'
  | PDict d, PDict d' =>
      (length d =? length d')%nat &&
      (fix sub (d : list (string * pyval)) : bool :=
         match d with
         | [] => true
         | (k, v) :: r =>
             match assoc k d' with
             | Some v' => eq v v'
             | None => false
             end && sub r
         end) d
  | _, _ =>
      match number a, number b with
      | Some f, Some g => float_eq f g
      | _, _ => false
      end
  end.

Definition ne (a b : pyval) : bool := negb (eq a b).

(** [a > b]; [None] stands for [TypeError]. *)
Fixpoint gt (a b : pyval) {struct a} : option bool :=
  match a, b with
  | PStr s, PStr s' => Some (PyStr.gtb s s')
  | PList l, PList l' =>
      (fix lex (l l' : list pyval) : option bool :=
         match l, l' with
         | x :: xs, y :: ys => if eq x y then lex xs ys else gt x y
         | _ :: _, [] => Some true
         | [], _ => Some false
         end) l l'
  | _, _ =>
      match number a, number b with
      | Some f, Some g => Some (float_gt f g)
      | _, _ => None
      end
  end.

End Py.

(** ** The world: file tree, working directory, network, process *)

Inductive node :=
| File (content : list Byte.byte)
| Dir.

(** What [requests] keeps of a response. *)
Record Response := {
  status_code : Z;
  content : list Byte.byte
}.

(** The outcome of [requests.get(url)]: the call raises (connection
    failure, timeout), or there is a response. *)
Inductive http_result :=
| RequestFails
| Responds (response : Response).

Record world := World {
  tree : gmap (list string) node;     (* canonical path |-> node; the root is a directory *)
  cwd : list string;                  (* os.getcwd() *)
  http : string -> http_result;       (* requests.get *)
  executable : string;                (* sys.executable *)
  argv : list string                  (* sys.argv *)
}.

Definition with_tree (w : world) (t : gmap (list string) node) : world :=
  World t (cwd w) (http w) (executable w) (argv w).

(** One member of a zip archive: its name, and what [z.read(member)]
    gives ([None]: it raises, as for a bad checksum). *)
Record ZipInfo := {
  filename : string;
  payload : option (list Byte.byte)
}.

Class Decoders := {
  json_loads : list Byte.byte -> option pyval;        (* None: not JSON *)
  zip_members : list Byte.byte -> option (list ZipInfo) (* None: not a zip file *)
}.

(** ** Exceptions and the monad of a Python method *)

Inductive exn :=
| OSError
| RequestException
| HTTPError
| JSONDecodeError
| AttributeError
| TypeError
| IndexError
| BadZipFile.

Inductive result (A : Type) :=
| Ok (a : A)
| Raise (e : exn).
Arguments Ok {A} a.
Arguments Raise {A} e.

Definition M (A : Type) : Type := world -> result A * world.

Definition ret {A} (a : A) : M A := fun w => (Ok a, w).
Definition raise {A} (e : exn) : M A := fun w => (Raise e, w).
Definition bind {A B} (c : M A) (k : A -> M B) : M B :=
  fun w => match c w with
           | (Ok a, w') => k a w'
           | (Raise e, w') => (Raise e, w')
           end.

(** [try: c  except Exception as e: h e] *)
Definition try_except {A} (c : M A) (h : exn -> M A) : M A :=
  fun w => match c w with
           | (Ok a, w') => (Ok a, w')
           | (Raise e, w') => h e w'
           end.

Notation "'let*' x ':=' c 'in' k" := (bind c (fun x => k))
  (at level 10, x name, c at level 100, k at level 200).
Notation "c ';;;' k" := (bind c (fun _ => k))
  (at level 100, k at level 200, right associativity).

(** [for x in l: body x] *)
Fixpoint for_each {A} (l : list A) (body : A -> M unit) : M unit :=
  match l with
  | [] => ret tt
  | x :: r => body x ;;; for_each r body
  end.

(** ** The operating system: [os], [os.path], [open] *)

Module OS.

(** The text of a canonical path, as [os.getcwd()] prints it. *)
Definition path_string (p : list string) : string :=
  String "/" (PyStr.join_sep p).

Definition lookup_node (t : gmap (list string) node) (p : list string) : option node :=
  match p with
  | [] => Some Dir
  | _ => t !! p
  end.

(** The names that do not name an entry of their own. *)
Definition is_here (c : string) : bool := String.eqb c "" || String.eqb c ".".
Definition is_up (c : string) : bool := String.eqb c "..".

(** Where the lookup of a path text starts. *)
Definition start (w : world) (s : string) : list string :=
  if PyStr.startswith_sep s then [] else cwd w.

(** Going through the directories a path names, none of them created. *)
Fixpoint walk (t : gmap (list string) node) (cur : list string) (cs : list string)
  : option (list string) :=
  match cs with
  | [] => Some cur
  | c :: r =>
      if is_here c then walk t cur r
      else if is_up c then walk t (removelast cur) r
      else match lookup_node t (cur ++ [c]) with
           | Some Dir => walk t (cur ++ [c]) r
           | _ => None
           end
  end.

(** The directory that holds the last name of a path, and that name. *)
Definition resolve (w : world) (s : string) : option (list string * string) :=
  if String.eqb s "" then None
  else
    let cs := PyStr.split_sep s in
    match walk (tree w) (start w s) (removelast cs) with
    | Some d => Some (d, List.last cs "")
    | None => None
    end.

(** [os.path.exists(s)] *)
Definition path_exists (s : string) : M bool :=
  fun w =>
    match resolve w s with
    | Some (d, c) =>
        if is_here c || is_up c then (Ok true, w)
        else (Ok (bool_decide (is_Some (lookup_node (tree w) (d ++ [c])))), w)
    | None => (Ok false, w)
    end.

(** [open(s, 'r')] followed by reading the whole file. *)
Definition read_file (s : string) : M (list Byte.byte) :=
  fun w =>
    match resolve w s with
    | Some (d, c) =>
        if is_here c || is_up c then (Raise OSError, w)
        else match lookup_node (tree w) (d ++ [c]) with
             | Some (File content) => (Ok content, w)
             | _ => (Raise OSError, w)
             end
    | None => (Raise OSError, w)
    end.

(** [open(s, 'wb')]: the file is created, or emptied when it exists;
    the handle is the canonical path of the file. *)
Definition open_wb (s : string) : M (list string) :=
  fun w =>
    match resolve w s with
    | Some (d, c) =>
        if is_here c || is_up c then (Raise OSError, w)
        else match lookup_node (tree w) (d ++ [c]) with
             | Some Dir => (Raise OSError, w)
             | _ => (Ok (d ++ [c]), with_tree w (<[d ++ [c] := File []]> (tree w)))
             end
    | None => (Raise OSError, w)
    end.

(** [f.write(data)] on a handle opened by [open_wb]. *)
Definition write (f : list string) (data : list Byte.byte) : M unit :=
  fun w => (Ok tt, with_tree w (<[f := File data]> (tree w))).

(** The directories along [cs], each one made when it is missing; the
    ones made before a failure stay. *)
Fixpoint make_along (t : gmap (list string) node) (cur : list string) (cs : list string)
  : bool * gmap (list string) node :=
  match cs with
  | [] => (true, t)
  | c :: r =>
      if is_here c then make_along t cur r
      else if is_up c then make_along t (removelast cur) r
      else match lookup_node t (cur ++ [c]) with
           | Some Dir => make_along t (cur ++ [c]) r
           | None => make_along (<[cur ++ [c] := Dir]> t) (cur ++ [c]) r
           | Some (File _) => (false, t)
           end
  end.

(** [os.makedirs(s, exist_ok=True)] *)
Definition makedirs (s : string) : M unit :=
  fun w =>
    if String.eqb s "" then (Raise OSError, w)
    else
      match make_along (tree w) (start w s) (PyStr.split_sep s) with
      | (true, t) => (Ok tt, with_tree w t)
      | (false, t) => (Raise OSError, with_tree w t)
      end.

(** [os.path.join(a, b)] *)
Definition path_join (a b : string) : string :=
  if PyStr.startswith_sep b then b
  else if String.eqb a "" || PyStr.endswith_sep a then a +:+ b
  else a +:+ String "/" b.

(** [os.path.dirname(p)] *)
Definition path_dirname (p : string) : string :=
  let head := PyStr.upto_last_sep p in
  if negb (String.eqb head "") && negb (PyStr.all_sep head)
  then PyStr.rstrip_sep head
  else head.

(** [os.path.normpath(path)] *)
Definition normpath (path : string) : string :=
  if String.eqb path "" then "."
  else
    let initial_slashes : nat :=
      match path with
      | String "/" (String "/" (String "/" _)) => 1
      | String "/" (String "/" _) => 2
      | String "/" _ => 1
      | _ => 0
      end in
    let step (new_comps : list string) (comp : string) : list string :=
      if is_here comp then new_comps
      else if negb (is_up comp)
              || (Nat.eqb initial_slashes 0 && bool_decide (new_comps = []))
              || (negb (bool_decide (new_comps = []))
                  && is_up (List.last new_comps ""))
           then new_comps ++ [comp]
           else removelast new_comps in
    let new_comps := fold_left step (PyStr.split_sep path) [] in
    let joined := PyStr.join_sep new_comps in
    let path' :=
      match initial_slashes with
      | 0 => joined
      | 1 => String "/" joined
      | _ => String "/" (String "/" joined)
      end in
    if String.eqb path' "" then "." else path'.

(** [os.path.abspath(path)] *)
Definition abspath (w : world) (path : string) : string :=
  if PyStr.startswith_sep path then normpath path
  else normpath (path_join (path_string (cwd w)) path).

End OS.

(** ** [updater.py] *)

Definition DEFAULT_OWNER : string := "Johnthesuper117".
Definition DEFAULT_REPO : string := "Self-Updating-Script".
Definition DEFAULT_BRANCH : string := "main".

Record AutoUpdater := {
  owner : string;
  repo : string;
  branch : string;
  target_dir : string;
  version_url : string;
  zip_url : string;
  local_version_file : string
}.

(** [AutoUpdater.__init__] *)
Definition AutoUpdater_init (w : world) (owner repo branch target_dir : string)
  : AutoUpdater :=
  let target_dir := OS.abspath w target_dir in
  {| owner := owner;
     repo := repo;
     branch := branch;
     target_dir := target_dir;
     version_url :=
       "https://raw.githubusercontent.com/" +:+ owner +:+ "/" +:+ repo +:+ "/"
         +:+ branch +:+ "/version.json";
     zip_url :=
       "https://github.com/" +:+ owner +:+ "/" +:+ repo +:+ "/archive/refs/heads/"
         +:+ branch +:+ ".zip";
     local_version_file := OS.path_join target_dir "version.json" |}.

(** What ends a run of a script. *)
Inductive exit :=
| Returns                                   (* the code runs on to its end *)
| Exits                                     (* exit() *)
| Execs (path : string) (args : list string) (* os.execv: the process is replaced *)
| Dies (e : exn).                           (* an exception nobody caught *)

(** The flags of the command line. *)
Record Namespace := {
  check : bool;
  update : bool;
  force : bool;
  restart : bool
}.

Section Updater.
Context `{Decoders}.

(** [requests.get(url)] *)
Definition requests_get (url : string) : M Response :=
  fun w => match http w url with
           | RequestFails => (Raise RequestException, w)
           | Responds response => (Ok response, w)
           end.

(** [response.raise_for_status()] *)
Definition raise_for_status (response : Response) : M unit :=
  if (400 <=? status_code response)%Z && (status_code response <? 600)%Z
  then raise HTTPError
  else ret tt.

(** [json.loads], as [json.load(f)] and [response.json()] use it. *)
Definition json_decode (text : list Byte.byte) : M pyval :=
  match json_loads text with
  | Some v => ret v
  | None => raise JSONDecodeError
  end.

(** [data.get(key, default)]: only a [dict] has the method. *)
Definition dict_get (data : pyval) (key : string) (default : pyval) : M pyval :=
  match data with
  | PDict d => ret (match Py.assoc key d with
                    | Some v => v
                    | None => default
                    end)
  | _ => raise AttributeError
  end.

(** [l[i]] *)
Definition item {A} (l : list A) (i : nat) : M A :=
  match nth_error l i with
  | Some x => ret x
  | None => raise IndexError
  end.

(** [zipfile.ZipFile(io.BytesIO(content))] *)
Definition ZipFile (archive : list Byte.byte) : M (list ZipInfo) :=
  match zip_members archive with
  | Some z => ret z
  | None => raise BadZipFile
  end.

(** [member.is_dir()] *)
Definition is_dir (member : ZipInfo) : bool := PyStr.endswith_sep (filename member).

(** [z.read(member)] *)
Definition zip_read (member : ZipInfo) : M (list Byte.byte) :=
  match payload member with
  | Some data => ret data
  | None => raise BadZipFile
  end.

Definition get_local_version (self : AutoUpdater) : M pyval :=
  let* found := OS.path_exists (local_version_file self) in
  if negb found then ret (PStr "0.0.0")
  else
    try_except
      (let* text := OS.read_file (local_version_file self) in
       let* data := json_decode text in
       dict_get data "version" (PStr "0.0.0"))
      (fun _ => ret (PStr "0.0.0")).

Definition get_remote_version (self : AutoUpdater) : M pyval :=
  try_except
    (let* response := requests_get (version_url self) in
     raise_for_status response ;;;
     let* data := json_decode (content response) in
     dict_get data "version" PNone)
    (fun _ => ret PNone).

(** [remote_ver > local_ver] *)
Definition greater (a b : pyval) : M bool :=
  match Py.gt a b with
  | Some r => ret r
  | None => raise TypeError
  end.

Definition check_for_updates (self : AutoUpdater) : M (bool * pyval * pyval) :=
  let* local_ver := get_local_version self in
  let* remote_ver := get_remote_version self in
  if Py.truthy remote_ver && Py.ne remote_ver local_ver then
    let* newer := greater remote_ver local_ver in
    if newer then ret (true, local_ver, remote_ver)
    else ret (false, local_ver, remote_ver)
  else ret (false, local_ver, remote_ver).

(** The body of the loop of [do_update]. *)
Definition extract_member (self : AutoUpdater) (member : ZipInfo) : M unit :=
  if is_dir member then ret tt
  else
    let* rel_path := item (PyStr.split_sep1 (filename member)) 1 in
    if String.eqb rel_path "" then ret tt
    else
      let target_path := OS.path_join (target_dir self) rel_path in
      OS.makedirs (OS.path_dirname target_path) ;;;
      let* f := OS.open_wb target_path in
      let* data := zip_read member in
      OS.write f data.

Definition do_update (self : AutoUpdater) : M bool :=
  try_except
    (let* response := requests_get (zip_url self) in
     raise_for_status response ;;;
     let* z := ZipFile (content response) in
     let* first := item (map filename z) 0 in
     let* root_folder := item (PyStr.split_sep first) 0 in
     for_each z (extract_member self) ;;;
     ret true)
    (fun _ => ret false).

(** A call at the top level of a script: an exception that comes out
    of it ends the process. *)
Definition run {A} (c : M A) (k : A -> world -> exit * world) : world -> exit * world :=
  fun w => match c w with
           | (Ok a, w') => k a w'
           | (Raise e, w') => (Dies e, w')
           end.

Definition carry_on : world -> exit * world := fun w => (Returns, w).

Definition update_now : world -> exit * world :=
  fun w =>
    let updater := AutoUpdater_init w DEFAULT_OWNER DEFAULT_REPO DEFAULT_BRANCH "." in
    run (check_for_updates updater)
        (fun '(available, _, _) =>
           if available : bool then run (do_update updater) (fun _ => carry_on) else carry_on) w.

Definition restart_program : world -> exit * world :=
  fun w => (Execs (executable w) (executable w :: argv w), w).

Definition check_only : world -> exit * world :=
  fun w =>
    let updater := AutoUpdater_init w DEFAULT_OWNER DEFAULT_REPO DEFAULT_BRANCH "." in
    run (check_for_updates updater) (fun _ => carry_on) w.

(** The block under [if __name__ == "__main__":] of [updater.py]. *)
Definition cli_main (args : Namespace) : world -> exit * world :=
  fun w =>
    let updater := AutoUpdater_init w DEFAULT_OWNER DEFAULT_REPO DEFAULT_BRANCH "." in
    if force args then
      run (do_update updater) (fun _ => restart_program) w
    else if update args then
      run (check_for_updates updater)
          (fun '(available, _, _) =>
             if available : bool
             then run (do_update updater) (fun _ => restart_program)
             else carry_on) w
    else
      run (check_for_updates updater) (fun _ => carry_on) w.

(** [user_choice.lower() == 'y'] *)
Definition lower_is_y (user_choice : string) : bool :=
  String.eqb user_choice "y" || String.eqb user_choice "Y".

(** [main()] of [main.py]; [user_choice] is what [input] returns when
    it is called.  [Returns] is the application running on. *)
Definition host_main (user_choice : string) : world -> exit * world :=
  fun w =>
    let updater :=
      AutoUpdater_init w "Johnthesuper117" "Self-Updating-Script" DEFAULT_BRANCH "." in
    run (check_for_updates updater)
        (fun '(update_available, _, _) =>
           if update_available : bool then
             if lower_is_y user_choice then
               run (do_update updater)
                   (fun success w' => if success : bool then (Exits, w') else (Returns, w'))
             else carry_on
           else carry_on) w.

End Updater.

(** ** The vocabulary of the statements *)

(** Strict lexicographic order, in words: [a] comes before [b] when
    [a] is a proper prefix of [b], or when at the first place where
    they differ the character of [a] is the smaller one. *)
Definition lex_lt (a b : string) : Prop :=
  (exists c t, b = a +:+ String c t) \/
  (exists p x y a' b',
      a = p +:+ String x a' /\ b = p +:+ String y b' /\
      (N_of_ascii x < N_of_ascii y)%N).

Definition fails {A} (r : result A * world) : Prop := exists e, fst r = Raise e.

(** A manifest (or version record) without a usable [version]: not an
    object at all, or an object that has no such key. *)
Definition lacks_version (data : pyval) : Prop :=
  match data with
  | PDict d => Py.assoc "version" d = None
  | _ => True
  end.

(** [raise_for_status] raises: the status is a 4xx or a 5xx. *)
Definition error_status (r : Response) : Prop :=
  (400 <= status_code r < 600)%Z.

(** A name that a directory entry can bear. *)
Definition plain (c : string) : bool :=
  negb (OS.is_here c) && negb (OS.is_up c) && negb (PyStr.has_sep c).

(** The names a member's name is made of; the first is its root
    folder, the others are the path with the root folder stripped. *)
Definition components (member : ZipInfo) : list string :=
  PyStr.split_sep (filename member).
Definition root_of (member : ZipInfo) : string := hd "" (components member).
Definition stripped (member : ZipInfo) : list string := tl (components member).

(** A file of the archive: below the root folder, under plain names,
    with contents that can be read. *)
Definition file_member (member : ZipInfo) : bool :=
  match stripped member with
  | [] => false
  | cs => forallb plain cs
  end && bool_decide (is_Some (payload member)).

(** An archive all of whose members lie below the one folder [root]. *)
Definition single_root (root : string) (z : list ZipInfo) : bool :=
  match z with
  | [] => false
  | _ => forallb (fun m => String.eqb (root_of m) root
                           && match stripped m with [] => false | _ => true end
                           && (is_dir m || file_member m)) z
  end.

(** Where the files of an archive go below the directory [T]. *)
Definition destinations (T : list string) (z : list ZipInfo) : list (list string) :=
  map (fun m => T ++ stripped m) (List.filter (fun m => negb (is_dir m)) z).

(** The directories above a path, the root apart. *)
Definition parents (p : list string) : list (list string) :=
  map (fun n => take n p) (seq 1 (length p - 1)).

Definition free_or_dir (o : option node) : bool :=
  match o with
  | Some (File _) => false
  | _ => true
  end.

Definition not_dir (o : option node) : bool :=
  match o with
  | Some Dir => false
  | _ => true
  end.

(** The directories on the way from [cur] down to [cur ++ cs], [cur]
    apart. *)
Definition along (cur cs q : list string) : Prop :=
  exists r r', cs = r ++ r' /\ r <> [] /\ q = cur ++ r.

(** The files at [paths] can all be written into the tree [t]: the
    paths are distinct, none is a directory, and nothing above one of
    them is a file, in the tree or among the paths. *)
Definition fits (t : gmap (list string) node) (paths : list (list string)) : bool :=
  bool_decide (NoDup paths) &&
  forallb (fun p => not_dir (t !! p) &&
                    forallb (fun q => free_or_dir (t !! q) && bool_decide (q ∉ paths))
                            (parents p))
          paths.

Section Vocabulary.
Context `{Decoders}.

(** The version record is there but is of no use: it cannot be read,
    or its text is not JSON, or the JSON has no [version]. *)
Definition unusable_record (self : AutoUpdater) (w : world) : Prop :=
  fst (OS.path_exists (local_version_file self) w) = Ok true /\
  (fails (OS.read_file (local_version_file self) w) \/
   exists text,
     fst (OS.read_file (local_version_file self) w) = Ok text /\
     (json_loads text = None \/
      exists data, json_loads text = Some data /\ lacks_version data)).

(** The version a node at the place of the version record stands for:
    what [get_local_version] makes of it. *)
Definition recorded_version (o : option node) : pyval :=
  match o with
  | Some (File text) =>
      match json_loads text with
      | Some (PDict doc) =>
          match Py.assoc "version" doc with
          | Some v => v
          | None => PStr "0.0.0"
          end
      | _ => PStr "0.0.0"
      end
  | _ => PStr "0.0.0"
  end.

(** The request for the manifest fails: [requests.get] raises, or the
    status makes [raise_for_status] raise. *)
Definition remote_call_fails (self : AutoUpdater) (w : world) : Prop :=
  http w (version_url self) = RequestFails \/
  exists r, http w (version_url self) = Responds r /\ error_status r.

(** The manifest arrives and is JSON, but has no [version]. *)
Definition manifest_lacks_version (self : AutoUpdater) (w : world) : Prop :=
  exists r data,
    http w (version_url self) = Responds r /\ ~ error_status r /\
    json_loads (content r) = Some data /\ lacks_version data.

End Vocabulary.

(** ** A small installation, for running the model *)

Module Demo.

Definition bytes (s : string) : list Byte.byte := list_byte_of_string s.

(** The text [{QversionQ: QvQ}], Q being the double quote. *)
Definition quote : string := String (ascii_of_nat 34) "".
Definition manifest (v : string) : string :=
  "{" +:+ quote +:+ "version" +:+ quote +:+ ": " +:+ quote +:+ v +:+ quote +:+ "}".

(** The text [{QurlQ: QxQ}]: an object without the key [version]. *)
Definition no_version : string :=
  "{" +:+ quote +:+ "url" +:+ quote +:+ ": " +:+ quote +:+ "x" +:+ quote +:+ "}".

(** The JSON texts of the examples and what [json.loads] makes of them. *)
Definition documents : list (string * pyval) :=
  [ (manifest "1.0.0", PDict [("version", PStr "1.0.0")]);
    (manifest "1.0.1", PDict [("version", PStr "1.0.1")]);
    (no_version, PDict [("url", PStr "x")]);
    ("[1]", PList [PInt 1]) ].

(** The archives of the examples. *)
Definition one_root : list ZipInfo :=
  [ {| filename := "Repo-main/"; payload := Some [] |};
    {| filename := "Repo-main/a.txt"; payload := Some (bytes "A") |};
    {| filename := "Repo-main/src/"; payload := Some [] |};
    {| filename := "Repo-main/src/main.py"; payload := Some (bytes "print(1)") |} ].

Definition two_roots : list ZipInfo :=
  [ {| filename := "Repo-main/a.txt"; payload := Some (bytes "A") |};
    {| filename := "Other/b.txt"; payload := Some (bytes "B") |};
    {| filename := "Repo-main/c.txt"; payload := Some (bytes "C") |} ].

Definition no_root : list ZipInfo :=
  [ {| filename := "Repo-main/a.txt"; payload := Some (bytes "A") |};
    {| filename := "b.txt"; payload := Some (bytes "B") |};
    {| filename := "Repo-main/c.txt"; payload := Some (bytes "C") |} ].

Definition with_version : list ZipInfo :=
  [ {| filename := "Repo-main/version.json"; payload := Some (bytes (manifest "1.0.1")) |};
    {| filename := "Repo-main/a.txt"; payload := Some (bytes "A") |} ].

(** The bytes of an archive are left out: a name stands for them. *)
Definition archives : list (string * list ZipInfo) :=
  [ ("one-root.zip", one_root);
    ("two-roots.zip", two_roots);
    ("no-root.zip", no_root);
    ("with-version.zip", with_version) ].

Fixpoint find {A} (k : string) (l : list (string * A)) : option A :=
  match l with
  | [] => None
  | (k', a) :: r => if String.eqb k k' then Some a else find k r
  end.

#[export] Instance decoders : Decoders := {|
  json_loads text := find (string_of_list_byte text) documents;
  zip_members archive := find (string_of_list_byte archive) archives
|}.

Definition version_json : string :=
  "https://raw.githubusercontent.com/Johnthesuper117/Self-Updating-Script/main/version.json".
Definition main_zip : string :=
  "https://github.com/Johnthesuper117/Self-Updating-Script/archive/refs/heads/main.zip".

Definition ok (body : string) : http_result :=
  Responds {| status_code := 200; content := bytes body |}.
Definition server_error : http_result :=
  Responds {| status_code := 500; content := bytes "Internal Server Error" |}.

(** The two documents the servers answer with. *)
Definition net (version zip : http_result) (url : string) : http_result :=
  if String.eqb url version_json then version
  else if String.eqb url main_zip then zip
  else RequestFails.

(** The application lives in [/srv/app]; [files] are the files in it. *)
Definition installed (files : list (string * string)) : gmap (list string) node :=
  fold_right (fun '(name, text) t => <[ ["srv"; "app"; name] := File (bytes text) ]> t)
             (<[ ["srv"; "app"] := Dir ]> (<[ ["srv"] := Dir ]> ∅)) files.

Definition machine (files : list (string * string)) (version zip : http_result) : world :=
  {| tree := installed files;
     cwd := ["srv"; "app"];
     http := net version zip;
     executable := "/usr/bin/python3";
     argv := ["updater.py"; "--update"] |}.

Definition updater (w : world) : AutoUpdater :=
  AutoUpdater_init w DEFAULT_OWNER DEFAULT_REPO DEFAULT_BRANCH ".".

(** Version 1.0.0 is installed, 1.0.1 is published. *)
Definition outdated (zip : http_result) : world :=
  machine [("version.json", manifest "1.0.0")] (ok (manifest "1.0.1")) zip.

(** Version 1.0.0 is installed, the manifest has no [version]. *)
Definition versionless : world :=
  machine [("version.json", manifest "1.0.0")] (ok no_version) (ok "one-root.zip").

(** Version 1.0.0 is installed, the manifest cannot be had. *)
Definition offline : world :=
  machine [("version.json", manifest "1.0.0")] server_error server_error.

(** Version 1.0.0 is installed with a file [a.txt]; there is no
    directory [src] yet. *)
Definition lived_in : world :=
  machine [("version.json", manifest "1.0.0"); ("a.txt", "old")]
          (ok (manifest "1.0.1")) (ok "one-root.zip").

(** The members of [no_root] around the one without a folder. *)
Definition first_of_no_root : ZipInfo :=
  {| filename := "Repo-main/a.txt"; payload := Some (bytes "A") |}.
Definition bare : ZipInfo :=
  {| filename := "b.txt"; payload := Some (bytes "B") |}.
Definition last_of_no_root : ZipInfo :=
  {| filename := "Repo-main/c.txt"; payload := Some (bytes "C") |}.

(** The member of [one_root] that goes into a directory not yet there. *)
Definition main_py : ZipInfo :=
  {| filename := "Repo-main/src/main.py"; payload := Some (bytes "print(1)") |}.

(** The command line [updater.py --update]. *)
Definition update_flag : Namespace :=
  {| check := false; update := true; force := false; restart := false |}.

(** No version record. *)
Definition fresh : world :=
  machine [] (ok (manifest "1.0.1")) (ok "one-root.zip").

(** A version record that is JSON without a [version]. *)
Definition damaged : world :=
  machine [("version.json", "[1]")] (ok (manifest "1.0.1")) (ok "one-root.zip").

End Demo.


(** ** [test2/main.py]: the updater in one file *)

(** [response.text]: the body decoded to a [str]; library code, like
    the methods of [Decoders]. *)
Class TextDecoder := {
  response_text : Response -> string
}.

(** The machine under the script: the device that stores its file and
    the loader of programs.  [perform_update] has a handler around the
    writing and the restart, so a fault of either shows in what it
    leaves behind.
    - [write_fault w f data] is about [f.write(data)] up to the end of
      the [with] block: [None] when all the bytes are stored, [Some n]
      when an [OSError] is raised with the first [n] bytes stored.
    - [execv_fault w path args] says that [os.execv(path, args)] raises
      instead of replacing the process. *)
Class Host := {
  write_fault : world -> list string -> list Byte.byte -> option nat;
  execv_fault : world -> string -> list string -> bool
}.

Module PyText.

(** [s.startswith(p)] *)
Fixpoint startswith (p s : string) : bool :=
  match p, s with
  | EmptyString, _ => true
  | String _ _, EmptyString => false
  | String a p', String b s' => Ascii.eqb a b && startswith p' s'
  end.

(** [needle in hay] *)
Fixpoint contains (needle hay : string) : bool :=
  startswith needle hay
  || match hay with
     | EmptyString => false
     | String _ hay' => contains needle hay'
     end.

(** [s.encode('utf-8')], as [open(..., 'w', encoding='utf-8')] writes it. *)
Definition encode (s : string) : list Byte.byte := list_byte_of_string s.

End PyText.

Module SingleFile.

Definition CURRENT_VERSION : string := "1.0.1".
Definition REPO_URL : string :=
  "https://raw.githubusercontent.com/Johnthesuper117/Self-Updating-Script/main/".
Definition VERSION_FILE_URL : string := REPO_URL +:+ "version.json".

Section Script.
Context `{Decoders} `{TextDecoder} `{Host}.

(** [os.execv(path, args)]: it raises, or the process ends there, and
    the value says how. *)
Definition execv (path : string) (args : list string) : M exit :=
  fun w => if execv_fault w path args then (Raise OSError, w)
           else (Ok (Execs path args), w).

Definition restart_script : M exit :=
  fun w => execv (executable w) (executable w :: argv w) w.

(** [f.write(data)] on a handle opened by [OS.open_wb], and the closing
    of the file. *)
Definition write (f : list string) (data : list Byte.byte) : M unit :=
  fun w =>
    match write_fault w f data with
    | None => (Ok tt, with_tree w (<[f := File data]> (tree w)))
    | Some n => (Raise OSError, with_tree w (<[f := File (firstn n data)]> (tree w)))
    end.

(** [requests.get(url)] for whatever [remote_data.get("url")] gave:
    [requests] makes a text of it, and the text of a value that is not
    a [str] has no scheme, which is a [RequestException]. *)
Definition requests_get_value (url : pyval) : M Response :=
  match url with
  | PStr s => requests_get s
  | _ => raise RequestException
  end.

(** The download of the new code, up to [new_code = response.text]. *)
Definition download (url : pyval) : M string :=
  let* response := requests_get_value url in
  raise_for_status response ;;;
  ret (response_text response).

(** The writing of the new code over the running script, [file] being
    the value of [__file__]: the file is emptied when it is opened, and
    holds what the device has stored when the block is left. *)
Definition overwrite (file new_code : string) : M unit :=
  fun w =>
    (let* f := OS.open_wb (OS.abspath w file) in
     write f (PyText.encode new_code)) w.

Definition perform_update (file : string) (url version : pyval)
  : world -> exit * world :=
  fun w =>
    match download url w with
    | (Raise _, w') => (Returns, w')
    | (Ok new_code, w') =>
        if negb (PyText.contains "def " new_code)
           && negb (PyText.contains "import " new_code)
        then (Returns, w')
        else match (overwrite file new_code ;;; restart_script) w' with
             | (Raise _, w'') => (Returns, w'')
             | (Ok how, w'') => (how, w'')
             end
    end.

(** The exceptions the two [except] clauses of [check_for_updates]
    take: [requests.exceptions.RequestException], with the errors of
    the status and of the connection below it, and
    [json.JSONDecodeError]. *)
Definition caught (e : exn) : bool :=
  match e with
  | RequestException | HTTPError | JSONDecodeError => true
  | _ => false
  end.

(** The [try] block of [check_for_updates] up to the comparison. *)
Definition fetch_manifest : M (bool * pyval * pyval) :=
  let* response := requests_get VERSION_FILE_URL in
  raise_for_status response ;;;
  let* remote_data := json_decode (content response) in
  let* remote_version := dict_get remote_data "version" PNone in
  let* script_url := dict_get remote_data "url" PNone in
  let* newer := greater remote_version (PStr CURRENT_VERSION) in
  ret (newer, script_url, remote_version).

(** [check_for_updates()]; [Returns] is the script going on to its
    application loop. *)
Definition check_for_updates (file : string) : world -> exit * world :=
  fun w =>
    match fetch_manifest w with
    | (Ok (newer, script_url, remote_version), w') =>
        if newer : bool then perform_update file script_url remote_version w'
        else (Returns, w')
    | (Raise e, w') => if caught e then (Returns, w') else (Dies e, w')
    end.

End Script.

End SingleFile.

(** ** More vocabulary *)

(** The exits that leave the process in place. *)
Definition stays (e : exit) : bool :=
  match e with
  | Execs _ _ => false
  | _ => true
  end.

Section MoreVocabulary.
Context `{Decoders}.

(** There is no archive to install: the request fails, or the status
    is an error, or the body is not a zip file, or it is an empty one. *)
Definition no_archive (self : AutoUpdater) (w : world) : Prop :=
  http w (zip_url self) = RequestFails \/
  exists r, http w (zip_url self) = Responds r /\
            (error_status r \/ zip_members (content r) = None
             \/ zip_members (content r) = Some []).

End MoreVocabulary.

Definition is_str (v : pyval) : bool :=
  match v with
  | PStr _ => true
  | _ => false
  end.

(** A member that is a file under plain names, whatever reading it gives. *)
Definition named_file (member : ZipInfo) : bool :=
  match stripped member with
  | [] => false
  | cs => forallb plain cs
  end.

(** The member [member] with contents that can be read. *)
Definition readable_copy (member : ZipInfo) (data : list Byte.byte) : ZipInfo :=
  {| filename := filename member; payload := Some data |}.

(** A second installation: the one-file script in [/srv/app/main.py]. *)

Module Lab.

Definition script_url : string :=
  "https://raw.githubusercontent.com/Johnthesuper117/Self-Updating-Script/main/main.py".

(** The text of the manifest with version [v] and the address of the script. *)
Definition manifest (v : string) : string :=
  "{" +:+ Demo.quote +:+ "version" +:+ Demo.quote +:+ ": "
      +:+ Demo.quote +:+ v +:+ Demo.quote +:+ ", "
      +:+ Demo.quote +:+ "url" +:+ Demo.quote +:+ ": "
      +:+ Demo.quote +:+ script_url +:+ Demo.quote +:+ "}".

(** The text [{QversionQ: 2}]: a version that is a number. *)
Definition numeric : string :=
  "{" +:+ Demo.quote +:+ "version" +:+ Demo.quote +:+ ": 2}".

Definition documents : list (string * pyval) :=
  [ (manifest "1.0.2", PDict [("version", PStr "1.0.2"); ("url", PStr script_url)]);
    (manifest "1.0.1", PDict [("version", PStr "1.0.1"); ("url", PStr script_url)]);
    (Demo.manifest "1.0.2", PDict [("version", PStr "1.0.2")]);
    (Demo.manifest "1.0.0", PDict [("version", PStr "1.0.0")]);
    (Demo.manifest "1.0.1", PDict [("version", PStr "1.0.1")]);
    (Demo.manifest "", PDict [("version", PStr "")]);
    (Demo.no_version, PDict [("url", PStr "x")]);
    (numeric, PDict [("version", PInt 2)]) ].

(** An archive of directories only. *)
Definition directories : list ZipInfo :=
  [ {| filename := "Repo-main/"; payload := Some [] |};
    {| filename := "Repo-main/docs/"; payload := Some [] |} ].

#[export] Instance decoders : Decoders := {|
  json_loads text := Demo.find (string_of_list_byte text) documents;
  zip_members archive :=
    Demo.find (string_of_list_byte archive) [("directories.zip", directories)]
|}.

(** The bodies of the examples are ASCII: the text is the bytes. *)
#[export] Instance texts : TextDecoder := {|
  response_text r := string_of_list_byte (content r)
|}.

(** A machine without faults, one whose disk is full, one that
    stores four bytes and no more, and one that cannot load the
    interpreter. *)
#[export] Instance host : Host := {|
  write_fault _ _ _ := None;
  execv_fault _ _ _ := false
|}.
Definition full_disk : Host := {|
  write_fault _ _ _ := Some 0;
  execv_fault _ _ _ := false
|}.
Definition four_bytes_left : Host := {|
  write_fault _ _ _ := Some 4;
  execv_fault _ _ _ := false
|}.
Definition no_interpreter : Host := {|
  write_fault _ _ _ := None;
  execv_fault _ _ _ := true
|}.

Definition net (version script : http_result) (url : string) : http_result :=
  if String.eqb url SingleFile.VERSION_FILE_URL then version
  else if String.eqb url script_url then script
  else RequestFails.

Definition machine (version script : http_result) : world :=
  {| tree := <[ ["srv"; "app"; "main.py"] := File (Demo.bytes "import time") ]>
               (<[ ["srv"; "app"] := Dir ]> (<[ ["srv"] := Dir ]> ∅));
     cwd := ["srv"; "app"];
     http := net version script;
     executable := "/usr/bin/python3";
     argv := ["main.py"] |}.

(** Version 1.0.1 is the script's; the manifest and the new script are
    as given. *)
Definition newer_published : world :=
  machine (Demo.ok (manifest "1.0.2")) (Demo.ok "import time as t").
Definition same_published : world :=
  machine (Demo.ok (manifest "1.0.1")) (Demo.ok "import time as t").
Definition newer_without_url : world :=
  machine (Demo.ok (Demo.manifest "1.0.2")) (Demo.ok "import time as t").
Definition without_version : world :=
  machine (Demo.ok Demo.no_version) (Demo.ok "import time as t").

(** The installation of [Demo] with a manifest whose version is a number. *)
Definition numeric_published : world :=
  Demo.machine [("version.json", Demo.manifest "1.0.0")] (Demo.ok numeric)
               Demo.server_error.

(** The installation of [Demo] with a manifest whose version is the
    empty string. *)
Definition empty_published : world :=
  Demo.machine [("version.json", Demo.manifest "1.0.0")]
               (Demo.ok (Demo.manifest "")) Demo.server_error.

(** The installation of [Demo] offered the archive of directories. *)
Definition directories_offered : world :=
  Demo.machine [("version.json", Demo.manifest "1.0.0")]
               (Demo.ok (Demo.manifest "1.0.2")) (Demo.ok "directories.zip").

(** The installation of [Demo], up to date. *)
Definition up_to_date : world :=
  Demo.machine [("version.json", Demo.manifest "1.0.1")]
               (Demo.ok (Demo.manifest "1.0.1")) (Demo.ok "one-root.zip").

(** Members for [Demo.lived_in]: one that cannot be read, one that
    needs the file [a.txt] to be a directory, one with an absolute path. *)
Definition unreadable : ZipInfo :=
  {| filename := "Repo-main/a.txt"; payload := None |}.
Definition below_a_file : ZipInfo :=
  {| filename := "Repo-main/a.txt/x"; payload := Some (Demo.bytes "X") |}.
Definition absolute : ZipInfo :=
  {| filename := "Repo-main//tmp/x"; payload := Some (Demo.bytes "X") |}.

(** The command line [updater.py --force --update]. *)
Definition force_flags : Namespace :=
  {| check := false; update := true; force := true; restart := false |}.

(** The version record in the archive [Demo.with_version]. *)
Definition version_member : ZipInfo :=
  {| filename := "Repo-main/version.json";
     payload := Some (Demo.bytes (Demo.manifest "1.0.1")) |}.

(** The installation of [Demo] at version 1.0.0, with the manifest of
    1.0.1 in the body of an answer whose status is [status]. *)
Definition answered (status : Z) : world :=
  Demo.machine [("version.json", Demo.manifest "1.0.0")]
               (Responds {| status_code := status;
                            content := Demo.bytes (Demo.manifest "1.0.1") |})
               Demo.server_error.

(** The command line [updater.py --check --restart]. *)
Definition check_and_restart_flags : Namespace :=
  {| check := true; update := false; force := false; restart := true |}.

End Lab.
(** ** The log of a check *)

(** [updater.py] sets the root logger to the level INFO with a handler
    on the standard error stream, so every call of [logger.info],
    [logger.warning] and [logger.error] leaves a record, and none of
    them raises.  [Logged] has the three methods of the check once
    more, with the records they leave; a record is kept as the message
    of the source it was made from, with the values put into it. *)

Module Logged.

Inductive levelname := INFO | WARNING | ERROR.

Inductive LogRecord :=
| LocalVersionNotFound                             (* Local version.json not found. Assuming version 0.0.0 *)
| ErrorReadingLocalVersion (e : exn)               (* Error reading local version: {e} *)
| FailedToCheckRemoteVersion (e : exn)             (* Failed to check remote version: {e} *)
| UpdateAvailable (local_ver remote_ver : pyval)   (* Update Available: {local_ver} -> {remote_ver} *)
| SystemUpToDate (local_ver : pyval).              (* System up to date ({local_ver}). *)

(** The method of [logger] that makes the record. *)
Definition level (r : LogRecord) : levelname :=
  match r with
  | LocalVersionNotFound => WARNING
  | ErrorReadingLocalVersion _ => ERROR
  | FailedToCheckRemoteVersion _ => ERROR
  | UpdateAvailable _ _ => INFO
  | SystemUpToDate _ => INFO
  end.

Definition is_error (r : LogRecord) : bool :=
  match level r with
  | ERROR => true
  | _ => false
  end.

(** A method that logs: what it does to the world, and the records it
    leaves, the oldest first. *)
Definition L (A : Type) : Type := world -> result A * world * list LogRecord.

(** Code without a call of the logger. *)
Definition quiet {A} (c : M A) : L A := fun w => (c w, []).

Definition logger (r : LogRecord) : L unit := fun w => (Ok tt, w, [r]).

Definition ret {A} (a : A) : L A := fun w => (Ok a, w, []).

Definition bind {A B} (c : L A) (k : A -> L B) : L B :=
  fun w => match c w with
           | (Ok a, w', l) =>
               match k a w' with
               | (r, w'', l') => (r, w'', l ++ l')
               end
           | (Raise e, w', l) => (Raise e, w', l)
           end.

(** [try: c  except Exception as e: h e] *)
Definition try_except {A} (c : L A) (h : exn -> L A) : L A :=
  fun w => match c w with
           | (Ok a, w', l) => (Ok a, w', l)
           | (Raise e, w', l) =>
               match h e w' with
               | (r, w'', l') => (r, w'', l ++ l')
               end
           end.

Notation "x <- c ;; k" := (bind c (fun x => k))
  (at level 100, c at next level, right associativity).
Notation "c ;; k" := (bind c (fun _ => k))
  (at level 100, right associativity).

Section Check.
Context `{Decoders}.

Definition get_local_version (self : AutoUpdater) : L pyval :=
  found <- quiet (OS.path_exists (local_version_file self)) ;;
  if negb found then
    logger LocalVersionNotFound ;;
    ret (PStr "0.0.0")
  else
    try_except
      (quiet (let* text := OS.read_file (local_version_file self) in
              let* data := json_decode text in
              dict_get data "version" (PStr "0.0.0")))
      (fun e => logger (ErrorReadingLocalVersion e) ;; ret (PStr "0.0.0")).

Definition get_remote_version (self : AutoUpdater) : L pyval :=
  try_except
    (quiet (let* response := requests_get (version_url self) in
            raise_for_status response ;;;
            let* data := json_decode (content response) in
            dict_get data "version" PNone))
    (fun e => logger (FailedToCheckRemoteVersion e) ;; ret PNone).

Definition check_for_updates (self : AutoUpdater) : L (bool * pyval * pyval) :=
  local_ver <- get_local_version self ;;
  remote_ver <- get_remote_version self ;;
  if Py.truthy remote_ver && Py.ne remote_ver local_ver then
    newer <- quiet (greater remote_ver local_ver) ;;
    if newer then
      logger (UpdateAvailable local_ver remote_ver) ;;
      ret (true, local_ver, remote_ver)
    else
      logger (SystemUpToDate local_ver) ;;
      ret (false, local_ver, remote_ver)
  else
    logger (SystemUpToDate local_ver) ;;
    ret (false, local_ver, remote_ver).

End Check.

End Logged.
(** ** Strings: the order *)

Lemma N_of_ascii_inj x y : N_of_ascii x = N_of_ascii y -> x = y.
Proof.
  intros E. rewrite <- (ascii_N_embedding x), <- (ascii_N_embedding y).
  now rewrite E.
Qed.

Lemma ltb_irrefl a : PyStr.ltb a a = false.
Proof.
  induction a as [|x a IH]; simpl; [reflexivity|].
  rewrite N.ltb_irrefl, N.eqb_refl. exact IH.
Qed.

Lemma ltb_lex a b : PyStr.ltb a b = true <-> lex_lt a b.
Proof.
  revert b. induction a as [|x a IH]; intros [|y b]; simpl.
  - split; [discriminate|].
    intros [(c & t & E)|(p & x & y & a' & b' & Ea & _)].
    + discriminate.
    + destruct p; discriminate.
  - split; [|reflexivity]. intros _. left. now exists y, b.
  - split; [discriminate|].
    intros [(c & t & E)|(p & x' & y & a' & b' & _ & Eb & _)].
    + discriminate.
    + destruct p; discriminate.
  - destruct (N.ltb_spec (N_of_ascii x) (N_of_ascii y)) as [Hlt|Hge].
    + split; [|reflexivity]. intros _. right.
      exists "", x, y, a, b. now repeat split.
    + destruct (N.eqb_spec (N_of_ascii x) (N_of_ascii y)) as [Heq|Hne].
      * apply N_of_ascii_inj in Heq. subst y. rewrite IH. split.
        -- intros [(c & t & E)|(p & x' & y & a' & b' & Ea & Eb & Hxy)].
           ++ left. exists c, t. simpl. now rewrite E.
           ++ right. exists (String x p), x', y, a', b'. simpl.
              now rewrite Ea, Eb.
        -- intros [(c & t & E)|(p & x' & y & a' & b' & Ea & Eb & Hxy)].
           ++ left. exists c, t. simpl in E. now injection E.
           ++ destruct p as [|z p]; simpl in Ea, Eb.
              ** injection Ea as -> _. injection Eb as -> _. lia.
              ** injection Ea as _ ->. injection Eb as _ ->.
                 right. now exists p, x', y, a', b'.
      * split; [discriminate|].
        intros [(c & t & E)|(p & x' & y' & a' & b' & Ea & Eb & Hxy)].
        -- simpl in E. injection E as E _. now subst.
        -- destruct p as [|z p]; simpl in Ea, Eb.
           ++ injection Ea as -> _. injection Eb as -> _. lia.
           ++ injection Ea as -> _. injection Eb as -> _. congruence.
Qed.

Lemma ltb_empty_r a : PyStr.ltb a "" = false.
Proof. now destruct a. Qed.

(** ** Checking for an update *)

Ltac run_monad :=
  unfold bind, ret, raise, try_except in *; simpl in *.

Section Checking.
Context `{Decoders}.

Lemma path_exists_ok s w : exists b, OS.path_exists s w = (Ok b, w).
Proof.
  unfold OS.path_exists. destruct (OS.resolve w s) as [[d c]|]; [|now eexists].
  destruct (OS.is_here c || OS.is_up c); now eexists.
Qed.

Lemma read_file_cases s w :
  (exists text, OS.read_file s w = (Ok text, w)) \/ OS.read_file s w = (Raise OSError, w).
Proof.
  unfold OS.read_file. destruct (OS.resolve w s) as [[d c]|]; [|now right].
  destruct (OS.is_here c || OS.is_up c); [now right|].
  destruct (OS.lookup_node (tree w) (d ++ [c])) as [[text|]|];
    [left; now eexists|now right|now right].
Qed.

Lemma dict_get_cases data key default w :
  (exists v, dict_get data key default w = (Ok v, w)) \/
  dict_get data key default w = (Raise AttributeError, w).
Proof. destruct data; simpl; try (now right). left. now eexists. Qed.

(** [get_local_version] only reads, and hands every exception over to
    its handler: it returns a value in the same world. *)
Lemma get_local_version_returns self w :
  exists v, get_local_version self w = (Ok v, w).
Proof.
  unfold get_local_version. run_monad.
  destruct (path_exists_ok (local_version_file self) w) as [b ->].
  destruct b; simpl; [|now eexists].
  destruct (read_file_cases (local_version_file self) w) as [[text ->]| ->];
    [|now eexists].
  unfold json_decode. destruct (json_loads text) as [data|]; run_monad; [|now eexists].
  destruct (dict_get_cases data "version" (PStr "0.0.0") w) as [[v ->]| ->];
    now eexists.
Qed.

Lemma get_remote_version_returns self w :
  exists v, get_remote_version self w = (Ok v, w).
Proof.
  unfold get_remote_version, requests_get, raise_for_status. run_monad.
  destruct (http w (version_url self)) as [|r]; [now eexists|].
  destruct ((400 <=? status_code r)%Z && (status_code r <? 600)%Z); run_monad;
    [now eexists|].
  unfold json_decode. destruct (json_loads (content r)) as [data|]; run_monad;
    [|now eexists].
  destruct (dict_get_cases data "version" PNone w) as [[v ->]| ->]; now eexists.
Qed.

(** The remote version is [None] as soon as anything goes wrong with
    the request, and for a manifest without [version]. *)
Lemma get_remote_version_request_fails self w :
  http w (version_url self) = RequestFails ->
  get_remote_version self w = (Ok PNone, w).
Proof.
  intros E. unfold get_remote_version, requests_get. run_monad. now rewrite E.
Qed.

Lemma get_remote_version_error_status self w r :
  http w (version_url self) = Responds r -> error_status r ->
  get_remote_version self w = (Ok PNone, w).
Proof.
  intros E [Hlo Hhi]. unfold get_remote_version, requests_get, raise_for_status.
  run_monad. rewrite E.
  apply Z.leb_le in Hlo. apply Z.ltb_lt in Hhi. now rewrite Hlo, Hhi.
Qed.

Lemma get_remote_version_lacks self w r data :
  http w (version_url self) = Responds r ->
  json_loads (content r) = Some data -> lacks_version data ->
  get_remote_version self w = (Ok PNone, w).
Proof.
  intros E Ej Hl. unfold get_remote_version, requests_get, raise_for_status.
  run_monad. rewrite E.
  destruct ((400 <=? status_code r)%Z && (status_code r <? 600)%Z); run_monad;
    [reflexivity|].
  unfold json_decode. rewrite Ej. run_monad.
  destruct data; simpl in *; try reflexivity. now rewrite Hl.
Qed.

(** A status outside 400..599 passes [raise_for_status]. *)
Lemma raise_for_status_passes r w :
  ~ error_status r -> raise_for_status r w = (Ok tt, w).
Proof.
  intros Hs. unfold raise_for_status, error_status in *.
  destruct (Z.leb_spec 400 (status_code r)); [|reflexivity].
  destruct (Z.ltb_spec (status_code r) 600); [|reflexivity].
  exfalso. apply Hs. lia.
Qed.

(** A manifest with a [version] under a status that passes. *)
Lemma get_remote_version_published self w r doc v :
  http w (version_url self) = Responds r -> ~ error_status r ->
  json_loads (content r) = Some (PDict doc) -> Py.assoc "version" doc = Some v ->
  get_remote_version self w = (Ok v, w).
Proof.
  intros E Hs Ej Hv. unfold get_remote_version, requests_get, try_except, bind.
  rewrite E. rewrite raise_for_status_passes by assumption.
  unfold json_decode. rewrite Ej. unfold ret. simpl. now rewrite Hv.
Qed.

(** With no remote version there is nothing to compare. *)
Lemma check_for_updates_no_remote self w local_ver :
  get_local_version self w = (Ok local_ver, w) ->
  get_remote_version self w = (Ok PNone, w) ->
  check_for_updates self w = (Ok (false, local_ver, PNone), w).
Proof.
  intros El Er. unfold check_for_updates. run_monad. now rewrite El, Er.
Qed.

(** Two strings: the answer is the order of the strings. *)
Lemma check_for_updates_strings self w local remote :
  get_local_version self w = (Ok (PStr local), w) ->
  get_remote_version self w = (Ok (PStr remote), w) ->
  check_for_updates self w = (Ok (PyStr.ltb local remote, PStr local, PStr remote), w).
Proof.
  intros El Er. unfold check_for_updates. run_monad. rewrite El, Er. simpl.
  unfold Py.ne. simpl.
  destruct (String.eqb_spec remote "") as [->|Hne]; simpl.
  - now rewrite ltb_empty_r.
  - destruct (String.eqb_spec remote local) as [->|Hne']; simpl.
    + now rewrite ltb_irrefl.
    + unfold greater. simpl. run_monad. unfold PyStr.gtb.
      now destruct (PyStr.ltb local remote).
Qed.

End Checking.

(** ** Strings: cutting and joining at the separator *)

Section PathText.
Import PyStr.

Lemma append_nil_l (b : string) : "" +:+ b = b.
Proof. reflexivity. Qed.

Lemma append_cons x (a b : string) : String x a +:+ b = String x (a +:+ b).
Proof. reflexivity. Qed.

Ltac push_append := rewrite ?append_nil_l, ?append_cons in *.

Lemma append_assoc (a b c : string) : (a +:+ b) +:+ c = a +:+ (b +:+ c).
Proof. induction a as [|x a IH]; push_append; [reflexivity|f_equal; exact IH]. Qed.

Lemma is_sep_slash : is_sep "/" = true.
Proof. reflexivity. Qed.

Lemma split_sep_not_nil s : split_sep s <> [].
Proof.
  destruct s as [|c s]; simpl; [discriminate|].
  destruct (is_sep c); [discriminate|]. destruct (split_sep s); discriminate.
Qed.

Lemma split_sep_app a s :
  has_sep a = false -> split_sep (a +:+ String "/" s) = a :: split_sep s.
Proof.
  induction a as [|c a IH]; push_append; simpl; intros Ha; [reflexivity|].
  apply orb_false_iff in Ha as [Hc Ha]. rewrite Hc, (IH Ha). reflexivity.
Qed.

Lemma split_sep_whole a : has_sep a = false -> split_sep a = [a].
Proof.
  induction a as [|c a IH]; push_append; simpl; intros Ha; [reflexivity|].
  apply orb_false_iff in Ha as [Hc Ha]. rewrite Hc, (IH Ha). reflexivity.
Qed.

Lemma split_sep1_app a s :
  has_sep a = false -> split_sep1 (a +:+ String "/" s) = [a; s].
Proof.
  induction a as [|c a IH]; push_append; simpl; intros Ha; [reflexivity|].
  apply orb_false_iff in Ha as [Hc Ha]. rewrite Hc, (IH Ha). reflexivity.
Qed.

Lemma split_sep1_whole a : has_sep a = false -> split_sep1 a = [a].
Proof.
  induction a as [|c a IH]; push_append; simpl; intros Ha; [reflexivity|].
  apply orb_false_iff in Ha as [Hc Ha]. rewrite Hc, (IH Ha). reflexivity.
Qed.

Lemma join_sep_cons c r :
  r <> [] -> join_sep (c :: r) = c +:+ String "/" (join_sep r).
Proof. destruct r; [congruence|reflexivity]. Qed.

Lemma join_sep_push x h t : join_sep (String x h :: t) = String x (join_sep (h :: t)).
Proof. destruct t; reflexivity. Qed.

Lemma join_split s : join_sep (split_sep s) = s.
Proof.
  induction s as [|c s IH]; [reflexivity|]. simpl.
  destruct (is_sep c) eqn:Hc.
  - rewrite join_sep_cons by apply split_sep_not_nil. rewrite IH. simpl.
    unfold is_sep in Hc. apply Ascii.eqb_eq in Hc. now subst c.
  - destruct (split_sep s) as [|h t] eqn:Hs; [now apply split_sep_not_nil in Hs|].
    rewrite join_sep_push. now rewrite IH.
Qed.

Lemma split_sep_parts s : Forall (fun c => has_sep c = false) (split_sep s).
Proof.
  induction s as [|c s IH]; simpl; [now repeat constructor|].
  destruct (is_sep c) eqn:Hc; [now constructor|].
  destruct (split_sep s) as [|h t] eqn:Hs; [now apply split_sep_not_nil in Hs|].
  inversion IH; subst. constructor; [|assumption]. simpl. now rewrite Hc.
Qed.

Lemma join_sep_app a b :
  a <> [] -> b <> [] -> join_sep (a ++ b) = join_sep a +:+ String "/" (join_sep b).
Proof.
  intros Ha Hb. induction a as [|c a IH]; [congruence|]. clear Ha.
  destruct a as [|c' a].
  - simpl app. now rewrite join_sep_cons.
  - change ((c :: c' :: a) ++ b) with (c :: ((c' :: a) ++ b)).
    rewrite join_sep_cons by discriminate. rewrite IH by discriminate.
    rewrite (join_sep_cons c (c' :: a)) by discriminate.
    rewrite append_assoc. reflexivity.
Qed.

Lemma split_join cs :
  cs <> [] -> Forall (fun c => has_sep c = false) cs -> split_sep (join_sep cs) = cs.
Proof.
  intros Hne Hcs. induction Hcs as [|c r Hc Hr IH]; [congruence|]. clear Hne.
  destruct r as [|c' r].
  - simpl. now apply split_sep_whole.
  - rewrite join_sep_cons by discriminate. rewrite split_sep_app by assumption.
    now rewrite IH.
Qed.

Lemma plain_parts c :
  plain c = true ->
  OS.is_here c = false /\ OS.is_up c = false /\ has_sep c = false /\ c <> "".
Proof.
  unfold plain. intros Hp.
  apply andb_true_iff in Hp as [Hp H3]. apply andb_true_iff in Hp as [H1 H2].
  apply negb_true_iff in H1, H2, H3. repeat split; try assumption.
  intros ->. discriminate.
Qed.

Lemma Forall_plain_no_sep cs :
  Forall (fun c => plain c = true) cs -> Forall (fun c => has_sep c = false) cs.
Proof.
  intros Hcs. eapply Forall_impl; [exact Hcs|].
  intros c Hc. now apply plain_parts in Hc.
Qed.

Lemma has_sep_app a b : has_sep (a +:+ b) = has_sep a || has_sep b.
Proof.
  induction a as [|c a IH]; push_append; simpl; [reflexivity|].
  rewrite IH. now rewrite orb_assoc.
Qed.

Lemma all_sep_app a b : all_sep (a +:+ b) = all_sep a && all_sep b.
Proof.
  induction a as [|c a IH]; push_append; simpl; [reflexivity|].
  rewrite IH. now rewrite andb_assoc.
Qed.

Lemma endswith_sep_cons c s : s <> "" -> endswith_sep (String c s) = endswith_sep s.
Proof. destruct s; [congruence|reflexivity]. Qed.

Lemma endswith_sep_app a b : b <> "" -> endswith_sep (a +:+ b) = endswith_sep b.
Proof.
  intros Hb. induction a as [|c a IH]; push_append; [reflexivity|].
  rewrite endswith_sep_cons; [exact IH|]. destruct a; push_append; [exact Hb|discriminate].
Qed.

Lemma endswith_sep_no_sep s : has_sep s = false -> endswith_sep s = false.
Proof.
  induction s as [|c s IH]; [reflexivity|]. simpl has_sep. intros Hs.
  apply orb_false_iff in Hs as [Hc Hs]. destruct s; [exact Hc|].
  rewrite endswith_sep_cons by discriminate. now apply IH.
Qed.

Lemma join_sep_not_empty cs :
  cs <> [] -> Forall (fun c => plain c = true) cs -> join_sep cs <> "".
Proof.
  intros Hne Hcs. destruct Hcs as [|c r Hc Hr]; [congruence|].
  apply plain_parts in Hc as (_ & _ & _ & Hc).
  destruct c as [|x c]; [congruence|]. rewrite join_sep_push. discriminate.
Qed.

Lemma endswith_sep_join cs :
  cs <> [] -> Forall (fun c => plain c = true) cs -> endswith_sep (join_sep cs) = false.
Proof.
  intros Hne Hcs. induction Hcs as [|c r Hc Hr IH]; [congruence|]. clear Hne.
  destruct r as [|c' r].
  - simpl. apply endswith_sep_no_sep. now apply plain_parts in Hc.
  - rewrite join_sep_cons by discriminate.
    rewrite endswith_sep_app by discriminate.
    rewrite endswith_sep_cons by (now apply join_sep_not_empty).
    now apply IH.
Qed.

Lemma startswith_sep_join cs :
  Forall (fun c => plain c = true) cs -> startswith_sep (join_sep cs) = false.
Proof.
  intros Hcs. destruct Hcs as [|c r Hc Hr]; [reflexivity|].
  apply plain_parts in Hc as (_ & _ & Hs & Hc).
  destruct c as [|x c]; [congruence|]. rewrite join_sep_push. simpl.
  simpl in Hs. now apply orb_false_iff in Hs as [Hx _].
Qed.

Lemma all_sep_join cs :
  cs <> [] -> Forall (fun c => plain c = true) cs -> all_sep (join_sep cs) = false.
Proof.
  intros Hne Hcs. destruct Hcs as [|c r Hc Hr]; [congruence|].
  apply plain_parts in Hc as (_ & _ & Hs & Hc).
  destruct c as [|x c]; [congruence|]. rewrite join_sep_push. simpl.
  simpl in Hs. apply orb_false_iff in Hs as [-> _]. reflexivity.
Qed.

Lemma upto_last_sep_app a c :
  has_sep c = false -> upto_last_sep (a +:+ String "/" c) = a +:+ "/".
Proof.
  intros Hc. induction a as [|x a IH].
  - push_append. simpl. destruct c as [|y c]; [reflexivity|]. simpl in *. now rewrite Hc.
  - push_append. cbn [upto_last_sep]. rewrite IH.
    replace (has_sep (String x (a +:+ String "/" c))) with true; [reflexivity|].
    simpl. rewrite has_sep_app. simpl. now rewrite !orb_true_r.
Qed.

Lemma rstrip_sep_slash x : rstrip_sep (x +:+ "/") = rstrip_sep x.
Proof.
  induction x as [|c x IH]; [reflexivity|]. push_append.
  cbn [rstrip_sep]. rewrite IH.
  replace (all_sep (String c (x +:+ "/"))) with (all_sep (String c x)); [reflexivity|].
  simpl. rewrite all_sep_app. simpl. now rewrite andb_true_r.
Qed.

Lemma all_sep_endswith x : x <> "" -> all_sep x = true -> endswith_sep x = true.
Proof.
  induction x as [|c x IH]; [congruence|]. intros _ Hx. simpl in Hx.
  apply andb_true_iff in Hx as [Hc Hx]. destruct x as [|c' x]; [exact Hc|].
  rewrite endswith_sep_cons by discriminate. now apply IH.
Qed.

Lemma rstrip_sep_id x : endswith_sep x = false -> rstrip_sep x = x.
Proof.
  induction x as [|c x IH]; [reflexivity|]. intros Hx. cbn [rstrip_sep].
  destruct (all_sep (String c x)) eqn:Ha.
  - apply all_sep_endswith in Ha; [congruence|discriminate].
  - f_equal. destruct x as [|c' x]; [reflexivity|].
    apply IH. now rewrite endswith_sep_cons in Hx by discriminate.
Qed.

(** The text of a canonical path. *)

Lemma path_string_snoc Q c :
  Q <> [] -> OS.path_string (Q ++ [c]) = OS.path_string Q +:+ String "/" c.
Proof.
  intros HQ. unfold OS.path_string. now rewrite join_sep_app by done.
Qed.

Lemma path_dirname_snoc Q c :
  Forall (fun c => plain c = true) Q -> plain c = true ->
  OS.path_dirname (OS.path_string (Q ++ [c])) = OS.path_string Q.
Proof.
  intros HQ Hc. apply plain_parts in Hc as (_ & _ & Hc & _).
  unfold OS.path_dirname. destruct Q as [|q Q].
  - change (OS.path_string ([] ++ [c])) with ("" +:+ String "/" c).
    rewrite upto_last_sep_app by assumption. reflexivity.
  - rewrite path_string_snoc by discriminate.
    rewrite upto_last_sep_app by assumption.
    assert (Hall : all_sep (OS.path_string (q :: Q) +:+ "/") = false).
    { rewrite all_sep_app. unfold OS.path_string. cbn [all_sep].
      rewrite all_sep_join; [reflexivity|discriminate|assumption]. }
    rewrite Hall. simpl negb. rewrite andb_true_r.
    unfold OS.path_string at 1. simpl String.eqb. simpl negb.
    rewrite rstrip_sep_slash. apply rstrip_sep_id.
    unfold OS.path_string. rewrite endswith_sep_cons.
    + now apply endswith_sep_join.
    + now apply join_sep_not_empty.
Qed.

Lemma path_join_canonical T cs :
  Forall (fun c => plain c = true) T -> Forall (fun c => plain c = true) cs ->
  cs <> [] ->
  OS.path_join (OS.path_string T) (join_sep cs) = OS.path_string (T ++ cs).
Proof.
  intros HT Hcs Hne. unfold OS.path_join.
  rewrite startswith_sep_join by assumption.
  destruct T as [|t T]; [reflexivity|].
  assert (He : endswith_sep (OS.path_string (t :: T)) = false).
  { unfold OS.path_string. rewrite endswith_sep_cons.
    - now apply endswith_sep_join.
    - now apply join_sep_not_empty. }
  rewrite He. simpl orb. unfold OS.path_string.
  now rewrite join_sep_app by done.
Qed.

Lemma split_sep_path_string Q :
  Q <> [] -> Forall (fun c => plain c = true) Q ->
  split_sep (OS.path_string Q) = "" :: Q.
Proof.
  intros Hne HQ. unfold OS.path_string. simpl. f_equal.
  apply split_join; [assumption|]. now apply Forall_plain_no_sep.
Qed.

End PathText.

(** ** The file tree: making directories, opening a file *)

Section FileTree.
Implicit Types (t : gmap (list string) node) (cur cs q r : list string).

Lemma lookup_node_app t cur r : r <> [] -> OS.lookup_node t (cur ++ r) = t !! (cur ++ r).
Proof.
  intros Hr. destruct (cur ++ r) eqn:E; [|reflexivity].
  apply app_eq_nil in E as [_ ->]. congruence.
Qed.

Lemma elem_of_parents q p :
  q ∈ parents p <-> exists r, p = q ++ r /\ q <> [] /\ r <> [].
Proof.
  unfold parents. rewrite list_elem_of_fmap. split.
  - intros (n & -> & Hn). apply elem_of_seq in Hn.
    exists (drop n p). split; [now rewrite take_drop|]. split.
    + intros E. apply (f_equal length) in E. rewrite length_take in E.
      simpl in E. lia.
    + intros E. apply (f_equal length) in E. rewrite length_drop in E.
      simpl in E. lia.
  - intros (r & -> & Hq & Hr). exists (length q). split.
    + now rewrite take_app_length.
    + apply elem_of_seq. rewrite length_app.
      destruct q; [congruence|]. destruct r; [congruence|]. simpl. lia.
Qed.

Lemma along_cons cur c cs q :
  along cur (c :: cs) q <-> q = cur ++ [c] \/ along (cur ++ [c]) cs q.
Proof.
  split.
  - intros (r & r' & E & Hr & ->). destruct r as [|x r]; [congruence|].
    injection E as <- ->. destruct r as [|y r]; [now left|]. right.
    exists (y :: r), r'. split; [reflexivity|]. split; [discriminate|].
    now rewrite <- app_assoc.
  - intros [->|(r & r' & -> & Hr & ->)].
    + exists [c], cs. now repeat split.
    + exists (c :: r), r'. split; [reflexivity|]. split; [discriminate|].
      now rewrite <- app_assoc.
Qed.

Lemma along_nil cur q : ~ along cur [] q.
Proof.
  intros (r & r' & E & Hr & _). symmetry in E.
  apply app_eq_nil in E as [-> _]. congruence.
Qed.

Lemma along_not_self cur cs : ~ along cur cs cur.
Proof.
  intros (r & r' & _ & Hr & E). apply Hr.
  apply (app_inv_head cur). now rewrite app_nil_r.
Qed.

Lemma make_along_plain t cur cs :
  Forall (fun c => plain c = true) cs ->
  (forall q, along cur cs q -> free_or_dir (t !! q) = true) ->
  exists t',
    OS.make_along t cur cs = (true, t') /\
    (forall q, along cur cs q -> t' !! q = Some Dir) /\
    (forall q, ~ along cur cs q -> t' !! q = t !! q).
Proof.
  intros Hcs. revert t cur.
  induction Hcs as [|c cs Hc Hcs IH]; intros t cur Hfree.
  - exists t. split; [reflexivity|]. split; [|reflexivity].
    intros q Hq. now apply along_nil in Hq.
  - apply plain_parts in Hc as (Hh & Hu & _ & _). cbn [OS.make_along].
    rewrite Hh, Hu. rewrite lookup_node_app by discriminate.
    assert (Hfirst : free_or_dir (t !! (cur ++ [c])) = true).
    { apply Hfree. apply along_cons. now left. }
    destruct (t !! (cur ++ [c])) as [[text|]|] eqn:E; [discriminate| |].
    + destruct (IH t (cur ++ [c])) as (t' & Hrun & Hdirs & Hrest).
      { intros q Hq. apply Hfree. apply along_cons. now right. }
      exists t'. split; [exact Hrun|]. split.
      * intros q Hq. apply along_cons in Hq as [->|Hq]; [|now apply Hdirs].
        rewrite Hrest; [exact E|apply along_not_self].
      * intros q Hq. apply Hrest. intros Ha. apply Hq. apply along_cons. now right.
    + destruct (IH (<[cur ++ [c] := Dir]> t) (cur ++ [c])) as (t' & Hrun & Hdirs & Hrest).
      { intros q Hq.
        destruct (decide (q = cur ++ [c])) as [->|Hne];
          [now rewrite lookup_insert_eq|].
        rewrite lookup_insert_ne by congruence.
        apply Hfree. apply along_cons. now right. }
      exists t'. split; [exact Hrun|]. split.
      * intros q Hq. apply along_cons in Hq as [->|Hq]; [|now apply Hdirs].
        rewrite Hrest by apply along_not_self.
        now rewrite lookup_insert_eq.
      * intros q Hq. rewrite Hrest.
        -- apply lookup_insert_ne. intros <-. apply Hq. apply along_cons. now left.
        -- intros Ha. apply Hq. apply along_cons. now right.
Qed.

(** A file on the way stops the making of directories. *)
Lemma make_along_blocked t cur cs :
  Forall (fun c => plain c = true) cs ->
  (exists q, along cur cs q /\ free_or_dir (t !! q) = false) ->
  exists t', OS.make_along t cur cs = (false, t').
Proof.
  intros Hcs. revert t cur.
  induction Hcs as [|c cs Hc Hcs IH]; intros t cur (q & Hq & Hfile).
  - now apply along_nil in Hq.
  - apply plain_parts in Hc as (Hh & Hu & _ & _). cbn [OS.make_along].
    rewrite Hh, Hu. rewrite lookup_node_app by discriminate.
    destruct (t !! (cur ++ [c])) as [[text|]|] eqn:E.
    + now exists t.
    + apply IH. exists q. split; [|exact Hfile].
      apply along_cons in Hq as [->|Hq]; [|exact Hq].
      rewrite E in Hfile. discriminate.
    + apply IH. exists q.
      apply along_cons in Hq as [->|Hq]; [rewrite E in Hfile; discriminate|].
      split; [exact Hq|]. rewrite lookup_insert_ne; [exact Hfile|].
      intros <-. rewrite E in Hfile. discriminate.
Qed.

Lemma walk_plain t cur cs :
  Forall (fun c => plain c = true) cs ->
  (forall q, along cur cs q -> t !! q = Some Dir) ->
  OS.walk t cur cs = Some (cur ++ cs).
Proof.
  intros Hcs. revert cur. induction Hcs as [|c cs Hc Hcs IH]; intros cur Hdirs.
  - simpl. now rewrite app_nil_r.
  - apply plain_parts in Hc as (Hh & Hu & _ & _). cbn [OS.walk].
    rewrite Hh, Hu. rewrite lookup_node_app by discriminate.
    rewrite (Hdirs (cur ++ [c])) by (apply along_cons; now left).
    rewrite IH.
    + now rewrite <- app_assoc.
    + intros q Hq. apply Hdirs. apply along_cons. now right.
Qed.

Lemma along_parents Q c q : along [] Q q <-> q ∈ parents (Q ++ [c]).
Proof.
  rewrite elem_of_parents. split.
  - intros (r & r' & -> & Hr & ->). exists (r' ++ [c]).
    split; [now rewrite <- app_assoc|]. split; [assumption|].
    intros E. now apply app_eq_nil in E as [_ E].
  - intros (r & E & Hq & Hr).
    destruct (exists_last Hr) as (r0 & x & ->).
    rewrite app_assoc in E. apply app_inj_tail in E as [-> _].
    now exists q, r0.
Qed.

Lemma resolve_canonical w Q c :
  Forall (fun c => plain c = true) Q -> plain c = true ->
  (forall q, along [] Q q -> tree w !! q = Some Dir) ->
  OS.resolve w (OS.path_string (Q ++ [c])) = Some (Q, c).
Proof.
  intros HQ Hc Hdirs. unfold OS.resolve.
  rewrite split_sep_path_string;
    [|now destruct Q|apply Forall_app; split; [assumption|now constructor]].
  change ("" :: Q ++ [c]) with (("" :: Q) ++ [c]).
  rewrite removelast_last, last_last. unfold OS.path_string, OS.start. simpl.
  rewrite (walk_plain (tree w) [] Q HQ Hdirs). reflexivity.
Qed.

Lemma makedirs_canonical w Q :
  Forall (fun c => plain c = true) Q ->
  (forall q, along [] Q q -> free_or_dir (tree w !! q) = true) ->
  exists t',
    OS.makedirs (OS.path_string Q) w = (Ok tt, with_tree w t') /\
    (forall q, along [] Q q -> t' !! q = Some Dir) /\
    (forall q, ~ along [] Q q -> t' !! q = tree w !! q).
Proof.
  intros HQ Hfree. unfold OS.makedirs.
  destruct Q as [|c Q].
  - exists (tree w). split; [reflexivity|]. split; [|reflexivity].
    intros q Hq. now apply along_nil in Hq.
  - rewrite split_sep_path_string by done.
    destruct (make_along_plain (tree w) [] (c :: Q) HQ Hfree) as (t' & Hrun & Hd & Hr).
    exists t'. split; [|now split].
    unfold OS.path_string, OS.start. simpl String.eqb. cbn iota.
    simpl PyStr.startswith_sep. cbn iota.
    change (OS.make_along (tree w) [] ("" :: c :: Q))
      with (OS.make_along (tree w) [] (c :: Q)).
    now rewrite Hrun.
Qed.

Lemma makedirs_blocked w Q :
  Forall (fun c => plain c = true) Q ->
  (exists q, along [] Q q /\ free_or_dir (tree w !! q) = false) ->
  exists t', OS.makedirs (OS.path_string Q) w = (Raise OSError, with_tree w t').
Proof.
  intros HQ Hblock. unfold OS.makedirs.
  destruct Q as [|c Q].
  - destruct Hblock as (q & Hq & _). now apply along_nil in Hq.
  - rewrite split_sep_path_string by done.
    destruct (make_along_blocked (tree w) [] (c :: Q) HQ Hblock) as (t' & Hrun).
    exists t'.
    unfold OS.path_string, OS.start. simpl String.eqb. cbn iota.
    simpl PyStr.startswith_sep. cbn iota.
    change (OS.make_along (tree w) [] ("" :: c :: Q))
      with (OS.make_along (tree w) [] (c :: Q)).
    now rewrite Hrun.
Qed.

Lemma open_wb_directory w Q c :
  Forall (fun c => plain c = true) Q -> plain c = true ->
  (forall q, along [] Q q -> tree w !! q = Some Dir) ->
  not_dir (tree w !! (Q ++ [c])) = false ->
  OS.open_wb (OS.path_string (Q ++ [c])) w = (Raise OSError, w).
Proof.
  intros HQ Hc Hdirs Hnd. unfold OS.open_wb.
  rewrite resolve_canonical by assumption.
  apply plain_parts in Hc as (-> & -> & _ & _). simpl orb. cbn iota.
  rewrite lookup_node_app by discriminate.
  now destruct (tree w !! (Q ++ [c])) as [[|]|].
Qed.

Lemma open_wb_canonical w Q c :
  Forall (fun c => plain c = true) Q -> plain c = true ->
  (forall q, along [] Q q -> tree w !! q = Some Dir) ->
  not_dir (tree w !! (Q ++ [c])) = true ->
  OS.open_wb (OS.path_string (Q ++ [c])) w
  = (Ok (Q ++ [c]), with_tree w (<[Q ++ [c] := File []]> (tree w))).
Proof.
  intros HQ Hc Hdirs Hnd. unfold OS.open_wb.
  rewrite resolve_canonical by assumption.
  apply plain_parts in Hc as (-> & -> & _ & _). simpl orb. cbn iota.
  rewrite lookup_node_app by discriminate.
  now destruct (tree w !! (Q ++ [c])) as [[|]|].
Qed.

Lemma read_file_canonical w Q c :
  Forall (fun c => plain c = true) Q -> plain c = true ->
  (forall q, along [] Q q -> tree w !! q = Some Dir) ->
  OS.read_file (OS.path_string (Q ++ [c])) w
  = match tree w !! (Q ++ [c]) with
    | Some (File text) => (Ok text, w)
    | _ => (Raise OSError, w)
    end.
Proof.
  intros HQ Hc Hdirs. unfold OS.read_file.
  rewrite resolve_canonical by assumption.
  apply plain_parts in Hc as (-> & -> & _ & _). simpl orb. cbn iota.
  now rewrite lookup_node_app by discriminate.
Qed.

Lemma path_exists_canonical w Q c :
  Forall (fun c => plain c = true) Q -> plain c = true ->
  (forall q, along [] Q q -> tree w !! q = Some Dir) ->
  OS.path_exists (OS.path_string (Q ++ [c])) w
  = (Ok (bool_decide (is_Some (tree w !! (Q ++ [c])))), w).
Proof.
  intros HQ Hc Hdirs. unfold OS.path_exists.
  rewrite resolve_canonical by assumption.
  apply plain_parts in Hc as (-> & -> & _ & _). simpl orb. cbn iota.
  now rewrite lookup_node_app by discriminate.
Qed.

End FileTree.

(** ** Installing: one member *)

Section Members.
Implicit Types (m : ZipInfo) (T : list string).

Lemma components_split m : components m = root_of m :: stripped m.
Proof.
  unfold root_of, stripped, components.
  destruct (PyStr.split_sep (filename m)) eqn:E; [|reflexivity].
  now apply split_sep_not_nil in E.
Qed.

Lemma root_of_no_sep m : PyStr.has_sep (root_of m) = false.
Proof.
  pose proof (split_sep_parts (filename m)) as Hp.
  fold (components m) in Hp. rewrite components_split in Hp.
  now inversion Hp.
Qed.

Lemma member_name m :
  stripped m <> [] ->
  filename m = root_of m +:+ String "/" (PyStr.join_sep (stripped m)).
Proof.
  intros Hs. rewrite <- (join_split (filename m)) at 1.
  fold (components m). rewrite components_split. now apply join_sep_cons.
Qed.

Lemma file_member_parts m :
  file_member m = true ->
  stripped m <> [] /\ Forall (fun c => plain c = true) (stripped m) /\
  exists data, payload m = Some data.
Proof.
  unfold file_member. intros Hf. apply andb_true_iff in Hf as [Hs Hp].
  apply bool_decide_eq_true in Hp as [data Hp].
  destruct (stripped m) as [|c cs] eqn:E; [discriminate|].
  split; [discriminate|]. split; [|now exists data].
  apply Forall_forall. intros x Hx. rewrite forallb_forall in Hs.
  apply Hs. now apply list_elem_of_In.
Qed.

Lemma file_member_not_dir m : file_member m = true -> is_dir m = false.
Proof.
  intros Hf. apply file_member_parts in Hf as (Hne & Hpl & _).
  unfold is_dir. rewrite (member_name m Hne).
  rewrite endswith_sep_app by discriminate.
  rewrite endswith_sep_cons by (now apply join_sep_not_empty).
  now apply endswith_sep_join.
Qed.

Lemma with_tree_twice w t1 t2 : with_tree (with_tree w t1) t2 = with_tree w t2.
Proof. reflexivity. Qed.

Lemma with_tree_same w : with_tree w (tree w) = w.
Proof. now destruct w. Qed.

(** A file member whose way is free is written: the directories above
    its destination are made, the file is opened and the bytes go in. *)
Lemma extract_member_file self w T m data :
  target_dir self = OS.path_string T ->
  Forall (fun c => plain c = true) T ->
  file_member m = true -> payload m = Some data ->
  (forall q, q ∈ parents (T ++ stripped m) -> free_or_dir (tree w !! q) = true) ->
  not_dir (tree w !! (T ++ stripped m)) = true ->
  let target_path := OS.path_join (target_dir self) (PyStr.join_sep (stripped m)) in
  exists t1,
    OS.makedirs (OS.path_dirname target_path) w = (Ok tt, with_tree w t1) /\
    (forall q, q ∈ parents (T ++ stripped m) -> t1 !! q = Some Dir) /\
    (forall q, q ∉ parents (T ++ stripped m) -> t1 !! q = tree w !! q) /\
    OS.open_wb target_path (with_tree w t1)
    = (Ok (T ++ stripped m),
       with_tree w (<[T ++ stripped m := File []]> t1)) /\
    extract_member self m w
    = (Ok tt, with_tree w (<[T ++ stripped m := File data]> t1)).
Proof.
  intros HT HTp Hf Hdata Hfree Hnd target_path.
  pose proof (file_member_not_dir m Hf) as Hdir.
  destruct (file_member_parts m Hf) as (Hne & Hpl & _).
  assert (Htp : target_path = OS.path_string (T ++ stripped m)).
  { unfold target_path. rewrite HT. now apply path_join_canonical. }
  destruct (exists_last Hne) as (cs & c & Ecs).
  assert (Hcs : Forall (fun c => plain c = true) cs /\ plain c = true).
  { rewrite Ecs in Hpl. apply Forall_app in Hpl as [? Hc]. split; [assumption|].
    now inversion Hc. }
  destruct Hcs as [Hcs Hc].
  assert (EP : T ++ stripped m = (T ++ cs) ++ [c]) by (now rewrite Ecs, app_assoc).
  assert (HQ : Forall (fun c => plain c = true) (T ++ cs))
    by (apply Forall_app; now split).
  destruct (makedirs_canonical w (T ++ cs) HQ) as (t1 & Hmk & Hd & Hr).
  { intros q Hq. apply Hfree. rewrite EP. now apply along_parents. }
  exists t1.
  assert (Hmk' : OS.makedirs (OS.path_dirname target_path) w = (Ok tt, with_tree w t1)).
  { rewrite Htp, EP. now rewrite path_dirname_snoc. }
  assert (Hd' : forall q, q ∈ parents (T ++ stripped m) -> t1 !! q = Some Dir).
  { intros q Hq. apply Hd. rewrite EP in Hq. now apply along_parents in Hq. }
  assert (Hr' : forall q, q ∉ parents (T ++ stripped m) -> t1 !! q = tree w !! q).
  { intros q Hq. apply Hr. intros Ha. apply Hq. rewrite EP. now apply along_parents. }
  assert (Hself : T ++ stripped m ∉ parents (T ++ stripped m)).
  { rewrite elem_of_parents. intros (r & E & _ & Hr0). apply Hr0.
    apply (app_inv_head (T ++ stripped m)). now rewrite app_nil_r. }
  assert (Hop : OS.open_wb target_path (with_tree w t1)
                = (Ok (T ++ stripped m),
                   with_tree w (<[T ++ stripped m := File []]> t1))).
  { rewrite Htp, EP. rewrite open_wb_canonical; try assumption.
    - reflexivity.
    - simpl tree. rewrite <- EP. now rewrite Hr'. }
  repeat split; try assumption.
  unfold extract_member. rewrite Hdir.
  rewrite (member_name m Hne).
  rewrite split_sep1_app by apply root_of_no_sep.
  unfold item. simpl nth_error. unfold bind at 1. unfold ret at 1.
  destruct (String.eqb_spec (PyStr.join_sep (stripped m)) "") as [E|_];
    [now apply join_sep_not_empty in E|].
  fold target_path. unfold bind. rewrite Hmk', Hop.
  unfold zip_read. rewrite Hdata. unfold ret, OS.write. simpl.
  now rewrite insert_insert_eq.
Qed.

(** A file member whose way is not free is not written: the making of
    the directories raises when a file is in the way, and the opening
    of the file raises when its place is taken by a directory. *)
Lemma extract_member_blocked self w T m :
  target_dir self = OS.path_string T ->
  Forall (fun c => plain c = true) T ->
  file_member m = true ->
  (exists q, q ∈ parents (T ++ stripped m) /\ free_or_dir (tree w !! q) = false) \/
  not_dir (tree w !! (T ++ stripped m)) = false ->
  exists w', extract_member self m w = (Raise OSError, w').
Proof.
  intros HT HTp Hf Hblock.
  pose proof (file_member_not_dir m Hf) as Hdir.
  destruct (file_member_parts m Hf) as (Hne & Hpl & data & Hdata).
  destruct (exists_last Hne) as (cs & c & Ecs).
  assert (Hcs : Forall (fun c => plain c = true) cs /\ plain c = true).
  { rewrite Ecs in Hpl. apply Forall_app in Hpl as [? Hc]. split; [assumption|].
    now inversion Hc. }
  destruct Hcs as [Hcs Hc].
  assert (EP : T ++ stripped m = (T ++ cs) ++ [c]) by (now rewrite Ecs, app_assoc).
  assert (HQ : Forall (fun c => plain c = true) (T ++ cs))
    by (apply Forall_app; now split).
  assert (Htp : OS.path_join (target_dir self) (PyStr.join_sep (stripped m))
                = OS.path_string ((T ++ cs) ++ [c])).
  { rewrite HT, <- EP. now apply path_join_canonical. }
  assert (Hrun : forall k,
             extract_member self m w
             = bind (OS.makedirs (OS.path_string (T ++ cs)))
                    (fun _ => bind (OS.open_wb (OS.path_string ((T ++ cs) ++ [c]))) k) w ->
             exists w', extract_member self m w = (Raise OSError, w')).
  { intros k ->. unfold bind.
    destruct (Exists_dec (fun q => free_or_dir (tree w !! q) = false)
                         (parents ((T ++ cs) ++ [c]))) as [Hex|Hall].
    - apply Exists_exists in Hex as (q & Hq & Hfile).
      destruct (makedirs_blocked w (T ++ cs) HQ) as (t' & ->); [|now eexists].
      exists q. split; [|exact Hfile]. now apply along_parents with c.
    - destruct Hblock as [(q & Hq & Hfile)|Hnd].
      { exfalso. apply Hall. apply Exists_exists. exists q.
        split; [now rewrite <- EP|exact Hfile]. }
      destruct (makedirs_canonical w (T ++ cs) HQ) as (t1 & -> & Hd & Hr).
      { intros q Hq. apply (along_parents _ c) in Hq.
        destruct (free_or_dir (tree w !! q)) eqn:Efree; [reflexivity|].
        exfalso. apply Hall. apply Exists_exists. now exists q. }
      rewrite open_wb_directory; try assumption; [now eexists|].
      simpl tree. rewrite Hr; [now rewrite <- EP|].
      intros (r & r' & E & Hr0 & E'). simpl in E'. subst r.
      apply (f_equal length) in E. rewrite !length_app in E. simpl in E. lia. }
  eapply Hrun. unfold extract_member. rewrite Hdir.
  rewrite (member_name m Hne).
  rewrite split_sep1_app by apply root_of_no_sep.
  unfold item. simpl nth_error. unfold bind at 1. unfold ret at 1.
  destruct (String.eqb_spec (PyStr.join_sep (stripped m)) "") as [E|_];
    [now apply join_sep_not_empty in E|].
  rewrite Htp. rewrite path_dirname_snoc by assumption. reflexivity.
Qed.

(** A member whose name has no separator cannot be stripped of a root
    folder: the subscript raises. *)
Lemma extract_member_no_sep self w m :
  is_dir m = false -> PyStr.has_sep (filename m) = false ->
  extract_member self m w = (Raise IndexError, w).
Proof.
  intros Hd Hs. unfold extract_member. rewrite Hd.
  now rewrite split_sep1_whole.
Qed.

Lemma for_each_app {A} (a b : list A) (body : A -> M unit) w :
  for_each (a ++ b) body w
  = match for_each a body w with
    | (Ok _, w') => for_each b body w'
    | (Raise e, w') => (Raise e, w')
    end.
Proof.
  revert w. induction a as [|x a IH]; intros w; [reflexivity|].
  simpl. unfold bind. destruct (body x w) as [[[]|e] w']; [apply IH|reflexivity].
Qed.

End Members.

(** ** Installing: the loop *)

Section Loop.
Implicit Types (m : ZipInfo) (T : list string) (t : gmap (list string) node).

Lemma fits_spec t paths :
  fits t paths = true <->
  NoDup paths /\
  forall p, p ∈ paths ->
    not_dir (t !! p) = true /\
    forall q, q ∈ parents p -> free_or_dir (t !! q) = true /\ q ∉ paths.
Proof.
  unfold fits. rewrite andb_true_iff, bool_decide_eq_true, forallb_forall.
  split; intros [Hnd Hall]; (split; [exact Hnd|]).
  - intros p Hp. apply list_elem_of_In in Hp. specialize (Hall p Hp).
    apply andb_true_iff in Hall as [H1 H2]. split; [exact H1|].
    intros q Hq. rewrite forallb_forall in H2. apply list_elem_of_In in Hq.
    specialize (H2 q Hq). apply andb_true_iff in H2 as [H3 H4].
    now apply bool_decide_eq_true in H4.
  - intros p Hp. apply list_elem_of_In in Hp. destruct (Hall p Hp) as [H1 H2].
    apply andb_true_iff. split; [exact H1|]. apply forallb_forall.
    intros q Hq. apply list_elem_of_In in Hq. destruct (H2 q Hq) as [H3 H4].
    apply andb_true_iff. split; [exact H3|]. now apply bool_decide_eq_true.
Qed.

Lemma destinations_cons_dir T m ms :
  is_dir m = true -> destinations T (m :: ms) = destinations T ms.
Proof. intros Hd. unfold destinations. simpl. now rewrite Hd. Qed.

Lemma destinations_cons_file T m ms :
  is_dir m = false ->
  destinations T (m :: ms) = (T ++ stripped m) :: destinations T ms.
Proof. intros Hd. unfold destinations. simpl. now rewrite Hd. Qed.

Lemma elem_of_destinations T m ms :
  m ∈ ms -> is_dir m = false -> T ++ stripped m ∈ destinations T ms.
Proof.
  intros Hm Hd. unfold destinations. apply list_elem_of_fmap. exists m.
  split; [reflexivity|]. apply list_elem_of_In, filter_In.
  split; [now apply list_elem_of_In|]. now rewrite Hd.
Qed.

(** The members of an archive whose files fit into the tree are all
    installed: each file holds the bytes of its member, each directory
    above a file is there, directories stay, and nothing else moves. *)
Lemma install_members self T ms :
  target_dir self = OS.path_string T ->
  Forall (fun c => plain c = true) T ->
  Forall (fun m => is_dir m = true \/ file_member m = true) ms ->
  forall w,
    fits (tree w) (destinations T ms) = true ->
    exists t',
      for_each ms (extract_member self) w = (Ok tt, with_tree w t') /\
      (forall m data, m ∈ ms -> is_dir m = false -> payload m = Some data ->
                      t' !! (T ++ stripped m) = Some (File data)) /\
      (forall p q, p ∈ destinations T ms -> q ∈ parents p -> t' !! q = Some Dir) /\
      (forall q, tree w !! q = Some Dir -> t' !! q = Some Dir) /\
      (forall q, (forall p, p ∈ destinations T ms -> q <> p /\ q ∉ parents p) ->
                 t' !! q = tree w !! q).
Proof.
  intros HT HTp Hms. induction Hms as [|m ms Hm Hms IH]; intros w Hfit.
  - exists (tree w). rewrite with_tree_same. split; [reflexivity|].
    split; [intros m data Hin; now apply elem_of_nil in Hin|].
    split; [intros p q Hin; now apply elem_of_nil in Hin|]. now split.
  - destruct (is_dir m) eqn:Hdir.
    + rewrite destinations_cons_dir in * by assumption.
      destruct (IH w Hfit) as (t' & Hrun & Hfiles & Hpar & Hdirs & Hframe).
      exists t'. split; [|split; [|now repeat split]].
      * simpl. unfold bind, extract_member. rewrite Hdir. exact Hrun.
      * intros m0 data Hin Hd0 Hp0. apply elem_of_cons in Hin as [->|Hin];
          [congruence|]. now apply Hfiles.
    + destruct Hm as [Hm|Hm]; [congruence|].
      rewrite destinations_cons_file in * by assumption.
      set (P := T ++ stripped m) in *.
      apply fits_spec in Hfit as [Hnd Hall]. apply NoDup_cons in Hnd as [HP Hnd].
      destruct (Hall P) as [HPnd HPpar]; [now left|].
      destruct (file_member_parts m Hm) as (_ & _ & data & Hdata).
      destruct (extract_member_file self w T m data HT HTp Hm Hdata)
        as (t1 & _ & Hd1 & Hr1 & _ & Hstep); [intros q Hq; now apply HPpar|exact HPnd|].
      fold P in Hd1, Hr1, Hstep.
      assert (HPself : P ∉ parents P).
      { rewrite elem_of_parents. intros (r & E & _ & Hr0). apply Hr0.
        apply (app_inv_head P). now rewrite app_nil_r. }
      destruct (IH (with_tree w (<[P := File data]> t1)))
        as (t' & Hrun & Hfiles & Hpar & Hdirs & Hframe).
      { apply fits_spec. split; [exact Hnd|]. intros p Hp. simpl tree.
        assert (HpP : p <> P) by (intros ->; contradiction).
        destruct (Hall p) as [Hpnd Hppar]; [now right|]. split.
        - rewrite lookup_insert_ne by congruence. rewrite Hr1; [exact Hpnd|].
          intros Hin. destruct (HPpar p Hin) as [_ Hnot]. apply Hnot. now right.
        - intros q Hq. destruct (Hppar q Hq) as [Hq1 Hq2]. split.
          + assert (HqP : q <> P) by (intros ->; apply Hq2; now left).
            rewrite lookup_insert_ne by congruence.
            destruct (decide (q ∈ parents P)) as [Hin|Hnin].
            * now rewrite Hd1.
            * now rewrite Hr1.
          + intros Hin. apply Hq2. now right. }
      rewrite with_tree_twice in Hrun. simpl tree in Hdirs, Hframe.
      exists t'. split; [|split; [|split; [|split]]].
      * simpl. unfold bind. rewrite Hstep. exact Hrun.
      * intros m0 data0 Hin Hd0 Hp0. apply elem_of_cons in Hin as [->|Hin];
          [|now apply Hfiles].
        assert (data0 = data) by congruence. subst data0. fold P.
        rewrite Hframe; [now rewrite lookup_insert_eq|].
        intros p Hp. split; [intros ->; contradiction|].
        intros Hin. destruct (Hall p) as [_ Hppar]; [now right|].
        destruct (Hppar P Hin) as [_ Hnot]. apply Hnot. now left.
      * intros p q Hp Hq. apply elem_of_cons in Hp as [->|Hp];
          [|now apply (Hpar p)].
        apply Hdirs. rewrite lookup_insert_ne; [now apply Hd1|].
        intros <-. contradiction.
      * intros q Hq. apply Hdirs.
        assert (HqP : q <> P).
        { intros ->. rewrite Hq in HPnd. discriminate. }
        rewrite lookup_insert_ne by congruence.
        destruct (decide (q ∈ parents P)) as [Hin|Hnin];
          [now apply Hd1|now rewrite Hr1].
      * intros q Hq. destruct (Hq P) as [HqP HqPar]; [now left|].
        rewrite Hframe.
        -- rewrite lookup_insert_ne by congruence. now apply Hr1.
        -- intros p Hp. apply Hq. now right.
Qed.

End Loop.

(** ** The updater of the current directory *)

Section Here.

Lemma normpath_fold (slashes : nat) cs acc :
  Forall (fun c => plain c = true) cs ->
  fold_left
    (fun (new_comps : list string) (comp : string) =>
       if OS.is_here comp then new_comps
       else if negb (OS.is_up comp)
               || (Nat.eqb slashes 0 && bool_decide (new_comps = []))
               || (negb (bool_decide (new_comps = []))
                   && OS.is_up (List.last new_comps ""))
            then new_comps ++ [comp]
            else removelast new_comps)
    cs acc
  = acc ++ cs.
Proof.
  intros Hcs. revert acc. induction Hcs as [|c cs Hc Hcs IH]; intros acc.
  - simpl. now rewrite app_nil_r.
  - apply plain_parts in Hc as (Hh & Hu & _ & _). cbn [fold_left].
    rewrite Hh, Hu. cbn [negb orb]. rewrite IH. now rewrite <- app_assoc.
Qed.

Lemma fold_left_snoc {A B} (f : A -> B -> A) l x a :
  fold_left f (l ++ [x]) a = f (fold_left f l a) x.
Proof. now rewrite fold_left_app. Qed.

(** [os.path.abspath('.')] is the working directory. *)
Lemma abspath_dot w :
  Forall (fun c => plain c = true) (cwd w) ->
  OS.abspath w "." = OS.path_string (cwd w).
Proof.
  intros Hcwd.
  change (OS.abspath w ".")
    with (OS.normpath (OS.path_join (OS.path_string (cwd w)) ".")).
  assert (Hj : OS.path_join (OS.path_string (cwd w)) "."
               = String "/" (PyStr.join_sep (cwd w ++ ["."]))).
  { change (OS.path_join (OS.path_string (cwd w)) ".")
      with (if String.eqb (OS.path_string (cwd w)) ""
               || PyStr.endswith_sep (OS.path_string (cwd w))
            then OS.path_string (cwd w) +:+ "."
            else OS.path_string (cwd w) +:+ "/.").
    destruct (cwd w) as [|c cs] eqn:E; [reflexivity|].
    assert (He : PyStr.endswith_sep (OS.path_string (c :: cs)) = false).
    { unfold OS.path_string. rewrite endswith_sep_cons.
      - now apply endswith_sep_join.
      - now apply join_sep_not_empty. }
    rewrite He. unfold OS.path_string. cbn [String.eqb orb].
    rewrite join_sep_app by done. reflexivity. }
  rewrite Hj. unfold OS.normpath. cbn [String.eqb].
  assert (Hsplit : PyStr.split_sep (String "/" (PyStr.join_sep (cwd w ++ ["."])))
                   = "" :: cwd w ++ ["."]).
  { cbn [PyStr.split_sep]. rewrite is_sep_slash. f_equal. apply split_join.
    - now destruct (cwd w).
    - apply Forall_app. split; [now apply Forall_plain_no_sep|now repeat constructor]. }
  rewrite Hsplit.
  assert (Hone : match String "/" (PyStr.join_sep (cwd w ++ ["."])) with
                 | String "/" (String "/" (String "/" _)) => 1
                 | String "/" (String "/" _) => 2
                 | String "/" _ => 1
                 | _ => 0
                 end = 1).
  { destruct (cwd w) as [|c cs] eqn:E; [reflexivity|].
    inversion Hcwd as [|? ? Hc _]; subst.
    apply plain_parts in Hc as (_ & _ & Hs & Hc).
    destruct c as [|x c]; [congruence|].
    change ((String x c :: cs) ++ ["."]) with (String x c :: (cs ++ ["."])).
    rewrite join_sep_push. simpl in Hs. apply orb_false_iff in Hs as [Hx _].
    unfold PyStr.is_sep in Hx. apply Ascii.eqb_neq in Hx.
    destruct x as [[] [] [] [] [] [] [] []]; try reflexivity. congruence. }
  rewrite Hone.
  change ("" :: cwd w ++ ["."]) with (("" :: cwd w) ++ ["."]).
  rewrite fold_left_snoc. cbn [fold_left].
  change (OS.is_here "") with true. change (OS.is_here ".") with true. cbv iota.
  rewrite normpath_fold by assumption. reflexivity.
Qed.

(** The updater that [AutoUpdater(...)] builds with the default
    [target_dir]: it works in the current directory and keeps the
    version record there. *)
Lemma AutoUpdater_init_here w owner repo branch :
  Forall (fun c => plain c = true) (cwd w) ->
  target_dir (AutoUpdater_init w owner repo branch ".") = OS.path_string (cwd w) /\
  local_version_file (AutoUpdater_init w owner repo branch ".")
  = OS.path_join (target_dir (AutoUpdater_init w owner repo branch ".")) "version.json".
Proof.
  intros Hcwd. split; [|reflexivity]. simpl. now apply abspath_dot.
Qed.

End Here.
(** ** The check and its log *)

Section LoggedChecking.
Context `{Decoders}.

(** Leaving the records out gives the methods of [updater.py] as they
    are embedded without the logger. *)
Lemma logged_get_local_version_erase self w :
  fst (Logged.get_local_version self w) = get_local_version self w.
Proof.
  unfold Logged.get_local_version, get_local_version, Logged.bind, Logged.quiet,
    Logged.try_except, Logged.logger, Logged.ret, bind, try_except.
  destruct (path_exists_ok (local_version_file self) w) as [b ->].
  destruct b; simpl; [|reflexivity].
  destruct (OS.read_file (local_version_file self) w) as [[text|e] w1];
    [|reflexivity].
  destruct (json_decode text w1) as [[data|e] w2]; [|reflexivity].
  destruct (dict_get data "version" (PStr "0.0.0") w2) as [[v|e] w3]; reflexivity.
Qed.

Lemma logged_get_remote_version_erase self w :
  fst (Logged.get_remote_version self w) = get_remote_version self w.
Proof.
  unfold Logged.get_remote_version, get_remote_version, Logged.bind, Logged.quiet,
    Logged.try_except, Logged.logger, Logged.ret, try_except.
  match goal with
  | |- context [match ?c w with _ => _ end] => destruct (c w) as [[v|e] w1]
  end; reflexivity.
Qed.

Lemma logged_get_local_version_returns self w :
  exists v l, Logged.get_local_version self w = (Ok v, w, l).
Proof.
  destruct (get_local_version_returns self w) as [v Hv].
  pose proof (logged_get_local_version_erase self w) as E. rewrite Hv in E.
  destruct (Logged.get_local_version self w) as [[r w'] l]. simpl in E.
  injection E as -> ->. now exists v, l.
Qed.

Lemma logged_get_remote_version_returns self w :
  exists v l, Logged.get_remote_version self w = (Ok v, w, l).
Proof.
  destruct (get_remote_version_returns self w) as [v Hv].
  pose proof (logged_get_remote_version_erase self w) as E. rewrite Hv in E.
  destruct (Logged.get_remote_version self w) as [[r w'] l]. simpl in E.
  injection E as -> ->. now exists v, l.
Qed.

Lemma logged_check_for_updates_erase self w :
  fst (Logged.check_for_updates self w) = check_for_updates self w.
Proof.
  unfold Logged.check_for_updates, check_for_updates, Logged.bind, bind.
  destruct (logged_get_local_version_returns self w) as (lv & ll & El).
  destruct (logged_get_remote_version_returns self w) as (rv & lr & Er).
  rewrite <- logged_get_local_version_erase, El. simpl.
  rewrite <- logged_get_remote_version_erase, Er. simpl.
  destruct (Py.truthy rv && Py.ne rv lv); [|reflexivity].
  unfold Logged.quiet, greater.
  destruct (Py.gt rv lv) as [[]|]; reflexivity.
Qed.

(** With no remote version the check ends with the record that the
    system is up to date, after the records of the two readings. *)
Lemma logged_check_for_updates_no_remote self w local_ver log_local log_remote :
  Logged.get_local_version self w = (Ok local_ver, w, log_local) ->
  Logged.get_remote_version self w = (Ok PNone, w, log_remote) ->
  Logged.check_for_updates self w
  = (Ok (false, local_ver, PNone), w,
     log_local ++ log_remote ++ [Logged.SystemUpToDate local_ver]).
Proof.
  intros El Er. unfold Logged.check_for_updates, Logged.bind.
  rewrite El, Er. reflexivity.
Qed.

(** What [get_remote_version] logs: nothing for a manifest that is an
    object, whatever its keys; the [AttributeError] for JSON of another
    kind; the error of the request or of the status when the call
    fails. *)
Lemma logged_get_remote_version_lacks self w r data :
  http w (version_url self) = Responds r -> ~ error_status r ->
  json_loads (content r) = Some data -> lacks_version data ->
  Logged.get_remote_version self w
  = (Ok PNone, w,
     match data with
     | PDict _ => []
     | _ => [Logged.FailedToCheckRemoteVersion AttributeError]
     end).
Proof.
  intros E Hs Ej Hl.
  unfold Logged.get_remote_version, Logged.try_except, Logged.quiet, bind,
    requests_get.
  rewrite E. rewrite raise_for_status_passes by assumption.
  unfold json_decode. rewrite Ej. unfold ret.
  destruct data; simpl in *; try reflexivity. now rewrite Hl.
Qed.

Lemma logged_get_remote_version_fails self w :
  remote_call_fails self w ->
  exists e,
    (e = RequestException \/ e = HTTPError) /\
    Logged.get_remote_version self w
    = (Ok PNone, w, [Logged.FailedToCheckRemoteVersion e]).
Proof.
  unfold Logged.get_remote_version, Logged.try_except, Logged.quiet, bind,
    requests_get.
  intros [E|(r & E & [Hlo Hhi])]; rewrite E.
  - exists RequestException. split; [now left|reflexivity].
  - exists HTTPError. split; [now right|]. unfold raise_for_status.
    apply Z.leb_le in Hlo. apply Z.ltb_lt in Hhi. now rewrite Hlo, Hhi.
Qed.

End LoggedChecking.

(** ** The claims about checking *)

Section CheckingClaims.
Context `{Decoders}.

(** C1: for every pair of version strings (remote, local),
    [check_for_updates] reports an update exactly when remote is
    strictly greater than local in the lexicographic order of strings;
    the comparison is irreflexive, so a version compared with itself
    never reports an update. *)
Theorem check_for_updates_lexicographic self w local remote :
  fst (get_local_version self w) = Ok (PStr local) ->
  fst (get_remote_version self w) = Ok (PStr remote) ->
  exists available,
    check_for_updates self w = (Ok (available, PStr local, PStr remote), w) /\
    (available = true <-> lex_lt local remote) /\
    (remote = local -> available = false).
Proof.
  intros El Er.
  destruct (get_local_version_returns self w) as [lv Hl].
  destruct (get_remote_version_returns self w) as [rv Hr].
  rewrite Hl in El. rewrite Hr in Er. simpl in El, Er.
  injection El as ->. injection Er as ->.
  exists (PyStr.ltb local remote). split; [|split].
  - now apply check_for_updates_strings.
  - apply ltb_lex.
  - intros ->. apply ltb_irrefl.
Qed.

(** C8: when the local version record file is absent, reading the
    local version is not an error and gives the sentinel "0.0.0". *)
Theorem get_local_version_absent self w :
  fst (OS.path_exists (local_version_file self) w) = Ok false ->
  get_local_version self w = (Ok (PStr "0.0.0"), w).
Proof.
  intros E. unfold get_local_version. run_monad.
  destruct (path_exists_ok (local_version_file self) w) as [b Hb].
  rewrite Hb in *. simpl in E. injection E as ->. reflexivity.
Qed.

(** C10: when the local version record exists but cannot be read, or
    is not JSON, or is JSON without the key [version],
    [get_local_version] returns "0.0.0" instead of failing;
    [check_for_updates] then compares with "0.0.0" and reports an
    update for every remote version string above it. *)
Theorem get_local_version_unusable self w :
  unusable_record self w ->
  get_local_version self w = (Ok (PStr "0.0.0"), w) /\
  forall remote,
    fst (get_remote_version self w) = Ok (PStr remote) ->
    exists available,
      check_for_updates self w = (Ok (available, PStr "0.0.0", PStr remote), w) /\
      (available = true <-> lex_lt "0.0.0" remote).
Proof.
  intros [Hex Hbad].
  assert (Hl : get_local_version self w = (Ok (PStr "0.0.0"), w)).
  { unfold get_local_version. run_monad.
    destruct (path_exists_ok (local_version_file self) w) as [b Hb].
    rewrite Hb in *. simpl in Hex. injection Hex as ->. simpl.
    destruct (read_file_cases (local_version_file self) w) as [[text Ht]|Ht];
      rewrite Ht in *; [|reflexivity].
    destruct Hbad as [[e He]|(text' & Ht' & Hj)]; [discriminate|].
    simpl in Ht'. injection Ht' as <-. unfold json_decode.
    destruct Hj as [->|(data & -> & Hd)]; run_monad; [reflexivity|].
    destruct data; simpl in *; try reflexivity. now rewrite Hd. }
  split; [exact Hl|]. intros remote Er.
  destruct (get_remote_version_returns self w) as [rv Hr].
  rewrite Hr in Er. simpl in Er. injection Er as ->.
  exists (PyStr.ltb "0.0.0" remote). split.
  - now apply check_for_updates_strings.
  - apply ltb_lex.
Qed.

(** C7, as the code has it: when the call to the remote endpoint fails
    as [requests] has it -- [requests.get] raises (connection failure,
    timeout), or the status is one of 400..599, such as HTTP 500 --
    [check_for_updates] returns (False, local_version, None) and does
    not raise.  A status outside 400..599 is no failure, whether it is
    a success or not: the manifest in the body is read, and its
    version is compared with the local one as for a 200. *)
Theorem check_for_updates_remote_failure self w :
  (remote_call_fails self w ->
   exists local_ver,
     get_local_version self w = (Ok local_ver, w) /\
     check_for_updates self w = (Ok (false, local_ver, PNone), w)) /\
  (forall r doc local remote,
     http w (version_url self) = Responds r -> ~ error_status r ->
     json_loads (content r) = Some (PDict doc) ->
     Py.assoc "version" doc = Some (PStr remote) ->
     fst (get_local_version self w) = Ok (PStr local) ->
     exists available,
       check_for_updates self w = (Ok (available, PStr local, PStr remote), w) /\
       (available = true <-> lex_lt local remote)).
Proof.
  split.
  - intros Hf. destruct (get_local_version_returns self w) as [lv Hl].
    exists lv. split; [exact Hl|]. apply check_for_updates_no_remote; [exact Hl|].
    destruct Hf as [E|(r & E & Hs)].
    + now apply get_remote_version_request_fails.
    + now apply get_remote_version_error_status with r.
  - intros r doc local remote Hr Hs Hj Hv El.
    destruct (get_local_version_returns self w) as [lv Hl].
    rewrite Hl in El. simpl in El. injection El as ->.
    exists (PyStr.ltb local remote). split; [|apply ltb_lex].
    apply check_for_updates_strings; [exact Hl|].
    now apply get_remote_version_published with r doc.
Qed.

(** C2, as the code has it: for every remote manifest that is valid
    structured data but lacks [version], [check_for_updates] returns
    (False, local_version, None) in the world it started from, the
    local version record with it, and nothing is raised.  When the
    manifest is an object nothing is logged as an error either: after
    the records of the reading of the local version there is the one
    record that the system is up to date.  When it is JSON of another
    kind, the [AttributeError] of [data.get] is logged as a failed
    check of the remote version before that record. *)
Theorem check_for_updates_manifest_lacks_version self w r data :
  http w (version_url self) = Responds r -> ~ error_status r ->
  json_loads (content r) = Some data -> lacks_version data ->
  exists local_ver log_local,
    get_local_version self w = (Ok local_ver, w) /\
    check_for_updates self w = (Ok (false, local_ver, PNone), w) /\
    Logged.get_local_version self w = (Ok local_ver, w, log_local) /\
    Logged.check_for_updates self w
    = (Ok (false, local_ver, PNone), w,
       log_local
       ++ match data with
          | PDict _ => []
          | _ => [Logged.FailedToCheckRemoteVersion AttributeError]
          end
       ++ [Logged.SystemUpToDate local_ver]).
Proof.
  intros E Hs Ej Hd.
  destruct (logged_get_local_version_returns self w) as (lv & ll & Hl).
  assert (Hl' : get_local_version self w = (Ok lv, w)).
  { rewrite <- logged_get_local_version_erase, Hl. reflexivity. }
  exists lv, ll. split; [exact Hl'|]. split; [|split; [exact Hl|]].
  - apply check_for_updates_no_remote; [exact Hl'|].
    now apply get_remote_version_lacks with r data.
  - apply logged_check_for_updates_no_remote; [exact Hl|].
    now apply logged_get_remote_version_lacks with r.
Qed.

End CheckingClaims.


(** ** The claims about installing *)

Section InstallClaims.
Context `{Decoders}.
Implicit Types (m : ZipInfo) (T : list string).

(** Once the archive is there and has a member, [do_update] is the
    loop, with [True] for a loop that ends and [False] for one that
    raises. *)
Lemma do_update_loop self w r z :
  http w (zip_url self) = Responds r -> ~ error_status r ->
  zip_members (content r) = Some z -> z <> [] ->
  do_update self w
  = match for_each z (extract_member self) w with
    | (Ok _, w') => (Ok true, w')
    | (Raise _, w') => (Ok false, w')
    end.
Proof.
  intros Hr Hs Hz Hne. unfold do_update, try_except, bind, requests_get.
  rewrite Hr. rewrite raise_for_status_passes by assumption.
  unfold ZipFile. rewrite Hz. unfold item, ret, raise.
  destruct z as [|m z]; [congruence|]. cbn -[for_each PyStr.split_sep].
  destruct (PyStr.split_sep (filename m)) as [|root parts] eqn:E;
    [now apply split_sep_not_nil in E|].
  destruct (for_each (m :: z) (extract_member self) w) as [[[]|e] w'];
    reflexivity.
Qed.

Lemma single_root_parts root z :
  single_root root z = true ->
  z <> [] /\
  Forall (fun m => is_dir m = true \/ file_member m = true) z /\
  forall m, m ∈ z -> root_of m = root /\ stripped m <> [].
Proof.
  unfold single_root. intros Hz. destruct z as [|m0 z0]; [discriminate|].
  split; [discriminate|]. rewrite forallb_forall in Hz. split.
  - apply Forall_forall. intros m Hm. apply list_elem_of_In in Hm.
    specialize (Hz m Hm). apply andb_true_iff in Hz as [_ Hz].
    now apply orb_true_iff in Hz.
  - intros m Hm. apply list_elem_of_In in Hm. specialize (Hz m Hm).
    apply andb_true_iff in Hz as [Hz _]. apply andb_true_iff in Hz as [Hr Hs].
    apply String.eqb_eq in Hr. split; [exact Hr|].
    now destruct (stripped m).
Qed.

(** An archive of directories and files, below whatever folders, whose
    files fit into the tree is installed whole: [do_update] returns
    [True] and every file is where its name, less the first folder,
    puts it below [target_dir]. *)
Lemma do_update_installs self w T r z :
  target_dir self = OS.path_string T ->
  Forall (fun c => plain c = true) T ->
  http w (zip_url self) = Responds r -> ~ error_status r ->
  zip_members (content r) = Some z -> z <> [] ->
  Forall (fun m => is_dir m = true \/ file_member m = true) z ->
  fits (tree w) (destinations T z) = true ->
  exists w',
    do_update self w = (Ok true, w') /\
    forall m, m ∈ z -> is_dir m = false ->
      exists data,
        payload m = Some data /\
        tree w' !! (T ++ stripped m) = Some (File data) /\
        OS.read_file (OS.path_join (target_dir self) (PyStr.join_sep (stripped m))) w'
        = (Ok data, w').
Proof.
  intros HT HTp Hr Hs Hz Hne Hshape Hfit.
  destruct (install_members self T z HT HTp Hshape w Hfit)
    as (t' & Hrun & Hfiles & Hpar & _ & _).
  exists (with_tree w t'). split.
  - rewrite (do_update_loop self w r z) by assumption. now rewrite Hrun.
  - intros m Hm Hdir.
    assert (Hf : file_member m = true).
    { rewrite Forall_forall in Hshape. destruct (Hshape m Hm); congruence. }
    destruct (file_member_parts m Hf) as (Hst & Hpl & data & Hdata).
    exists data. split; [exact Hdata|].
    pose proof (Hfiles m data Hm Hdir Hdata) as Hfile.
    split; [exact Hfile|].
    rewrite HT, path_join_canonical by assumption.
    destruct (exists_last Hst) as (cs & c & Ecs).
    rewrite Ecs in Hpl. apply Forall_app in Hpl as [Hcs Hc].
    assert (EP : T ++ stripped m = (T ++ cs) ++ [c]) by (now rewrite Ecs, app_assoc).
    rewrite EP. rewrite read_file_canonical.
    + simpl tree. rewrite <- EP. now rewrite Hfile.
    + apply Forall_app. now split.
    + now inversion Hc.
    + intros q Hq. simpl tree. apply (Hpar (T ++ stripped m)).
      * now apply elem_of_destinations.
      * rewrite EP. now apply along_parents.
Qed.

(** C4: for every well-formed archive all of whose entries lie below
    the one root folder "Repo-main/", [do_update] succeeds and writes
    each entry that is not a directory to the path below [target_dir]
    that its name gives once the root folder is stripped; the file
    holds exactly the bytes of the entry. *)
Theorem do_update_single_root self w T r z :
  target_dir self = OS.path_string T ->
  Forall (fun c => plain c = true) T ->
  http w (zip_url self) = Responds r -> ~ error_status r ->
  zip_members (content r) = Some z ->
  single_root "Repo-main" z = true ->
  fits (tree w) (destinations T z) = true ->
  exists w',
    do_update self w = (Ok true, w') /\
    forall m, m ∈ z -> is_dir m = false ->
      exists rel_path data,
        filename m = "Repo-main/" +:+ rel_path /\
        rel_path = PyStr.join_sep (stripped m) /\
        payload m = Some data /\
        tree w' !! (T ++ stripped m) = Some (File data) /\
        OS.read_file (OS.path_join (target_dir self) rel_path) w' = (Ok data, w').
Proof.
  intros HT HTp Hr Hs Hz Hroot Hfit.
  destruct (single_root_parts _ _ Hroot) as (Hne & Hshape & Hunder).
  destruct (do_update_installs self w T r z HT HTp Hr Hs Hz Hne Hshape Hfit)
    as (w' & Hrun & Hall).
  exists w'. split; [exact Hrun|]. intros m Hm Hdir.
  destruct (Hall m Hm Hdir) as (data & Hdata & Hfile & Hread).
  destruct (Hunder m Hm) as [Hrt Hst].
  exists (PyStr.join_sep (stripped m)), data.
  split; [|now repeat split].
  rewrite (member_name m Hst), Hrt. reflexivity.
Qed.

(** C3, as the code has it: for every archive with an entry, not a
    directory, whose name has no separator at all, [do_update] fails
    (it returns [False]) and nothing listed after the first such entry
    is processed: the world is the one the entries before it left. *)
Theorem do_update_member_without_separator self w r before bad after :
  http w (zip_url self) = Responds r -> ~ error_status r ->
  zip_members (content r) = Some (before ++ bad :: after) ->
  is_dir bad = false -> PyStr.has_sep (filename bad) = false ->
  do_update self w = (Ok false, snd (for_each before (extract_member self) w)).
Proof.
  intros Hr Hs Hz Hd Hn.
  rewrite (do_update_loop self w r (before ++ bad :: after)); try assumption.
  - rewrite for_each_app.
    destruct (for_each before (extract_member self) w) as [[[]|e] w'];
      [|reflexivity].
    simpl. unfold bind. now rewrite extract_member_no_sep.
  - now destruct before.
Qed.

(** C9: in the loop of [do_update], a file entry that is written has
    the directories above its destination made first, the missing
    ones being created, and then the file is opened for writing and
    filled, whether or not a file was there. *)
Theorem extract_member_makes_parents_then_writes self w T m data :
  target_dir self = OS.path_string T ->
  Forall (fun c => plain c = true) T ->
  file_member m = true -> payload m = Some data ->
  (forall q, q ∈ parents (T ++ stripped m) -> free_or_dir (tree w !! q) = true) ->
  not_dir (tree w !! (T ++ stripped m)) = true ->
  let target_path := OS.path_join (target_dir self) (PyStr.join_sep (stripped m)) in
  exists w1 w2 w3,
    OS.makedirs (OS.path_dirname target_path) w = (Ok tt, w1) /\
    (forall q, q ∈ parents (T ++ stripped m) -> tree w1 !! q = Some Dir) /\
    (forall q, q ∉ parents (T ++ stripped m) -> tree w1 !! q = tree w !! q) /\
    OS.open_wb target_path w1 = (Ok (T ++ stripped m), w2) /\
    OS.write (T ++ stripped m) data w2 = (Ok tt, w3) /\
    extract_member self m w = (Ok tt, w3) /\
    tree w3 !! (T ++ stripped m) = Some (File data) /\
    (forall q, q <> T ++ stripped m -> tree w3 !! q = tree w1 !! q).
Proof.
  intros HT HTp Hf Hdata Hfree Hnd target_path.
  destruct (extract_member_file self w T m data HT HTp Hf Hdata Hfree Hnd)
    as (t1 & Hmk & Hd & Hr & Hop & Hstep).
  exists (with_tree w t1), (with_tree w (<[T ++ stripped m := File []]> t1)),
         (with_tree w (<[T ++ stripped m := File data]> t1)).
  repeat split; try assumption.
  - unfold OS.write. simpl. now rewrite insert_insert_eq.
  - simpl. apply lookup_insert_eq.
  - intros q Hq. simpl. now apply lookup_insert_ne.
Qed.

Lemma get_local_version_canonical self w Q c :
  local_version_file self = OS.path_string (Q ++ [c]) ->
  Forall (fun c => plain c = true) Q -> plain c = true ->
  (forall q, along [] Q q -> tree w !! q = Some Dir) ->
  get_local_version self w = (Ok (recorded_version (tree w !! (Q ++ [c]))), w).
Proof.
  intros Hf HQ Hc Hdirs. unfold get_local_version, bind, try_except.
  rewrite Hf. rewrite path_exists_canonical by assumption.
  unfold recorded_version.
  destruct (tree w !! (Q ++ [c])) as [n|] eqn:E.
  - rewrite bool_decide_eq_true_2 by (now exists n). cbn [negb].
    rewrite read_file_canonical by assumption. rewrite E.
    destruct n as [text|]; [|reflexivity].
    unfold json_decode. destruct (json_loads text) as [data|]; [|reflexivity].
    unfold ret at 1. destruct data; reflexivity.
  - rewrite bool_decide_eq_false_2 by (intros [n Hn]; discriminate). reflexivity.
Qed.


(** [do_update] never raises: its handler turns every exception into
    [False]. *)
Lemma do_update_returns self w : exists b w', do_update self w = (Ok b, w').
Proof.
  unfold do_update, try_except.
  match goal with |- context [match ?c w with _ => _ end] => destruct (c w) as [[b|e] w'] end;
    now eexists _, _.
Qed.

Lemma check_for_updates_world self w : snd (check_for_updates self w) = w.
Proof.
  unfold check_for_updates, bind.
  destruct (get_local_version_returns self w) as [lv ->].
  destruct (get_remote_version_returns self w) as [rv ->].
  destruct (Py.truthy rv && Py.ne rv lv); [|reflexivity].
  unfold greater. destruct (Py.gt rv lv) as [[]|]; reflexivity.
Qed.

(** With [--update] and an update on offer, and with [--force], the
    restart follows [do_update] whatever it returns. *)
Lemma cli_main_update_restarts args w local_ver remote_ver :
  force args = false -> update args = true ->
  fst (check_for_updates
         (AutoUpdater_init w DEFAULT_OWNER DEFAULT_REPO DEFAULT_BRANCH ".") w)
  = Ok (true, local_ver, remote_ver) ->
  exists w', cli_main args w = (Execs (executable w') (executable w' :: argv w'), w').
Proof.
  intros Hf Hu Hc. unfold cli_main, run. rewrite Hf, Hu.
  destruct (check_for_updates _ w) as [res w0] eqn:E. simpl in Hc. subst res.
  destruct (do_update_returns
              (AutoUpdater_init w DEFAULT_OWNER DEFAULT_REPO DEFAULT_BRANCH ".") w0)
    as (b & w' & ->).
  now exists w'.
Qed.

Lemma cli_main_force_restarts args w :
  force args = true ->
  exists w', cli_main args w = (Execs (executable w') (executable w' :: argv w'), w').
Proof.
  intros Hf. unfold cli_main, run. rewrite Hf.
  destruct (do_update_returns
              (AutoUpdater_init w DEFAULT_OWNER DEFAULT_REPO DEFAULT_BRANCH ".") w)
    as (b & w' & ->).
  now exists w'.
Qed.

End InstallClaims.

(** ** Further properties of [updater.py] and [main.py] *)

Section UpdaterProperties.
Context `{Decoders}.
Implicit Types (m : ZipInfo) (T : list string).

Lemma compare_with_str v s :
  is_str v = false ->
  Py.eq v (PStr s) = false /\ Py.gt v (PStr s) = None /\
  Py.eq (PStr s) v = false /\ Py.gt (PStr s) v = None.
Proof. destruct v; try discriminate; intros _; repeat split; reflexivity. Qed.

Lemma check_for_updates_outcomes self w :
  (exists answer, check_for_updates self w = (Ok answer, w)) \/
  check_for_updates self w = (Raise TypeError, w).
Proof.
  unfold check_for_updates, bind.
  destruct (get_local_version_returns self w) as [lv ->].
  destruct (get_remote_version_returns self w) as [rv ->].
  destruct (Py.truthy rv && Py.ne rv lv); [|left; now eexists].
  unfold greater. destruct (Py.gt rv lv) as [[]|]; [left|left|right];
    try reflexivity; now eexists.
Qed.

(** X1: [check_for_updates] writes nothing, and the one exception it
    lets out is the [TypeError] of the comparison of the versions. *)
Theorem check_for_updates_reads_only self w :
  (exists answer, check_for_updates self w = (Ok answer, w)) \/
  check_for_updates self w = (Raise TypeError, w).
Proof.
  unfold check_for_updates, bind.
  destruct (get_local_version_returns self w) as [lv ->].
  destruct (get_remote_version_returns self w) as [rv ->].
  destruct (Py.truthy rv && Py.ne rv lv); [|left; now eexists].
  unfold greater. destruct (Py.gt rv lv) as [[]|]; [left|left|right];
    try reflexivity; now eexists.
Qed.

(** X2: the versions are compared as they come out of the JSON
    documents: when one of them is a string and the other is not, and
    the remote one is truthy, [check_for_updates] raises [TypeError]. *)
Theorem check_for_updates_mixed_types self w local_ver remote_ver :
  fst (get_local_version self w) = Ok local_ver ->
  fst (get_remote_version self w) = Ok remote_ver ->
  Py.truthy remote_ver = true ->
  is_str local_ver = negb (is_str remote_ver) ->
  check_for_updates self w = (Raise TypeError, w).
Proof.
  intros El Er Ht Hmix. unfold check_for_updates, bind.
  destruct (get_local_version_returns self w) as [lv Hl].
  destruct (get_remote_version_returns self w) as [rv Hr].
  rewrite Hl in *. rewrite Hr in *. simpl in El, Er.
  injection El as ->. injection Er as ->. rewrite Ht. unfold Py.ne, greater.
  destruct (is_str remote_ver) eqn:Hs.
  - destruct remote_ver as [| | | |r| |]; try discriminate.
    destruct (compare_with_str local_ver r Hmix) as (_ & _ & -> & ->).
    reflexivity.
  - destruct local_ver as [| | | |l| |]; try discriminate.
    destruct (compare_with_str remote_ver l Hs) as (-> & -> & _ & _).
    reflexivity.
Qed.

(** X23: a remote version that is falsy ([None], the empty string, 0,
    an empty list or object) is never an update and is never compared:
    the answer is [False] whatever the local version is. *)
Theorem check_for_updates_falsy_remote self w remote_ver :
  fst (get_remote_version self w) = Ok remote_ver ->
  Py.truthy remote_ver = false ->
  exists local_ver,
    get_local_version self w = (Ok local_ver, w) /\
    check_for_updates self w = (Ok (false, local_ver, remote_ver), w).
Proof.
  intros Er Ht.
  destruct (get_local_version_returns self w) as [lv Hl].
  destruct (get_remote_version_returns self w) as [rv Hr].
  rewrite Hr in Er. simpl in Er. injection Er as ->.
  exists lv. split; [exact Hl|].
  unfold check_for_updates, bind. now rewrite Hl, Hr, Ht.
Qed.

(** X3: when the archive cannot be had (the request fails, the status
    is an error, the body is no zip file, or the zip file is empty),
    [do_update] returns [False] and leaves every file as it was. *)
Theorem do_update_without_archive self w :
  no_archive self w -> do_update self w = (Ok false, w).
Proof.
  unfold no_archive, do_update, try_except, bind, requests_get.
  intros [E|(r & E & Hr)]; rewrite E; [reflexivity|].
  destruct Hr as [Hs|[Hz|Hz]].
  - destruct Hs as [Hlo Hhi]. unfold raise_for_status.
    apply Z.leb_le in Hlo. apply Z.ltb_lt in Hhi. now rewrite Hlo, Hhi.
  - destruct (raise_for_status r w) as [[[]|e] w'] eqn:Es;
      unfold raise_for_status in Es;
      destruct ((400 <=? status_code r)%Z && (status_code r <? 600)%Z);
      inversion Es; subst; try reflexivity.
    unfold ZipFile. now rewrite Hz.
  - destruct (raise_for_status r w) as [[[]|e] w'] eqn:Es;
      unfold raise_for_status in Es;
      destruct ((400 <=? status_code r)%Z && (status_code r <? 600)%Z);
      inversion Es; subst; try reflexivity.
    unfold ZipFile. now rewrite Hz.
Qed.

Lemma for_each_directories self z w :
  Forall (fun m => is_dir m = true) z ->
  for_each z (extract_member self) w = (Ok tt, w).
Proof.
  induction 1 as [|m z Hm Hz IH]; [reflexivity|].
  simpl. unfold bind, extract_member. now rewrite Hm.
Qed.

(** X4: directory entries are skipped: an archive that holds nothing
    but directories is installed with success and creates nothing, not
    even the directories. *)
Theorem do_update_only_directories self w r z :
  http w (zip_url self) = Responds r -> ~ error_status r ->
  zip_members (content r) = Some z -> z <> [] ->
  Forall (fun m => is_dir m = true) z ->
  do_update self w = (Ok true, w).
Proof.
  intros Hr Hs Hz Hne Hd.
  rewrite (do_update_loop self w r z) by assumption.
  now rewrite for_each_directories.
Qed.

(** X11: without [--force] and [--update] the command line only
    checks: nothing is written and the process is not restarted;
    [--check] and [--restart] change nothing to that. *)
Theorem cli_main_checks_only args w :
  force args = false -> update args = false ->
  exists e, cli_main args w = (e, w) /\ (e = Returns \/ e = Dies TypeError).
Proof.
  intros Hf Hu. unfold cli_main, run. rewrite Hf, Hu.
  destruct (check_for_updates_outcomes
              (AutoUpdater_init w DEFAULT_OWNER DEFAULT_REPO DEFAULT_BRANCH ".") w)
    as [[answer ->]| ->].
  - exists Returns. split; [reflexivity|now left].
  - exists (Dies TypeError). split; [reflexivity|now right].
Qed.

(** X24: [--force] goes before [--update] and asks for no version:
    the archive is installed and [restart_program] follows on the
    world [do_update] leaves, whatever [do_update] returned. *)
Theorem cli_main_force args w :
  force args = true ->
  cli_main args w
  = restart_program
      (snd (do_update
              (AutoUpdater_init w DEFAULT_OWNER DEFAULT_REPO DEFAULT_BRANCH ".") w)).
Proof.
  intros Hf. unfold cli_main, run. rewrite Hf.
  destruct (do_update_returns
              (AutoUpdater_init w DEFAULT_OWNER DEFAULT_REPO DEFAULT_BRANCH ".") w)
    as (b & w' & ->).
  reflexivity.
Qed.

(** X12: with [--update] and no newer version on offer nothing is
    downloaded, nothing is written and the process is not restarted. *)
Theorem cli_main_update_up_to_date args w local_ver remote_ver :
  force args = false -> update args = true ->
  fst (check_for_updates
         (AutoUpdater_init w DEFAULT_OWNER DEFAULT_REPO DEFAULT_BRANCH ".") w)
  = Ok (false, local_ver, remote_ver) ->
  cli_main args w = (Returns, w).
Proof.
  intros Hf Hu Hc. unfold cli_main, run. rewrite Hf, Hu.
  destruct (check_for_updates_outcomes
              (AutoUpdater_init w DEFAULT_OWNER DEFAULT_REPO DEFAULT_BRANCH ".") w)
    as [[answer E]|E]; rewrite E in *; simpl in Hc; [|discriminate].
  injection Hc as ->. reflexivity.
Qed.

(** X13: in [main.py], an answer to the prompt other than [y] or [Y]
    leaves everything as it is: no download, nothing written, and the
    application runs on. *)
Theorem host_main_declined user_choice w :
  lower_is_y user_choice = false ->
  exists e, host_main user_choice w = (e, w) /\ (e = Returns \/ e = Dies TypeError).
Proof.
  intros Hn. unfold host_main, run. rewrite Hn.
  destruct (check_for_updates_outcomes
              (AutoUpdater_init w "Johnthesuper117" "Self-Updating-Script"
                                DEFAULT_BRANCH ".") w)
    as [[[[available lv] rv] ->]| ->].
  - exists Returns. split; [now destruct available|now left].
  - exists (Dies TypeError). split; [reflexivity|now right].
Qed.

(** X14: [main.py] never replaces the process, and it exits for a
    restart exactly when an update was on offer, the user agreed and
    [do_update] returned [True]. *)
Theorem host_main_exits_after_success user_choice w :
  stays (fst (host_main user_choice w)) = true /\
  (fst (host_main user_choice w) = Exits <->
   lower_is_y user_choice = true /\
   (exists local_ver remote_ver,
       fst (check_for_updates
              (AutoUpdater_init w "Johnthesuper117" "Self-Updating-Script"
                                DEFAULT_BRANCH ".") w)
       = Ok (true, local_ver, remote_ver)) /\
   fst (do_update
          (AutoUpdater_init w "Johnthesuper117" "Self-Updating-Script"
                            DEFAULT_BRANCH ".") w) = Ok true).
Proof.
  unfold host_main, run.
  set (u := AutoUpdater_init w "Johnthesuper117" "Self-Updating-Script"
                             DEFAULT_BRANCH ".").
  destruct (check_for_updates_outcomes u w) as [[[[available lv] rv] ->]| ->].
  - destruct available.
    + destruct (lower_is_y user_choice).
      * destruct (do_update_returns u w) as (b & w' & ->). destruct b; simpl.
        -- split; [reflexivity|]. split; [|reflexivity]. intros _.
           split; [reflexivity|]. split; [now exists lv, rv|reflexivity].
        -- split; [reflexivity|]. split; [discriminate|].
           intros (_ & _ & E). discriminate.
      * simpl. split; [reflexivity|]. split; [discriminate|].
        intros (E & _). discriminate.
    + simpl. split; [reflexivity|]. split; [discriminate|].
      intros (_ & (l & r & E) & _). discriminate.
  - simpl. split; [reflexivity|]. split; [discriminate|].
    intros (_ & (l & r & E) & _). discriminate.
Qed.

(** X16: [update_now] installs without restarting: it comes back to
    its caller whether or not there was an update and whether or not
    the install went well; only the [TypeError] of the check gets out. *)
Theorem update_now_comes_back w :
  fst (update_now w) = Returns \/ fst (update_now w) = Dies TypeError.
Proof.
  unfold update_now, run.
  destruct (check_for_updates_outcomes
              (AutoUpdater_init w DEFAULT_OWNER DEFAULT_REPO DEFAULT_BRANCH ".") w)
    as [[[[available lv] rv] ->]| ->]; [|now right].
  destruct available; [|now left].
  destruct (do_update_returns
              (AutoUpdater_init w DEFAULT_OWNER DEFAULT_REPO DEFAULT_BRANCH ".") w)
    as (b & w' & ->).
  now left.
Qed.

End UpdaterProperties.

(** ** Further properties of the install loop *)

Section InstallProperties.
Context `{Decoders}.
Implicit Types (m : ZipInfo) (T : list string).

Lemma named_file_parts m :
  named_file m = true ->
  stripped m <> [] /\ Forall (fun c => plain c = true) (stripped m).
Proof.
  unfold named_file. intros Hn.
  destruct (stripped m) as [|c cs] eqn:E; [discriminate|].
  split; [discriminate|].
  apply Forall_forall. intros x Hx. rewrite forallb_forall in Hn.
  apply Hn. now apply list_elem_of_In.
Qed.

Lemma readable_copy_file_member m data :
  named_file m = true -> file_member (readable_copy m data) = true.
Proof.
  intros Hn. unfold file_member.
  change (stripped (readable_copy m data)) with (stripped m).
  unfold named_file in Hn. rewrite Hn.
  apply andb_true_iff. split; [reflexivity|].
  apply bool_decide_eq_true. now eexists.
Qed.

(** What the loop does with a file of the archive, step by step. *)
Lemma extract_member_steps self m w :
  named_file m = true ->
  extract_member self m w
  = bind (OS.makedirs
            (OS.path_dirname
               (OS.path_join (target_dir self) (PyStr.join_sep (stripped m)))))
         (fun _ =>
            bind (OS.open_wb
                    (OS.path_join (target_dir self) (PyStr.join_sep (stripped m))))
                 (fun f => bind (zip_read m) (fun data => OS.write f data))) w.
Proof.
  intros Hn. destruct (named_file_parts m Hn) as [Hne Hpl].
  pose proof (file_member_not_dir _ (readable_copy_file_member m [] Hn)) as Hdir.
  change (is_dir (readable_copy m [])) with (is_dir m) in Hdir.
  unfold extract_member. rewrite Hdir.
  rewrite (member_name m Hne).
  rewrite split_sep1_app by apply root_of_no_sep.
  unfold item. simpl nth_error. unfold bind at 1. unfold ret at 1.
  destruct (String.eqb_spec (PyStr.join_sep (stripped m)) "") as [E|_];
    [now apply join_sep_not_empty in E|].
  reflexivity.
Qed.

(** X5: a member that cannot be read costs the file it was to
    replace: the file is opened, and so emptied, before the member is
    read; the step then raises and an empty file stays behind. *)
Theorem extract_member_unreadable self w T m :
  target_dir self = OS.path_string T ->
  Forall (fun c => plain c = true) T ->
  named_file m = true -> payload m = None ->
  (forall q, q ∈ parents (T ++ stripped m) -> free_or_dir (tree w !! q) = true) ->
  not_dir (tree w !! (T ++ stripped m)) = true ->
  exists w',
    extract_member self m w = (Raise BadZipFile, w') /\
    tree w' !! (T ++ stripped m) = Some (File []).
Proof.
  intros HT HTp Hn Hnone Hfree Hnd.
  destruct (extract_member_file self w T (readable_copy m []) []
              HT HTp (readable_copy_file_member m [] Hn) eq_refl Hfree Hnd)
    as (t1 & Hmk & _ & _ & Hop & _).
  change (stripped (readable_copy m [])) with (stripped m) in Hmk, Hop.
  exists (with_tree w (<[T ++ stripped m := File []]> t1)). split.
  - rewrite extract_member_steps by assumption. unfold bind.
    rewrite Hmk, Hop. unfold zip_read. now rewrite Hnone.
  - simpl. apply lookup_insert_eq.
Qed.

(** X6: a file of the archive whose way is taken is not written: when
    a file stands where a directory is needed, or a directory where
    the file is to go, the step raises [OSError]. *)
Theorem extract_member_way_taken self w T m :
  target_dir self = OS.path_string T ->
  Forall (fun c => plain c = true) T ->
  file_member m = true ->
  (exists q, q ∈ parents (T ++ stripped m) /\ free_or_dir (tree w !! q) = false) \/
  not_dir (tree w !! (T ++ stripped m)) = false ->
  exists w', extract_member self m w = (Raise OSError, w').
Proof. apply extract_member_blocked. Qed.

(** X7: the folder taken off a name is the first folder of that name,
    whatever the root folder of the first entry is: an archive of
    directories and files below any folders, whose files fit into the
    tree, is installed whole. *)
Theorem do_update_strips_each_first_folder self w T r z :
  target_dir self = OS.path_string T ->
  Forall (fun c => plain c = true) T ->
  http w (zip_url self) = Responds r -> ~ error_status r ->
  zip_members (content r) = Some z -> z <> [] ->
  Forall (fun m => is_dir m = true \/ file_member m = true) z ->
  fits (tree w) (destinations T z) = true ->
  exists w',
    do_update self w = (Ok true, w') /\
    forall m, m ∈ z -> is_dir m = false ->
      exists data,
        payload m = Some data /\
        tree w' !! (T ++ stripped m) = Some (File data) /\
        OS.read_file (OS.path_join (target_dir self) (PyStr.join_sep (stripped m))) w'
        = (Ok data, w').
Proof. apply do_update_installs. Qed.

(** X8: the install is not kept inside [target_dir]: a name whose
    path, once the first folder is off, begins with a separator is an
    absolute path for [os.path.join], and the file is written there. *)
Theorem extract_member_absolute_name self w root cs m data :
  filename m = root +:+ String "/" (String "/" (PyStr.join_sep cs)) ->
  PyStr.has_sep root = false ->
  cs <> [] -> Forall (fun c => plain c = true) cs ->
  payload m = Some data ->
  (forall q, q ∈ parents cs -> free_or_dir (tree w !! q) = true) ->
  not_dir (tree w !! cs) = true ->
  exists w',
    extract_member self m w = (Ok tt, w') /\
    tree w' !! cs = Some (File data).
Proof.
  intros Hname Hroot Hne Hpl Hdata Hfree Hnd.
  set (self' := {| owner := ""; repo := ""; branch := ""; target_dir := "/";
                   version_url := ""; zip_url := ""; local_version_file := "" |}).
  set (m' := {| filename := "x" +:+ String "/" (PyStr.join_sep cs);
                payload := Some data |}).
  assert (Hs : stripped m' = cs).
  { unfold stripped, components, m'. cbn [filename].
    rewrite split_sep_app by reflexivity. rewrite split_join; [reflexivity|assumption|].
    now apply Forall_plain_no_sep. }
  assert (Hf : file_member m' = true).
  { unfold file_member. rewrite Hs.
    destruct cs as [|c cs']; [congruence|].
    apply andb_true_iff. split.
    - apply forallb_forall. intros x Hx. rewrite Forall_forall in Hpl.
      apply Hpl. now apply list_elem_of_In.
    - apply bool_decide_eq_true. now eexists. }
  destruct (extract_member_file self' w [] m' data eq_refl
              (List.Forall_nil _) Hf eq_refl)
    as (t1 & _ & _ & _ & _ & Hstep).
  { simpl app. now rewrite Hs. }
  { simpl app. now rewrite Hs. }
  simpl app in Hstep. rewrite Hs in Hstep.
  exists (with_tree w (<[cs := File data]> t1)). split; [|apply lookup_insert_eq].
  rewrite <- Hstep.
  rewrite (extract_member_steps self' m' w)
    by (unfold named_file; rewrite Hs; unfold file_member in Hf; rewrite Hs in Hf;
        now apply andb_true_iff in Hf as [Hf _]).
  rewrite Hs.
  (* the step on [m], unfolded *)
  unfold extract_member.
  assert (Hdir : is_dir m = false).
  { unfold is_dir. rewrite Hname. rewrite endswith_sep_app by discriminate.
    rewrite endswith_sep_cons by discriminate.
    rewrite endswith_sep_cons by (now apply join_sep_not_empty).
    now apply endswith_sep_join. }
  rewrite Hdir, Hname. rewrite split_sep1_app by assumption.
  unfold item. simpl nth_error. unfold bind at 1. unfold ret at 1.
  cbn [String.eqb].
  change (OS.path_join (target_dir self) (String "/" (PyStr.join_sep cs)))
    with (String "/" (PyStr.join_sep cs)).
  assert (Hj : OS.path_join (target_dir self') (PyStr.join_sep cs)
               = String "/" (PyStr.join_sep cs)).
  { unfold OS.path_join. rewrite startswith_sep_join by assumption. reflexivity. }
  rewrite Hj. unfold bind, zip_read. rewrite Hdata. reflexivity.
Qed.

(** X15: there is no rollback: when the install stops at an entry
    whose name has no separator, [do_update] returns [False] and the
    files of the entries before it are in place, each with its bytes. *)
Theorem do_update_keeps_files_written_before_failure self w T r before bad after :
  target_dir self = OS.path_string T ->
  Forall (fun c => plain c = true) T ->
  http w (zip_url self) = Responds r -> ~ error_status r ->
  zip_members (content r) = Some (before ++ bad :: after) ->
  Forall (fun m => is_dir m = true \/ file_member m = true) before ->
  fits (tree w) (destinations T before) = true ->
  is_dir bad = false -> PyStr.has_sep (filename bad) = false ->
  exists w',
    do_update self w = (Ok false, w') /\
    forall m data, m ∈ before -> is_dir m = false -> payload m = Some data ->
                   tree w' !! (T ++ stripped m) = Some (File data).
Proof.
  intros HT HTp Hr Hs Hz Hshape Hfit Hd Hn.
  destruct (install_members self T before HT HTp Hshape w Hfit)
    as (t' & Hrun & Hfiles & _).
  exists (with_tree w t'). split; [|exact Hfiles].
  rewrite (do_update_loop self w r (before ++ bad :: after)); try assumption.
  - rewrite for_each_app, Hrun. simpl. unfold bind.
    now rewrite extract_member_no_sep.
  - now destruct before.
Qed.

Lemma destination_member T z p :
  p ∈ destinations T z ->
  exists m, m ∈ z /\ is_dir m = false /\ p = T ++ stripped m.
Proof.
  unfold destinations. intros Hp.
  apply list_elem_of_fmap in Hp as (m & -> & Hm).
  apply list_elem_of_In, filter_In in Hm as [Hm Hd].
  exists m. split; [now apply list_elem_of_In|].
  split; [now apply negb_true_iff in Hd|reflexivity].
Qed.

(** X25: an update only adds and replaces: every path that is neither
    the destination of a file of the archive nor a directory above one
    is after the update what it was before; files the new version no
    longer has stay where they are. *)
Theorem do_update_leaves_the_rest self w T r z :
  target_dir self = OS.path_string T ->
  Forall (fun c => plain c = true) T ->
  http w (zip_url self) = Responds r -> ~ error_status r ->
  zip_members (content r) = Some z -> z <> [] ->
  Forall (fun m => is_dir m = true \/ file_member m = true) z ->
  fits (tree w) (destinations T z) = true ->
  exists w',
    do_update self w = (Ok true, w') /\
    (forall q, tree w !! q = Some Dir -> tree w' !! q = Some Dir) /\
    (forall q, (forall p, p ∈ destinations T z -> q <> p /\ q ∉ parents p) ->
               tree w' !! q = tree w !! q).
Proof.
  intros HT HTp Hr Hs Hz Hne Hshape Hfit.
  destruct (install_members self T z HT HTp Hshape w Hfit)
    as (t' & Hrun & _ & _ & Hdirs & Hframe).
  exists (with_tree w t'). split; [|split; assumption].
  rewrite (do_update_loop self w r z) by assumption. now rewrite Hrun.
Qed.

(** X26: installing the same archive a second time changes nothing:
    after a successful [do_update], a [do_update] with the same
    archive succeeds again and leaves the world as it found it. *)
Theorem do_update_twice self w T r z w' :
  target_dir self = OS.path_string T ->
  Forall (fun c => plain c = true) T ->
  http w (zip_url self) = Responds r -> ~ error_status r ->
  zip_members (content r) = Some z -> z <> [] ->
  Forall (fun m => is_dir m = true \/ file_member m = true) z ->
  fits (tree w) (destinations T z) = true ->
  do_update self w = (Ok true, w') ->
  do_update self w' = (Ok true, w').
Proof.
  intros HT HTp Hr Hs Hz Hne Hshape Hfit Hfirst.
  destruct (install_members self T z HT HTp Hshape w Hfit)
    as (t' & Hrun & Hfiles & Hpar & Hdirs & Hframe).
  rewrite (do_update_loop self w r z) in Hfirst by assumption.
  rewrite Hrun in Hfirst. injection Hfirst as <-.
  pose proof Hfit as Hfit0. apply fits_spec in Hfit0 as [Hnd Hall].
  assert (Hfit' : fits (tree (with_tree w t')) (destinations T z) = true).
  { apply fits_spec. split; [exact Hnd|]. intros p Hp. simpl tree.
    destruct (destination_member T z p Hp) as (m & Hm & Hd & ->).
    assert (Hf : file_member m = true).
    { rewrite Forall_forall in Hshape. destruct (Hshape m Hm); congruence. }
    destruct (file_member_parts m Hf) as (_ & _ & data & Hdata).
    split; [now rewrite (Hfiles m data)|].
    intros q Hq. destruct (Hall _ Hp) as [_ Hparents].
    split; [now rewrite (Hpar _ q Hp)|]. now apply Hparents. }
  destruct (install_members self T z HT HTp Hshape (with_tree w t') Hfit')
    as (t'' & Hrun' & Hfiles' & Hpar' & _ & Hframe').
  rewrite (do_update_loop self (with_tree w t') r z) by assumption.
  rewrite Hrun'. rewrite with_tree_twice. f_equal. f_equal.
  apply map_eq. intros q. simpl tree in Hframe'.
  destruct (decide (q ∈ destinations T z)) as [Hq|Hq].
  { destruct (destination_member T z q Hq) as (m & Hm & Hd & ->).
    assert (Hf : file_member m = true).
    { rewrite Forall_forall in Hshape. destruct (Hshape m Hm); congruence. }
    destruct (file_member_parts m Hf) as (_ & _ & data & Hdata).
    now rewrite (Hfiles' m data), (Hfiles m data). }
  destruct (Exists_dec (fun p => q ∈ parents p) (destinations T z)) as [He|He].
  { apply Exists_exists in He as (p & Hp & Hqp).
    now rewrite (Hpar' p q), (Hpar p q). }
  apply Hframe'. intros p Hp. split.
  - intros ->. contradiction.
  - intros Hqp. apply He. apply Exists_exists. now exists p.
Qed.

(** X27: an archive that carries the version record of the published
    version ends the update: after the install the local version is
    the published one, and the next check says there is no update. *)
Theorem do_update_then_up_to_date self w T r z m data doc rv version :
  target_dir self = OS.path_string T ->
  Forall (fun c => plain c = true) T ->
  local_version_file self = OS.path_join (target_dir self) "version.json" ->
  (forall q, along [] T q -> tree w !! q = Some Dir) ->
  http w (zip_url self) = Responds r -> ~ error_status r ->
  zip_members (content r) = Some z -> z <> [] ->
  Forall (fun m => is_dir m = true \/ file_member m = true) z ->
  fits (tree w) (destinations T z) = true ->
  m ∈ z -> is_dir m = false -> stripped m = ["version.json"] ->
  payload m = Some data ->
  json_loads data = Some (PDict doc) ->
  Py.assoc "version" doc = Some (PStr version) ->
  http w (version_url self) = Responds rv -> ~ error_status rv ->
  json_loads (content rv) = Some (PDict doc) ->
  exists w',
    do_update self w = (Ok true, w') /\
    check_for_updates self w' = (Ok (false, PStr version, PStr version), w').
Proof.
  intros HT HTp Hlf Hthere Hr Hs Hz Hne Hshape Hfit Hm Hd Hst Hdata Hdoc Hver
         Hrv Hsv Hjv.
  destruct (install_members self T z HT HTp Hshape w Hfit)
    as (t' & Hrun & Hfiles & _ & Hdirs & _).
  exists (with_tree w t'). split.
  { rewrite (do_update_loop self w r z) by assumption. now rewrite Hrun. }
  assert (Hlf' : local_version_file self = OS.path_string (T ++ ["version.json"])).
  { rewrite Hlf, HT. apply (path_join_canonical T ["version.json"]);
      [assumption|now repeat constructor|discriminate]. }
  assert (Hlocal : get_local_version self (with_tree w t')
                   = (Ok (PStr version), with_tree w t')).
  { rewrite (get_local_version_canonical self _ T "version.json");
      [|assumption|assumption|reflexivity|].
    - simpl tree. rewrite <- Hst, (Hfiles m data) by assumption.
      unfold recorded_version. now rewrite Hdoc, Hver.
    - intros q Hq. simpl. apply Hdirs. now apply Hthere. }
  assert (Hremote : get_remote_version self (with_tree w t')
                    = (Ok (PStr version), with_tree w t')).
  { unfold get_remote_version, try_except, bind, requests_get. simpl http.
    rewrite Hrv. rewrite raise_for_status_passes by assumption.
    unfold json_decode. rewrite Hjv. unfold ret, dict_get. now rewrite Hver. }
  rewrite (check_for_updates_strings self _ version version Hlocal Hremote).
  now rewrite ltb_irrefl.
Qed.

End InstallProperties.

(** ** Properties of [AutoUpdater.__init__] *)

Section InitProperties.

Lemma normpath_canonical T :
  Forall (fun c => plain c = true) T ->
  OS.normpath (OS.path_string T) = OS.path_string T.
Proof.
  intros HT. destruct T as [|c T]; [reflexivity|].
  unfold OS.normpath. unfold OS.path_string at 1. cbn [String.eqb].
  rewrite split_sep_path_string by done.
  assert (Hone : match OS.path_string (c :: T) with
                 | String "/" (String "/" (String "/" _)) => 1
                 | String "/" (String "/" _) => 2
                 | String "/" _ => 1
                 | _ => 0
                 end = 1).
  { unfold OS.path_string. inversion HT as [|? ? Hc _]; subst.
    apply plain_parts in Hc as (_ & _ & Hs & Hc).
    destruct c as [|x c]; [congruence|].
    rewrite join_sep_push. simpl in Hs. apply orb_false_iff in Hs as [Hx _].
    unfold PyStr.is_sep in Hx. apply Ascii.eqb_neq in Hx.
    destruct x as [[] [] [] [] [] [] [] []]; try reflexivity. congruence. }
  rewrite Hone. cbn [fold_left].
  change (OS.is_here "") with true. cbv iota.
  inversion HT as [|? ? Hc HT']; subst.
  apply plain_parts in Hc as (Hh & Hu & _ & _). rewrite Hh, Hu. cbn [negb orb].
  rewrite normpath_fold by assumption. reflexivity.
Qed.

(** X9: built with the default [target_dir], the updater works in the
    current directory: [target_dir] is the text of the working
    directory and the version record is [version.json] in it. *)
Theorem AutoUpdater_init_current_directory w owner repo branch :
  Forall (fun c => plain c = true) (cwd w) ->
  target_dir (AutoUpdater_init w owner repo branch ".") = OS.path_string (cwd w) /\
  local_version_file (AutoUpdater_init w owner repo branch ".")
  = OS.path_string (cwd w ++ ["version.json"]).
Proof.
  intros Hcwd. destruct (AutoUpdater_init_here w owner repo branch Hcwd) as [Ht Hl].
  split; [exact Ht|]. rewrite Hl, Ht.
  apply (path_join_canonical (cwd w) ["version.json"]);
    [assumption|now repeat constructor|discriminate].
Qed.

(** X10: a [target_dir] given as a clean absolute path is kept as it
    is, whatever the working directory, and the version record is
    [version.json] below it. *)
Theorem AutoUpdater_init_absolute w owner repo branch T :
  Forall (fun c => plain c = true) T ->
  target_dir (AutoUpdater_init w owner repo branch (OS.path_string T))
  = OS.path_string T /\
  local_version_file (AutoUpdater_init w owner repo branch (OS.path_string T))
  = OS.path_string (T ++ ["version.json"]).
Proof.
  intros HT.
  assert (Ht : target_dir (AutoUpdater_init w owner repo branch (OS.path_string T))
               = OS.path_string T).
  { simpl. unfold OS.abspath. unfold OS.path_string at 1.
    cbn [PyStr.startswith_sep]. rewrite is_sep_slash.
    now apply normpath_canonical. }
  split; [exact Ht|].
  change (local_version_file (AutoUpdater_init w owner repo branch (OS.path_string T)))
    with (OS.path_join
            (target_dir (AutoUpdater_init w owner repo branch (OS.path_string T)))
            "version.json").
  rewrite Ht.
  apply (path_join_canonical T ["version.json"]);
    [assumption|now repeat constructor|discriminate].
Qed.

End InitProperties.

(** ** Properties of [test2/main.py] *)

Section SingleFileProperties.
Context `{Decoders} `{TextDecoder} `{Host}.

Lemma download_world url w : exists res, SingleFile.download url w = (res, w).
Proof.
  unfold SingleFile.download, SingleFile.requests_get_value, bind.
  destruct url; try (now eexists). unfold requests_get.
  destruct (http w s) as [|r]; [now eexists|].
  unfold raise_for_status.
  destruct ((400 <=? status_code r)%Z && (status_code r <? 600)%Z); now eexists.
Qed.

Lemma open_wb_outcomes s w :
  (exists e, OS.open_wb s w = (Raise e, w)) \/
  (exists f, OS.open_wb s w = (Ok f, with_tree w (<[f := File []]> (tree w)))).
Proof.
  unfold OS.open_wb. destruct (OS.resolve w s) as [[d c]|]; [|left; now eexists].
  destruct (OS.is_here c || OS.is_up c); [left; now eexists|].
  destruct (OS.lookup_node (tree w) (d ++ [c])) as [[text|]|];
    [right|left|right]; now eexists.
Qed.

(** What [perform_update] does once the text is there and looks like
    code: the script is opened, written as far as the device stores
    it, and the process is replaced when the loader does it. *)
Lemma perform_update_writes file url version w new_code f :
  SingleFile.download url w = (Ok new_code, w) ->
  PyText.contains "def " new_code || PyText.contains "import " new_code = true ->
  fst (OS.open_wb (OS.abspath w file) w) = Ok f ->
  SingleFile.perform_update file url version w
  = match write_fault (snd (OS.open_wb (OS.abspath w file) w)) f
            (PyText.encode new_code) with
    | Some n =>
        (Returns,
         with_tree w (<[f := File (firstn n (PyText.encode new_code))]> (tree w)))
    | None =>
        (if execv_fault
              (with_tree w (<[f := File (PyText.encode new_code)]> (tree w)))
              (executable w) (executable w :: argv w)
         then Returns
         else Execs (executable w) (executable w :: argv w),
         with_tree w (<[f := File (PyText.encode new_code)]> (tree w)))
    end.
Proof.
  intros Hd Hcode Hopen. unfold SingleFile.perform_update. rewrite Hd.
  apply orb_true_iff in Hcode.
  assert (Hgate : negb (PyText.contains "def " new_code)
                  && negb (PyText.contains "import " new_code) = false).
  { destruct Hcode as [-> | ->]; [reflexivity|apply andb_false_r]. }
  rewrite Hgate. unfold SingleFile.overwrite, bind.
  destruct (open_wb_outcomes (OS.abspath w file) w) as [[e Eo]|[f' Eo]];
    rewrite Eo in *; simpl in Hopen; [discriminate|].
  injection Hopen as ->. simpl snd. unfold SingleFile.write.
  destruct (write_fault _ f (PyText.encode new_code)) as [n|].
  - simpl. now rewrite insert_insert_eq.
  - unfold SingleFile.restart_script, SingleFile.execv. simpl.
    rewrite insert_insert_eq.
    destruct (execv_fault _ _ _); reflexivity.
Qed.

(** X17: [perform_update] never raises and touches no file but the
    script.  Either it comes back with every file as it was (the
    download failed, the text holds neither [def ] nor [import ], or
    the script cannot be opened); or the script has been opened, and
    then it holds a first part of the downloaded text: all of it when
    the process is replaced, and what the device had stored, possibly
    nothing, when the writing or [os.execv] failed and
    [perform_update] comes back. *)
Theorem perform_update_outcomes file url version w :
  SingleFile.perform_update file url version w = (Returns, w) \/
  exists new_code f n,
    SingleFile.download url w = (Ok new_code, w) /\
    PyText.contains "def " new_code || PyText.contains "import " new_code = true /\
    fst (OS.open_wb (OS.abspath w file) w) = Ok f /\
    snd (SingleFile.perform_update file url version w)
    = with_tree w (<[f := File (firstn n (PyText.encode new_code))]> (tree w)) /\
    (fst (SingleFile.perform_update file url version w) = Returns \/
     fst (SingleFile.perform_update file url version w)
     = Execs (executable w) (executable w :: argv w) /\
     firstn n (PyText.encode new_code) = PyText.encode new_code).
Proof.
  destruct (download_world url w) as [[new_code|e] E];
    [|left; unfold SingleFile.perform_update; now rewrite E].
  destruct (negb (PyText.contains "def " new_code)
            && negb (PyText.contains "import " new_code)) eqn:G;
    [left; unfold SingleFile.perform_update; now rewrite E, G|].
  assert (Hcode : PyText.contains "def " new_code
                  || PyText.contains "import " new_code = true).
  { apply andb_false_iff in G as [G|G]; apply negb_false_iff in G; rewrite G;
      [reflexivity|apply orb_true_r]. }
  destruct (open_wb_outcomes (OS.abspath w file) w) as [[e Eo]|[f Eo]].
  { left. unfold SingleFile.perform_update. rewrite E, G.
    unfold SingleFile.overwrite, bind. now rewrite Eo. }
  assert (Hopen : fst (OS.open_wb (OS.abspath w file) w) = Ok f) by now rewrite Eo.
  right. exists new_code, f.
  rewrite (perform_update_writes file url version w new_code f) by assumption.
  destruct (write_fault _ f (PyText.encode new_code)) as [n|].
  - exists n. repeat split; try assumption. now left.
  - exists (length (PyText.encode new_code)). rewrite firstn_all.
    repeat split; try assumption. simpl.
    destruct (execv_fault _ _ _); [now left|now right].
Qed.

(** X28: when the device gives up after the script has been opened,
    [perform_update] comes back without a restart and without putting
    the old script back: the script holds the bytes stored before the
    fault, none at all when the first write fails. *)
Theorem perform_update_write_fault file url version w new_code f n :
  SingleFile.download url w = (Ok new_code, w) ->
  PyText.contains "def " new_code || PyText.contains "import " new_code = true ->
  fst (OS.open_wb (OS.abspath w file) w) = Ok f ->
  write_fault (snd (OS.open_wb (OS.abspath w file) w)) f (PyText.encode new_code)
  = Some n ->
  SingleFile.perform_update file url version w
  = (Returns,
     with_tree w (<[f := File (firstn n (PyText.encode new_code))]> (tree w))).
Proof.
  intros Hd Hcode Hopen Hw.
  rewrite (perform_update_writes file url version w new_code f) by assumption.
  now rewrite Hw.
Qed.

(** X29: when the new text is written and [os.execv] raises,
    [perform_update] comes back: the new script is in place and the
    process that runs is still the old one. *)
Theorem perform_update_execv_fault file url version w new_code f :
  SingleFile.download url w = (Ok new_code, w) ->
  PyText.contains "def " new_code || PyText.contains "import " new_code = true ->
  fst (OS.open_wb (OS.abspath w file) w) = Ok f ->
  write_fault (snd (OS.open_wb (OS.abspath w file) w)) f (PyText.encode new_code)
  = None ->
  execv_fault (with_tree w (<[f := File (PyText.encode new_code)]> (tree w)))
              (executable w) (executable w :: argv w) = true ->
  SingleFile.perform_update file url version w
  = (Returns, with_tree w (<[f := File (PyText.encode new_code)]> (tree w))).
Proof.
  intros Hd Hcode Hopen Hw Hx.
  rewrite (perform_update_writes file url version w new_code f) by assumption.
  now rewrite Hw, Hx.
Qed.

(** The check, once the manifest is a JSON object. *)
Lemma single_file_check_object file w r d :
  http w SingleFile.VERSION_FILE_URL = Responds r -> ~ error_status r ->
  json_loads (content r) = Some (PDict d) ->
  SingleFile.check_for_updates file w
  = match Py.gt (match Py.assoc "version" d with Some v => v | None => PNone end)
                (PStr SingleFile.CURRENT_VERSION) with
    | Some true =>
        SingleFile.perform_update file
          (match Py.assoc "url" d with Some u => u | None => PNone end)
          (match Py.assoc "version" d with Some v => v | None => PNone end) w
    | Some false => (Returns, w)
    | None => (Dies TypeError, w)
    end.
Proof.
  intros Hr Hs Hj.
  unfold SingleFile.check_for_updates, SingleFile.fetch_manifest, bind, requests_get.
  rewrite Hr. rewrite raise_for_status_passes by assumption.
  unfold json_decode. rewrite Hj. unfold dict_get, greater, ret, raise.
  cbn beta iota.
  destruct (Py.gt _ (PStr SingleFile.CURRENT_VERSION)) as [[]|]; reflexivity.
Qed.

(** X18: the one-file updater does not take a manifest without
    [version]: the manifest arrives, is JSON, and the script dies of
    the [TypeError] of the comparison with [None] (of an
    [AttributeError] when the manifest is not an object), which
    neither [except] clause catches. *)
Theorem single_file_manifest_without_version file w r data :
  http w SingleFile.VERSION_FILE_URL = Responds r -> ~ error_status r ->
  json_loads (content r) = Some data -> lacks_version data ->
  exists e,
    SingleFile.check_for_updates file w = (Dies e, w) /\
    (e = TypeError \/ e = AttributeError).
Proof.
  intros Hr Hs Hj Hl.
  destruct data as [| | | | | |d];
    try (exists AttributeError; split; [|now right];
         unfold SingleFile.check_for_updates, SingleFile.fetch_manifest, bind,
           requests_get;
         rewrite Hr; rewrite raise_for_status_passes by assumption;
         unfold json_decode; rewrite Hj; reflexivity).
  exists TypeError. split; [|now left].
  rewrite (single_file_check_object file w r d) by assumption.
  simpl in Hl. rewrite Hl. reflexivity.
Qed.


(** X20: the published version is compared, as a string, with the
    version written in the script: when it does not come after "1.0.1"
    in the lexicographic order, nothing is downloaded or written,
    whatever address the manifest gives. *)
Theorem single_file_not_newer file w r d remote :
  http w SingleFile.VERSION_FILE_URL = Responds r -> ~ error_status r ->
  json_loads (content r) = Some (PDict d) ->
  Py.assoc "version" d = Some (PStr remote) ->
  ~ lex_lt SingleFile.CURRENT_VERSION remote ->
  SingleFile.check_for_updates file w = (Returns, w).
Proof.
  intros Hr Hs Hj Hv Hn.
  rewrite (single_file_check_object file w r d) by assumption.
  rewrite Hv. cbn [Py.gt]. unfold PyStr.gtb.
  destruct (PyStr.ltb SingleFile.CURRENT_VERSION remote) eqn:E; [|reflexivity].
  exfalso. apply Hn. now apply ltb_lex.
Qed.


(** X22: a newer version without a usable address changes nothing: when
    the manifest has no [url], or one that is not a string, the
    download raises inside [perform_update], which logs it, and the
    script goes on to the application. *)
Theorem single_file_newer_without_url file w r d remote :
  http w SingleFile.VERSION_FILE_URL = Responds r -> ~ error_status r ->
  json_loads (content r) = Some (PDict d) ->
  Py.assoc "version" d = Some (PStr remote) ->
  lex_lt SingleFile.CURRENT_VERSION remote ->
  is_str (match Py.assoc "url" d with Some u => u | None => PNone end) = false ->
  SingleFile.check_for_updates file w = (Returns, w).
Proof.
  intros Hr Hs Hj Hv Hlt Hu.
  rewrite (single_file_check_object file w r d) by assumption.
  rewrite Hv. cbn [Py.gt]. unfold PyStr.gtb.
  apply ltb_lex in Hlt. rewrite Hlt.
  unfold SingleFile.perform_update, SingleFile.download,
    SingleFile.requests_get_value, bind.
  destruct (match Py.assoc "url" d with Some u => u | None => PNone end);
    try discriminate; reflexivity.
Qed.

End SingleFileProperties.

(** ** The claims on the small installation *)

#[local] Existing Instance Demo.decoders.

(** C1 on [Demo.outdated]: 1.0.0 installed, 1.0.1 published. *)
Lemma check_for_updates_lexicographic_witness :
  exists available,
    check_for_updates (Demo.updater (Demo.outdated Demo.server_error))
                      (Demo.outdated Demo.server_error)
    = (Ok (available, PStr "1.0.0", PStr "1.0.1"), Demo.outdated Demo.server_error) /\
    (available = true <-> lex_lt "1.0.0" "1.0.1") /\
    ("1.0.1" = "1.0.0" -> available = false).
Proof.
  apply (check_for_updates_lexicographic
           (Demo.updater (Demo.outdated Demo.server_error))
           (Demo.outdated Demo.server_error) "1.0.0" "1.0.1");
    vm_compute; reflexivity.
Defined.

(** C8 on [Demo.fresh], where there is no version record. *)
Lemma get_local_version_absent_witness :
  get_local_version (Demo.updater Demo.fresh) Demo.fresh
  = (Ok (PStr "0.0.0"), Demo.fresh).
Proof.
  apply (get_local_version_absent (Demo.updater Demo.fresh) Demo.fresh).
  vm_compute. reflexivity.
Defined.

(** C10 on [Demo.damaged], whose version record is the JSON text [[1]]. *)
Lemma get_local_version_unusable_witness :
  get_local_version (Demo.updater Demo.damaged) Demo.damaged
  = (Ok (PStr "0.0.0"), Demo.damaged) /\
  forall remote,
    fst (get_remote_version (Demo.updater Demo.damaged) Demo.damaged)
    = Ok (PStr remote) ->
    exists available,
      check_for_updates (Demo.updater Demo.damaged) Demo.damaged
      = (Ok (available, PStr "0.0.0", PStr remote), Demo.damaged) /\
      (available = true <-> lex_lt "0.0.0" remote).
Proof.
  apply (get_local_version_unusable (Demo.updater Demo.damaged) Demo.damaged).
  split; [vm_compute; reflexivity|]. right.
  exists (Demo.bytes "[1]"). split; [vm_compute; reflexivity|]. right.
  exists (PList [PInt 1]). split; [vm_compute; reflexivity|exact I].
Defined.

(** C7, as the code has it: [Demo.offline], whose manifest request is
    answered by HTTP 500, and the same installation with the manifest
    of 1.0.1 under the status 600. *)
Lemma check_for_updates_remote_failure_witness :
  (exists local_ver,
     get_local_version (Demo.updater Demo.offline) Demo.offline
     = (Ok local_ver, Demo.offline) /\
     check_for_updates (Demo.updater Demo.offline) Demo.offline
     = (Ok (false, local_ver, PNone), Demo.offline)) /\
  (exists available,
     check_for_updates (Demo.updater (Lab.answered 600)) (Lab.answered 600)
     = (Ok (available, PStr "1.0.0", PStr "1.0.1"), Lab.answered 600) /\
     (available = true <-> lex_lt "1.0.0" "1.0.1")).
Proof.
  split.
  - apply (proj1 (check_for_updates_remote_failure
                    (Demo.updater Demo.offline) Demo.offline)).
    right.
    exists {| status_code := 500; content := Demo.bytes "Internal Server Error" |}.
    split; [vm_compute; reflexivity|]. unfold error_status. simpl. lia.
  - apply (proj2 (check_for_updates_remote_failure
                    (Demo.updater (Lab.answered 600)) (Lab.answered 600))
             {| status_code := 600; content := Demo.bytes (Demo.manifest "1.0.1") |}
             [("version", PStr "1.0.1")] "1.0.0" "1.0.1").
    + vm_compute. reflexivity.
    + unfold error_status. simpl. lia.
    + vm_compute. reflexivity.
    + reflexivity.
    + vm_compute. reflexivity.
Defined.

(** C7, as the claim has it, fails: the status 300 is not a success,
    the manifest of 1.0.1 is in the body of the answer, and the check
    reports an update. *)
Lemma check_for_updates_trusts_status_300 :
  http (Lab.answered 300) (version_url (Demo.updater (Lab.answered 300)))
  = Responds {| status_code := 300; content := Demo.bytes (Demo.manifest "1.0.1") |} /\
  check_for_updates (Demo.updater (Lab.answered 300)) (Lab.answered 300)
  = (Ok (true, PStr "1.0.0", PStr "1.0.1"), Lab.answered 300).
Proof. split; vm_compute; reflexivity. Qed.

(** C2, as the code has it, on [Demo.versionless]. *)
Lemma check_for_updates_manifest_lacks_version_witness :
  exists local_ver log_local,
    get_local_version (Demo.updater Demo.versionless) Demo.versionless
    = (Ok local_ver, Demo.versionless) /\
    check_for_updates (Demo.updater Demo.versionless) Demo.versionless
    = (Ok (false, local_ver, PNone), Demo.versionless) /\
    Logged.get_local_version (Demo.updater Demo.versionless) Demo.versionless
    = (Ok local_ver, Demo.versionless, log_local) /\
    Logged.check_for_updates (Demo.updater Demo.versionless) Demo.versionless
    = (Ok (false, local_ver, PNone), Demo.versionless,
       log_local ++ [] ++ [Logged.SystemUpToDate local_ver]).
Proof.
  apply (check_for_updates_manifest_lacks_version
           (Demo.updater Demo.versionless) Demo.versionless
           {| status_code := 200; content := Demo.bytes Demo.no_version |}
           (PDict [("url", PStr "x")])).
  - vm_compute. reflexivity.
  - unfold error_status. simpl. lia.
  - vm_compute. reflexivity.
  - vm_compute. reflexivity.
Defined.

(** C2, as the claim has it, fails.  The manifest of
    [Demo.versionless] is an object without [version]; the check
    raises nothing and logs no error, its one record says that the
    system is up to date.  A failed request is another matter: on
    [Demo.offline] the answer is the same and the error is logged. *)
Lemma check_for_updates_manifest_lacks_version_logs_no_error :
  manifest_lacks_version (Demo.updater Demo.versionless) Demo.versionless /\
  Logged.check_for_updates (Demo.updater Demo.versionless) Demo.versionless
  = (Ok (false, PStr "1.0.0", PNone), Demo.versionless,
     [Logged.SystemUpToDate (PStr "1.0.0")]) /\
  Logged.check_for_updates (Demo.updater Demo.offline) Demo.offline
  = (Ok (false, PStr "1.0.0", PNone), Demo.offline,
     [Logged.FailedToCheckRemoteVersion HTTPError;
      Logged.SystemUpToDate (PStr "1.0.0")]).
Proof.
  split; [|split; vm_compute; reflexivity].
  exists {| status_code := 200; content := Demo.bytes Demo.no_version |},
         (PDict [("url", PStr "x")]).
  split; [vm_compute; reflexivity|]. split; [unfold error_status; simpl; lia|].
  split; vm_compute; reflexivity.
Qed.

(** C4 on [Demo.lived_in] with the archive [Demo.one_root]. *)
Lemma do_update_single_root_witness :
  exists w',
    do_update (Demo.updater Demo.lived_in) Demo.lived_in = (Ok true, w') /\
    forall m,
      m ∈ Demo.one_root -> is_dir m = false ->
      exists rel_path data,
        filename m = "Repo-main/" +:+ rel_path /\
        rel_path = PyStr.join_sep (stripped m) /\
        payload m = Some data /\
        tree w' !! (["srv"; "app"] ++ stripped m) = Some (File data) /\
        OS.read_file (OS.path_join (target_dir (Demo.updater Demo.lived_in)) rel_path) w'
        = (Ok data, w').
Proof.
  apply (do_update_single_root (Demo.updater Demo.lived_in) Demo.lived_in
           ["srv"; "app"]
           {| status_code := 200; content := Demo.bytes "one-root.zip" |}).
  - vm_compute. reflexivity.
  - repeat constructor.
  - vm_compute. reflexivity.
  - unfold error_status. simpl. lia.
  - vm_compute. reflexivity.
  - vm_compute. reflexivity.
  - vm_compute. reflexivity.
Defined.

(** C3, as the code has it, on the archive [Demo.no_root]. *)
Lemma do_update_member_without_separator_witness :
  do_update (Demo.updater (Demo.outdated (Demo.ok "no-root.zip")))
            (Demo.outdated (Demo.ok "no-root.zip"))
  = (Ok false,
     snd (for_each [Demo.first_of_no_root]
            (extract_member (Demo.updater (Demo.outdated (Demo.ok "no-root.zip"))))
            (Demo.outdated (Demo.ok "no-root.zip")))).
Proof.
  apply (do_update_member_without_separator
           (Demo.updater (Demo.outdated (Demo.ok "no-root.zip")))
           (Demo.outdated (Demo.ok "no-root.zip"))
           {| status_code := 200; content := Demo.bytes "no-root.zip" |}
           [Demo.first_of_no_root] Demo.bare [Demo.last_of_no_root]).
  - vm_compute. reflexivity.
  - unfold error_status. simpl. lia.
  - vm_compute. reflexivity.
  - vm_compute. reflexivity.
  - vm_compute. reflexivity.
Defined.

(** C3, as the claim has it, fails: the second member of
    [Demo.two_roots] does not lie below the root folder of the first,
    and still [do_update] returns [True], having written that member
    and the one after it. *)
Lemma do_update_mixed_roots_installs :
  zip_members (Demo.bytes "two-roots.zip") = Some Demo.two_roots /\
  map root_of Demo.two_roots = ["Repo-main"; "Other"; "Repo-main"] /\
  fst (do_update (Demo.updater (Demo.outdated (Demo.ok "two-roots.zip")))
                 (Demo.outdated (Demo.ok "two-roots.zip"))) = Ok true /\
  tree (Demo.outdated (Demo.ok "two-roots.zip")) !! ["srv"; "app"; "c.txt"] = None /\
  tree (snd (do_update (Demo.updater (Demo.outdated (Demo.ok "two-roots.zip")))
                       (Demo.outdated (Demo.ok "two-roots.zip"))))
    !! ["srv"; "app"; "b.txt"] = Some (File (Demo.bytes "B")) /\
  tree (snd (do_update (Demo.updater (Demo.outdated (Demo.ok "two-roots.zip")))
                       (Demo.outdated (Demo.ok "two-roots.zip"))))
    !! ["srv"; "app"; "c.txt"] = Some (File (Demo.bytes "C")).
Proof. repeat split; vm_compute; reflexivity. Qed.

(** C9 on [Demo.lived_in] and the member [src/main.py]: the directory
    [src] is not there before. *)
Lemma extract_member_makes_parents_then_writes_witness :
  exists w1 w2 w3,
    OS.makedirs (OS.path_dirname
                   (OS.path_join (target_dir (Demo.updater Demo.lived_in))
                                 (PyStr.join_sep (stripped Demo.main_py))))
                Demo.lived_in = (Ok tt, w1) /\
    (forall q, q ∈ parents (["srv"; "app"] ++ stripped Demo.main_py) ->
               tree w1 !! q = Some Dir) /\
    (forall q, q ∉ parents (["srv"; "app"] ++ stripped Demo.main_py) ->
               tree w1 !! q = tree Demo.lived_in !! q) /\
    OS.open_wb (OS.path_join (target_dir (Demo.updater Demo.lived_in))
                             (PyStr.join_sep (stripped Demo.main_py))) w1
    = (Ok (["srv"; "app"] ++ stripped Demo.main_py), w2) /\
    OS.write (["srv"; "app"] ++ stripped Demo.main_py) (Demo.bytes "print(1)") w2
    = (Ok tt, w3) /\
    extract_member (Demo.updater Demo.lived_in) Demo.main_py Demo.lived_in = (Ok tt, w3) /\
    tree w3 !! (["srv"; "app"] ++ stripped Demo.main_py)
    = Some (File (Demo.bytes "print(1)")) /\
    (forall q, q <> ["srv"; "app"] ++ stripped Demo.main_py ->
               tree w3 !! q = tree w1 !! q).
Proof.
  apply (extract_member_makes_parents_then_writes
           (Demo.updater Demo.lived_in) Demo.lived_in ["srv"; "app"]
           Demo.main_py (Demo.bytes "print(1)")).
  - vm_compute. reflexivity.
  - repeat constructor.
  - vm_compute. reflexivity.
  - reflexivity.
  - intros q Hq. apply list_elem_of_In in Hq. vm_compute in Hq.
    destruct Hq as [<-|[<-|[<-|[]]]]; vm_compute; reflexivity.
  - vm_compute. reflexivity.
Defined.

(** The same step on a file that is there: [a.txt] holds [old] before
    and the bytes of the member after. *)
Lemma extract_member_overwrites_a_txt :
  tree Demo.lived_in !! ["srv"; "app"; "a.txt"] = Some (File (Demo.bytes "old")) /\
  fst (extract_member (Demo.updater Demo.lived_in) Demo.first_of_no_root Demo.lived_in)
  = Ok tt /\
  tree (snd (extract_member (Demo.updater Demo.lived_in) Demo.first_of_no_root
               Demo.lived_in))
    !! ["srv"; "app"; "a.txt"] = Some (File (Demo.bytes "A")).
Proof. repeat split; vm_compute; reflexivity. Qed.



(** C6, where the code departs from it: with [--update], version 1.0.1
    published and the download of the archive answered by HTTP 500,
    [do_update] returns [False] and the command line dispatch goes on
    to [restart_program], which replaces the process. *)
Theorem cli_update_restarts_after_failed_install :
  fst (check_for_updates (Demo.updater (Demo.outdated Demo.server_error))
                         (Demo.outdated Demo.server_error))
  = Ok (true, PStr "1.0.0", PStr "1.0.1") /\
  do_update (Demo.updater (Demo.outdated Demo.server_error))
            (Demo.outdated Demo.server_error)
  = (Ok false, Demo.outdated Demo.server_error) /\
  cli_main Demo.update_flag (Demo.outdated Demo.server_error)
  = (Execs "/usr/bin/python3" ["/usr/bin/python3"; "updater.py"; "--update"],
     Demo.outdated Demo.server_error).
Proof. repeat split; vm_compute; reflexivity. Qed.

(** The start-up code of [main.py] in the same situation: the failed
    install is followed by the application, not by an exit. *)
Lemma host_main_runs_on_after_failed_install :
  host_main "y" (Demo.outdated Demo.server_error)
  = (Returns, Demo.outdated Demo.server_error).
Proof. vm_compute. reflexivity. Qed.

(** ** The further properties on the small installations *)

(** X2 on [Lab.numeric_published]: the version installed is the string
    1.0.0, the version published is the number 2. *)
Lemma check_for_updates_mixed_types_witness :
  @check_for_updates Lab.decoders (Demo.updater Lab.numeric_published)
                     Lab.numeric_published
  = (Raise TypeError, Lab.numeric_published).
Proof.
  apply (@check_for_updates_mixed_types Lab.decoders
           (Demo.updater Lab.numeric_published) Lab.numeric_published
           (PStr "1.0.0") (PInt 2)); vm_compute; reflexivity.
Defined.

(** X3 on [Demo.outdated Demo.server_error]. *)
Lemma do_update_without_archive_witness :
  do_update (Demo.updater (Demo.outdated Demo.server_error))
            (Demo.outdated Demo.server_error)
  = (Ok false, Demo.outdated Demo.server_error).
Proof.
  apply (do_update_without_archive (Demo.updater (Demo.outdated Demo.server_error))
           (Demo.outdated Demo.server_error)).
  right. exists {| status_code := 500; content := Demo.bytes "Internal Server Error" |}.
  split; [vm_compute; reflexivity|]. left. unfold error_status. simpl. lia.
Defined.

(** X4 on [Lab.directories_offered]. *)
Lemma do_update_only_directories_witness :
  @do_update Lab.decoders (Demo.updater Lab.directories_offered)
             Lab.directories_offered
  = (Ok true, Lab.directories_offered).
Proof.
  apply (@do_update_only_directories Lab.decoders
           (Demo.updater Lab.directories_offered) Lab.directories_offered
           {| status_code := 200; content := Demo.bytes "directories.zip" |}
           Lab.directories).
  - vm_compute. reflexivity.
  - unfold error_status. simpl. lia.
  - vm_compute. reflexivity.
  - discriminate.
  - repeat constructor.
Defined.

(** X5 on [Demo.lived_in]: [a.txt] holds [old] and is to be replaced by
    a member that cannot be read. *)
Lemma extract_member_unreadable_witness :
  exists w',
    extract_member (Demo.updater Demo.lived_in) Lab.unreadable Demo.lived_in
    = (Raise BadZipFile, w') /\
    tree w' !! (["srv"; "app"] ++ stripped Lab.unreadable) = Some (File []).
Proof.
  apply (extract_member_unreadable (Demo.updater Demo.lived_in) Demo.lived_in
           ["srv"; "app"] Lab.unreadable).
  - vm_compute. reflexivity.
  - repeat constructor.
  - vm_compute. reflexivity.
  - reflexivity.
  - intros q Hq. apply list_elem_of_In in Hq. vm_compute in Hq.
    destruct Hq as [<-|[<-|[]]]; vm_compute; reflexivity.
  - vm_compute. reflexivity.
Defined.

(** X6 on [Demo.lived_in]: the member goes below [a.txt], which is a file. *)
Lemma extract_member_way_taken_witness :
  exists w',
    extract_member (Demo.updater Demo.lived_in) Lab.below_a_file Demo.lived_in
    = (Raise OSError, w').
Proof.
  apply (extract_member_way_taken (Demo.updater Demo.lived_in) Demo.lived_in
           ["srv"; "app"] Lab.below_a_file).
  - vm_compute. reflexivity.
  - repeat constructor.
  - vm_compute. reflexivity.
  - left. exists ["srv"; "app"; "a.txt"]. split.
    + apply list_elem_of_In. vm_compute. right. right. left. reflexivity.
    + vm_compute. reflexivity.
Defined.

(** X7 on the archive [Demo.two_roots]. *)
Lemma do_update_strips_each_first_folder_witness :
  exists w',
    do_update (Demo.updater (Demo.outdated (Demo.ok "two-roots.zip")))
              (Demo.outdated (Demo.ok "two-roots.zip")) = (Ok true, w') /\
    forall m, m ∈ Demo.two_roots -> is_dir m = false ->
      exists data,
        payload m = Some data /\
        tree w' !! (["srv"; "app"] ++ stripped m) = Some (File data) /\
        OS.read_file
          (OS.path_join
             (target_dir (Demo.updater (Demo.outdated (Demo.ok "two-roots.zip"))))
             (PyStr.join_sep (stripped m))) w'
        = (Ok data, w').
Proof.
  apply (do_update_strips_each_first_folder
           (Demo.updater (Demo.outdated (Demo.ok "two-roots.zip")))
           (Demo.outdated (Demo.ok "two-roots.zip")) ["srv"; "app"]
           {| status_code := 200; content := Demo.bytes "two-roots.zip" |}).
  - vm_compute. reflexivity.
  - repeat constructor.
  - vm_compute. reflexivity.
  - unfold error_status. simpl. lia.
  - vm_compute. reflexivity.
  - discriminate.
  - repeat constructor; right; vm_compute; reflexivity.
  - vm_compute. reflexivity.
Defined.

(** X8 on [Demo.lived_in]: the member [Repo-main//tmp/x] goes to [/tmp/x]. *)
Lemma extract_member_absolute_name_witness :
  exists w',
    extract_member (Demo.updater Demo.lived_in) Lab.absolute Demo.lived_in = (Ok tt, w') /\
    tree w' !! ["tmp"; "x"] = Some (File (Demo.bytes "X")).
Proof.
  apply (extract_member_absolute_name (Demo.updater Demo.lived_in) Demo.lived_in
           "Repo-main" ["tmp"; "x"] Lab.absolute (Demo.bytes "X")).
  - reflexivity.
  - reflexivity.
  - discriminate.
  - repeat constructor.
  - reflexivity.
  - intros q Hq. apply list_elem_of_In in Hq. vm_compute in Hq.
    destruct Hq as [<-|[]]. vm_compute. reflexivity.
  - vm_compute. reflexivity.
Defined.

(** X9 on [Demo.fresh], whose working directory is [/srv/app]. *)
Lemma AutoUpdater_init_current_directory_witness :
  target_dir (AutoUpdater_init Demo.fresh "o" "r" "b" ".")
  = OS.path_string (cwd Demo.fresh) /\
  local_version_file (AutoUpdater_init Demo.fresh "o" "r" "b" ".")
  = OS.path_string (cwd Demo.fresh ++ ["version.json"]).
Proof.
  apply (AutoUpdater_init_current_directory Demo.fresh "o" "r" "b").
  repeat constructor.
Defined.

(** X10 with the target [/opt/tool], from the working directory [/srv/app]. *)
Lemma AutoUpdater_init_absolute_witness :
  target_dir (AutoUpdater_init Demo.fresh "o" "r" "b" (OS.path_string ["opt"; "tool"]))
  = OS.path_string ["opt"; "tool"] /\
  local_version_file
    (AutoUpdater_init Demo.fresh "o" "r" "b" (OS.path_string ["opt"; "tool"]))
  = OS.path_string (["opt"; "tool"] ++ ["version.json"]).
Proof.
  apply (AutoUpdater_init_absolute Demo.fresh "o" "r" "b" ["opt"; "tool"]).
  repeat constructor.
Defined.

(** X11 with [--check --restart] on [Demo.outdated]. *)
Lemma cli_main_checks_only_witness :
  exists e,
    cli_main Lab.check_and_restart_flags (Demo.outdated (Demo.ok "one-root.zip"))
    = (e, Demo.outdated (Demo.ok "one-root.zip")) /\
    (e = Returns \/ e = Dies TypeError).
Proof.
  apply (cli_main_checks_only Lab.check_and_restart_flags
           (Demo.outdated (Demo.ok "one-root.zip"))); reflexivity.
Defined.

(** X12 with [--update] on [Lab.up_to_date]. *)
Lemma cli_main_update_up_to_date_witness :
  cli_main Demo.update_flag Lab.up_to_date = (Returns, Lab.up_to_date).
Proof.
  apply (cli_main_update_up_to_date Demo.update_flag Lab.up_to_date
           (PStr "1.0.1") (PStr "1.0.1")); vm_compute; reflexivity.
Defined.

(** X13 with the answer [n] on [Demo.outdated]. *)
Lemma host_main_declined_witness :
  exists e,
    host_main "n" (Demo.outdated (Demo.ok "one-root.zip"))
    = (e, Demo.outdated (Demo.ok "one-root.zip")) /\
    (e = Returns \/ e = Dies TypeError).
Proof.
  apply (host_main_declined "n" (Demo.outdated (Demo.ok "one-root.zip"))).
  reflexivity.
Defined.

(** X15 on the archive [Demo.no_root]. *)
Lemma do_update_keeps_files_written_before_failure_witness :
  exists w',
    do_update (Demo.updater (Demo.outdated (Demo.ok "no-root.zip")))
              (Demo.outdated (Demo.ok "no-root.zip")) = (Ok false, w') /\
    forall m data,
      m ∈ [Demo.first_of_no_root] -> is_dir m = false -> payload m = Some data ->
      tree w' !! (["srv"; "app"] ++ stripped m) = Some (File data).
Proof.
  apply (do_update_keeps_files_written_before_failure
           (Demo.updater (Demo.outdated (Demo.ok "no-root.zip")))
           (Demo.outdated (Demo.ok "no-root.zip")) ["srv"; "app"]
           {| status_code := 200; content := Demo.bytes "no-root.zip" |}
           [Demo.first_of_no_root] Demo.bare [Demo.last_of_no_root]).
  - vm_compute. reflexivity.
  - repeat constructor.
  - vm_compute. reflexivity.
  - unfold error_status. simpl. lia.
  - vm_compute. reflexivity.
  - repeat constructor; right; vm_compute; reflexivity.
  - vm_compute. reflexivity.
  - vm_compute. reflexivity.
  - vm_compute. reflexivity.
Defined.

(** X18 on [Lab.without_version]. *)
Lemma single_file_manifest_without_version_witness :
  exists e,
    @SingleFile.check_for_updates Lab.decoders Lab.texts Lab.host "main.py" Lab.without_version
    = (Dies e, Lab.without_version) /\
    (e = TypeError \/ e = AttributeError).
Proof.
  apply (@single_file_manifest_without_version Lab.decoders Lab.texts Lab.host "main.py"
           Lab.without_version
           {| status_code := 200; content := Demo.bytes Demo.no_version |}
           (PDict [("url", PStr "x")])).
  - vm_compute. reflexivity.
  - unfold error_status. simpl. lia.
  - vm_compute. reflexivity.
  - vm_compute. reflexivity.
Defined.


(** X20 on [Lab.same_published]: 1.0.1 is published, 1.0.1 is running. *)
Lemma single_file_not_newer_witness :
  @SingleFile.check_for_updates Lab.decoders Lab.texts Lab.host "main.py" Lab.same_published
  = (Returns, Lab.same_published).
Proof.
  apply (@single_file_not_newer Lab.decoders Lab.texts Lab.host "main.py" Lab.same_published
           {| status_code := 200; content := Demo.bytes (Lab.manifest "1.0.1") |}
           [("version", PStr "1.0.1"); ("url", PStr Lab.script_url)] "1.0.1").
  - vm_compute. reflexivity.
  - unfold error_status. simpl. lia.
  - vm_compute. reflexivity.
  - reflexivity.
  - intros Hlt. apply ltb_lex in Hlt. vm_compute in Hlt. discriminate.
Defined.


(** X22 on [Lab.newer_without_url]. *)
Lemma single_file_newer_without_url_witness :
  @SingleFile.check_for_updates Lab.decoders Lab.texts Lab.host "main.py" Lab.newer_without_url
  = (Returns, Lab.newer_without_url).
Proof.
  apply (@single_file_newer_without_url Lab.decoders Lab.texts Lab.host "main.py"
           Lab.newer_without_url
           {| status_code := 200; content := Demo.bytes (Demo.manifest "1.0.2") |}
           [("version", PStr "1.0.2")] "1.0.2").
  - vm_compute. reflexivity.
  - unfold error_status. simpl. lia.
  - vm_compute. reflexivity.
  - reflexivity.
  - apply ltb_lex. vm_compute. reflexivity.
  - reflexivity.
Defined.

(** X23 on [Lab.empty_published]: the version published is the empty string. *)
Lemma check_for_updates_falsy_remote_witness :
  exists local_ver,
    @get_local_version Lab.decoders (Demo.updater Lab.empty_published)
                       Lab.empty_published
    = (Ok local_ver, Lab.empty_published) /\
    @check_for_updates Lab.decoders (Demo.updater Lab.empty_published)
                       Lab.empty_published
    = (Ok (false, local_ver, PStr ""), Lab.empty_published).
Proof.
  apply (@check_for_updates_falsy_remote Lab.decoders
           (Demo.updater Lab.empty_published) Lab.empty_published (PStr ""));
    vm_compute; reflexivity.
Defined.

(** X24 with [--force --update] on [Demo.outdated]. *)
Lemma cli_main_force_witness :
  cli_main Lab.force_flags (Demo.outdated (Demo.ok "one-root.zip"))
  = restart_program
      (snd (do_update
              (AutoUpdater_init (Demo.outdated (Demo.ok "one-root.zip"))
                                DEFAULT_OWNER DEFAULT_REPO DEFAULT_BRANCH ".")
              (Demo.outdated (Demo.ok "one-root.zip")))).
Proof.
  apply (cli_main_force Lab.force_flags (Demo.outdated (Demo.ok "one-root.zip"))).
  reflexivity.
Defined.

(** X25 on [Demo.lived_in] with the archive [Demo.one_root]. *)
Lemma do_update_leaves_the_rest_witness :
  exists w',
    do_update (Demo.updater Demo.lived_in) Demo.lived_in = (Ok true, w') /\
    (forall q, tree Demo.lived_in !! q = Some Dir -> tree w' !! q = Some Dir) /\
    (forall q,
        (forall p, p ∈ destinations ["srv"; "app"] Demo.one_root ->
                   q <> p /\ q ∉ parents p) ->
        tree w' !! q = tree Demo.lived_in !! q).
Proof.
  apply (do_update_leaves_the_rest (Demo.updater Demo.lived_in) Demo.lived_in
           ["srv"; "app"]
           {| status_code := 200; content := Demo.bytes "one-root.zip" |}).
  - vm_compute. reflexivity.
  - repeat constructor.
  - vm_compute. reflexivity.
  - unfold error_status. simpl. lia.
  - vm_compute. reflexivity.
  - discriminate.
  - repeat constructor; first [left; vm_compute; reflexivity
                              |right; vm_compute; reflexivity].
  - vm_compute. reflexivity.
Defined.

(** X26 on [Demo.lived_in] with the archive [Demo.one_root]. *)
Lemma do_update_twice_witness :
  do_update (Demo.updater Demo.lived_in)
            (snd (do_update (Demo.updater Demo.lived_in) Demo.lived_in))
  = (Ok true, snd (do_update (Demo.updater Demo.lived_in) Demo.lived_in)).
Proof.
  apply (do_update_twice (Demo.updater Demo.lived_in) Demo.lived_in
           ["srv"; "app"]
           {| status_code := 200; content := Demo.bytes "one-root.zip" |}
           Demo.one_root).
  - vm_compute. reflexivity.
  - repeat constructor.
  - vm_compute. reflexivity.
  - unfold error_status. simpl. lia.
  - vm_compute. reflexivity.
  - discriminate.
  - repeat constructor; first [left; vm_compute; reflexivity
                              |right; vm_compute; reflexivity].
  - vm_compute. reflexivity.
  - vm_compute. reflexivity.
Defined.

(** X27 on [Demo.outdated] with the archive [Demo.with_version]. *)
Lemma do_update_then_up_to_date_witness :
  exists w',
    do_update (Demo.updater (Demo.outdated (Demo.ok "with-version.zip")))
              (Demo.outdated (Demo.ok "with-version.zip")) = (Ok true, w') /\
    check_for_updates (Demo.updater (Demo.outdated (Demo.ok "with-version.zip"))) w'
    = (Ok (false, PStr "1.0.1", PStr "1.0.1"), w').
Proof.
  apply (do_update_then_up_to_date
           (Demo.updater (Demo.outdated (Demo.ok "with-version.zip")))
           (Demo.outdated (Demo.ok "with-version.zip")) ["srv"; "app"]
           {| status_code := 200; content := Demo.bytes "with-version.zip" |}
           Demo.with_version Lab.version_member
           (Demo.bytes (Demo.manifest "1.0.1")) [("version", PStr "1.0.1")]
           {| status_code := 200; content := Demo.bytes (Demo.manifest "1.0.1") |}
           "1.0.1").
  - vm_compute. reflexivity.
  - repeat constructor.
  - vm_compute. reflexivity.
  - intros q (p & p' & E & Hp & ->).
    destruct p as [|a [|b [|c p]]]; simpl in E.
    + congruence.
    + injection E as <- _. vm_compute. reflexivity.
    + injection E as <- <- _. vm_compute. reflexivity.
    + discriminate.
  - vm_compute. reflexivity.
  - unfold error_status. simpl. lia.
  - vm_compute. reflexivity.
  - discriminate.
  - repeat constructor; right; vm_compute; reflexivity.
  - vm_compute. reflexivity.
  - apply list_elem_of_In. left. reflexivity.
  - vm_compute. reflexivity.
  - vm_compute. reflexivity.
  - reflexivity.
  - vm_compute. reflexivity.
  - reflexivity.
  - vm_compute. reflexivity.
  - unfold error_status. simpl. lia.
  - vm_compute. reflexivity.
Defined.

(** [main.py] does exit for a restart: on [Demo.lived_in], with the
    answer [y], the install succeeds. *)
Lemma host_main_exits_on_lived_in :
  fst (host_main "y" Demo.lived_in) = Exits.
Proof. vm_compute. reflexivity. Qed.

(** X28 on [Lab.newer_published] with a full disk, and with a disk
    that takes four bytes: the script is left empty, or with the four
    bytes [impo]. *)
Lemma perform_update_write_fault_witness :
  @SingleFile.perform_update Lab.texts Lab.full_disk "main.py"
    (PStr Lab.script_url) (PStr "1.0.2") Lab.newer_published
  = (Returns,
     with_tree Lab.newer_published
       (<[ ["srv"; "app"; "main.py"] := File [] ]> (tree Lab.newer_published))) /\
  @SingleFile.perform_update Lab.texts Lab.four_bytes_left "main.py"
    (PStr Lab.script_url) (PStr "1.0.2") Lab.newer_published
  = (Returns,
     with_tree Lab.newer_published
       (<[ ["srv"; "app"; "main.py"] := File (Demo.bytes "impo") ]>
          (tree Lab.newer_published))).
Proof.
  split.
  - apply (@perform_update_write_fault Lab.texts Lab.full_disk "main.py"
             (PStr Lab.script_url) (PStr "1.0.2") Lab.newer_published
             "import time as t" ["srv"; "app"; "main.py"] 0);
      vm_compute; reflexivity.
  - apply (@perform_update_write_fault Lab.texts Lab.four_bytes_left "main.py"
             (PStr Lab.script_url) (PStr "1.0.2") Lab.newer_published
             "import time as t" ["srv"; "app"; "main.py"] 4);
      vm_compute; reflexivity.
Defined.

(** X29 on [Lab.newer_published] where the interpreter cannot be
    loaded: the new script is written and the old process goes on. *)
Lemma perform_update_execv_fault_witness :
  @SingleFile.perform_update Lab.texts Lab.no_interpreter "main.py"
    (PStr Lab.script_url) (PStr "1.0.2") Lab.newer_published
  = (Returns,
     with_tree Lab.newer_published
       (<[ ["srv"; "app"; "main.py"] := File (Demo.bytes "import time as t") ]>
          (tree Lab.newer_published))).
Proof.
  apply (@perform_update_execv_fault Lab.texts Lab.no_interpreter "main.py"
           (PStr Lab.script_url) (PStr "1.0.2") Lab.newer_published
           "import time as t" ["srv"; "app"; "main.py"]);
    vm_compute; reflexivity.
Defined.
